(** * Cost and tax engine of the tender calculator (src/main.py)

    A shallow embedding of [state_rate] and [calculate_report] together with
    the properties the specification states about them, followed by the
    reader of the database ([load_project]), the dialogs that write to it,
    and properties of how they compose with the engine.

    Conventions of the embedding:
    - Python numbers ([float] and the [int]s mixed into float arithmetic) are
      exact rationals [Q]; [==] is equality of rationals.  Every arithmetic
      operation of the engine is the exact one; the representation error of
      binary64 is outside this model.  Module [Binary64] evaluates the
      min-sale formula on IEEE doubles, where the specification states a
      numerical tolerance.
    - An SQL NULL / Python [None] is [None] of an [option]; the records are
      the dicts [load_project] builds, which hold every key.  Module [Dict]
      reads the quantity from a dict whose keys may be missing.
    - State codes are ASCII strings; [upper] maps a-z to A-Z and leaves every
      other character alone.  The texts typed into the dialogs are the UTF-8
      bytes of the Python strings; [strip] removes the white space of Unicode.
    - The only exception the arithmetic of the engine can raise is
      [ZeroDivisionError]; it is the left summand of [result].
    - [datetime.now().isoformat()] is the parameter [now]. *)

From Stdlib Require Import ZArith QArith Qround Qabs Qminmax Qpower Lqa Lia List Bool String Ascii DecimalString SpecFloat.
From stdpp Require Import gmap strings.
Import ListNotations.

Local Open Scope Q_scope.

(** ** Python primitives used by the engine *)

Inductive exn : Type := ZeroDivisionError.

Definition result (A : Type) : Type := (exn + A)%type.

Definition ret {A : Type} (a : A) : result A := inr a.

Definition bind {A B : Type} (m : result A) (k : A -> result B) : result B :=
  match m with
  | inl e => inl e
  | inr a => k a
  end.

Notation "'let*' x ':=' m 'in' k" := (bind m (fun x => k))
  (at level 10, x name, m at level 100, k at level 200).

(** [a < b] on floats, as a boolean. *)
Definition Qlt_bool (a b : Q) : bool := negb (Qle_bool b a).

(** Truth value of a number: everything but zero. *)
Definition truthy (x : Q) : bool := negb (Qeq_bool x 0).

(** [x or d] for a number that may be [None]. *)
Definition num_or (x : option Q) (d : Q) : Q :=
  match x with
  | Some v => if truthy v then v else d
  | None => d
  end.

(** [n or d] for an integer that may be [None]. *)
Definition int_or (n : option Z) (d : Z) : Z :=
  match n with
  | Some v => if (v =? 0)%Z then d else v
  | None => d
  end.

(** Truth value of a string that may be [None]: non-empty. *)
Definition str_truthy (s : option string) : bool :=
  match s with
  | Some (String _ _) => true
  | _ => false
  end.

(** [a or b] on optional strings. *)
Definition str_or (a b : option string) : option string :=
  if str_truthy a then a else b.

(** [s or ''] . *)
Definition str_or_empty (s : option string) : string :=
  match s with
  | Some (String c r) => String c r
  | _ => EmptyString
  end.

(** [max(a, b)]: the first argument unless the second is strictly larger. *)
Definition py_max (a b : Q) : Q := if Qlt_bool a b then b else a.

(** [a / b] on floats. *)
Definition py_div (a b : Q) : result Q :=
  if Qeq_bool b 0 then inl ZeroDivisionError else ret (a / b).

(** [sum(xs)]: left to right from 0. *)
Definition py_sum (xs : list Q) : Q := fold_left Qplus xs 0.

(** [int(x)]: truncation towards zero. *)
Definition py_int (x : Q) : Z := Z.quot (Qnum x) (Zpos (Qden x)).

(** Nearest integer, ties to the even one. *)
Definition round_half_even (y : Q) : Z :=
  let f := Qfloor y in
  let r := y - inject_Z f in
  if Qlt_bool r (1 # 2) then f
  else if Qlt_bool (1 # 2) r then (f + 1)%Z
  else if Z.even f then f else (f + 1)%Z.

(** [round(x, ndigits)] for [ndigits >= 0]. *)
Definition py_round (x : Q) (ndigits : nat) : Q :=
  let scale := inject_Z (10 ^ Z.of_nat ndigits) in
  inject_Z (round_half_even (x * scale)) / scale.

(** [str(n)] for an integer. *)
Definition py_str (n : Z) : string := NilZero.string_of_int (Z.to_int n).

(** [c.upper()] on one ASCII character. *)
Definition upper_ascii (c : ascii) : ascii :=
  let n := N_of_ascii c in
  if ((97 <=? n) && (n <=? 122))%N then ascii_of_N (n - 32) else c.

(** [s.upper()]. *)
Fixpoint upper (s : string) : string :=
  match s with
  | EmptyString => EmptyString
  | String c r => String (upper_ascii c) (upper r)
  end.

(** ** Module constants (main.py, lines 50-53) *)

Definition COMPANY_STATE : string := "MG".
Definition DEFAULT_INTERSTATE_RATE : Q := 0.12.
Definition DEFAULT_STATE_RATES : gmap string Q :=
  <["MG" := 0.18]> (<["SP" := 0.18]> (<["RJ" := 0.20]> ∅)).
Definition DEFAULT_SIMPLES_RATE : Q := 0.05.

(** ** Rate resolver (main.py, lines 97-100) *)

Definition state_rate (state : option string) : Q :=
  match state with
  | Some (String c r) =>
      default DEFAULT_INTERSTATE_RATE (DEFAULT_STATE_RATES !! upper (String c r))
  | _ => 0.0
  end.

(** ** Input records, as [load_project] builds them *)

Module Product.
Record t : Type := mk {
  id : Z;
  description : string;
  purchase_cost : option Q;
  sale_price : option Q;
  qty : option Z;
  purchase_state : option string;
  sale_state : option string
}.

Definition set_qty (p : t) (q : option Z) : t :=
  mk (id p) (description p) (purchase_cost p) (sale_price p) q
     (purchase_state p) (sale_state p).
End Product.

Module OtherCost.
Record t : Type := mk {
  id : Z;
  description : string;
  cost : Q
}.
End OtherCost.

Module Project.
Record t : Type := mk {
  project_number : string;
  client_name : string;
  gross_sale : option Q;
  purchase_state : option string;
  sale_state : option string;
  simples_rate : option Q;
  products : list Product.t;
  other_costs : list OtherCost.t
}.

Definition set_products (p : t) (ps : list Product.t) : t :=
  mk (project_number p) (client_name p) (gross_sale p) (purchase_state p)
     (sale_state p) (simples_rate p) ps (other_costs p).
End Project.

(** ** Output records *)

(** One entry of [product_subtotals].  The keys [difal_out] and [difal_in]
    are absent until the second and third loop store them. *)
Module Item.
Record t : Type := mk {
  id : Z;
  description : string;
  qty : Z;
  purchase_total : Q;
  sale_total : Q;
  purchase_state : string;
  sale_state : string;
  difal_out : option Q;
  difal_in : option Q
}.

Definition set_difal_out (it : t) (v : Q) : t :=
  mk (id it) (description it) (qty it) (purchase_total it) (sale_total it)
     (purchase_state it) (sale_state it) (Some v) (difal_in it).

Definition set_difal_in (it : t) (v : Q) : t :=
  mk (id it) (description it) (qty it) (purchase_total it) (sale_total it)
     (purchase_state it) (sale_state it) (difal_out it) (Some v).
End Item.

Module Assumptions.
Record t : Type := mk {
  interstate_rate : Q;
  state_rates : gmap string Q;
  note : string
}.
End Assumptions.

Module Report.
Record t : Type := mk {
  project_number : string;
  client_name : string;
  created_at : string;
  company_state : string;
  gross_sale : Q;
  simples_rate : Q;
  das_total : Q;
  products : list Item.t;
  total_purchase : Q;
  total_difal_in : Q;
  total_difal_out : Q;
  other_costs : list OtherCost.t;
  total_other : Q;
  total_cost : Q;
  net_value : Q;
  net_percent : Q;
  min_sale_for_profit : list (string * Q);
  assumptions : Assumptions.t
}.
End Report.

(** ** The report compiler (main.py, lines 126-201) *)

(** Line 127: [sum((p['sale_price'] or 0) * (p['qty'] or 1) for p in ...)]. *)
Definition total_sale_from_products (project : Project.t) : Q :=
  py_sum (map (fun p => num_or (Product.sale_price p) 0
                        * inject_Z (int_or (Product.qty p) 1))
              (Project.products project)).

(** Line 128: the gross sale the report works with. *)
Definition resolve_gross (project : Project.t) : Q :=
  let total := total_sale_from_products project in
  if Qlt_bool 0 total then total else num_or (Project.gross_sale project) 0.0.

(** Lines 138-150: the entry of [product_subtotals] built for one product. *)
Definition product_subtotal (project : Project.t) (p : Product.t) : Item.t :=
  let qty := int_or (Product.qty p) 1 in
  let purchase_total := num_or (Product.purchase_cost p) 0.0 * inject_Z qty in
  let sale_total := num_or (Product.sale_price p) 0.0 * inject_Z qty in
  let origin :=
    upper (str_or_empty (str_or (Product.purchase_state p)
                                (Project.purchase_state project))) in
  let dest :=
    upper (str_or_empty (str_or (Product.sale_state p)
                                (Project.sale_state project))) in
  Item.mk (Product.id p) (Product.description p) qty purchase_total
          sale_total origin dest None None.

(** Body of the first loop (lines 137-150): the entry is appended and the
    two running totals advance. *)
Definition subtotal_step (project : Project.t)
    (acc : list Item.t * Q * Q) (p : Product.t) : list Item.t * Q * Q :=
  let '(product_subtotals, total_purchase, total_sale_assigned) := acc in
  let item := product_subtotal project p in
  (product_subtotals ++ [item],
   total_purchase + Item.purchase_total item,
   total_sale_assigned + Item.sale_total item).

(** Lines 156-157: the DIFAL-OUT figure of one entry. *)
Definition item_difal_out (interstate_rate : Q) (item : Item.t) : Q :=
  let dst := Item.sale_state item in
  let sale_value :=
    if Qlt_bool 0 (Item.sale_total item) then Item.sale_total item
    else Item.purchase_total item in
  if str_truthy (Some dst) && negb (String.eqb dst COMPANY_STATE)
  then py_max 0.0 (state_rate (Some dst) - interstate_rate) * sale_value
  else 0.0.

(** Body of the second loop (lines 155-159): the entry is updated in place. *)
Definition difal_out_step (interstate_rate : Q)
    (acc : list Item.t * Q) (item : Item.t) : list Item.t * Q :=
  let '(done, total_difal_out) := acc in
  let difal_out := item_difal_out interstate_rate item in
  (done ++ [Item.set_difal_out item difal_out], total_difal_out + difal_out).

(** Lines 163-165: the DIFAL-IN figure of one entry. *)
Definition item_difal_in (company_internal_rate interstate_rate : Q)
    (item : Item.t) : Q :=
  let origin := Item.purchase_state item in
  let purchase_value := Item.purchase_total item in
  if str_truthy (Some origin) && negb (String.eqb origin COMPANY_STATE)
  then py_max 0.0 (company_internal_rate - interstate_rate) * purchase_value
  else 0.0.

(** Body of the third loop (lines 162-167). *)
Definition difal_in_step (company_internal_rate interstate_rate : Q)
    (acc : list Item.t * Q) (item : Item.t) : list Item.t * Q :=
  let '(done, total_difal_in) := acc in
  let difal_in := item_difal_in company_internal_rate interstate_rate item in
  (done ++ [Item.set_difal_in item difal_in], total_difal_in + difal_in).

(** Line 175, the key of one margin: [f"{int(m*100)}%"]. *)
Definition margin_label (m : Q) : string := py_str (py_int (m * 100)) +:+ "%".

(** Line 175: the dict comprehension over [profit_margins]; the dict keeps
    the insertion order, so it is an association list. *)
Fixpoint min_sale_for (profit_margins : list Q) (total_cost : Q)
    : result (list (string * Q)) :=
  match profit_margins with
  | [] => ret []
  | m :: rest =>
      let* sale := py_div total_cost (1 - m) in
      let* others := min_sale_for rest total_cost in
      ret ((margin_label m, py_round sale 2) :: others)
  end.

Definition profit_margins : list Q := [0.10; 0.15; 0.20].

Definition note : string :=
  "Modelo simplificado para Simples Nacional; ajuste conforme regras específicas de seu regime/NCM.".

Definition calculate_report (now : string) (project : Project.t)
    : result Report.t :=
  let gross := resolve_gross project in
  let simples_rate :=
    num_or (Project.simples_rate project) DEFAULT_SIMPLES_RATE in
  let interstate_rate := DEFAULT_INTERSTATE_RATE in
  let company_internal_rate := state_rate (Some COMPANY_STATE) in
  let '(product_subtotals, total_purchase, total_sale_assigned) :=
    fold_left (subtotal_step project) (Project.products project)
              ([], 0.0, 0.0) in
  let das_total := gross * simples_rate in
  let '(product_subtotals, total_difal_out) :=
    fold_left (difal_out_step interstate_rate) product_subtotals ([], 0.0) in
  let '(product_subtotals, total_difal_in) :=
    fold_left (difal_in_step company_internal_rate interstate_rate)
              product_subtotals ([], 0.0) in
  let total_other := py_sum (map OtherCost.cost (Project.other_costs project)) in
  let total_cost :=
    total_purchase + total_difal_in + total_difal_out + total_other + das_total in
  let net_value := gross - total_cost in
  let* net_percent :=
    (if truthy gross
     then let* q := py_div net_value gross in ret (q * 100.0)
     else ret 0.0) in
  let* min_sale_for_profit := min_sale_for profit_margins total_cost in
  ret (Report.mk
         (Project.project_number project)
         (Project.client_name project)
         now
         COMPANY_STATE
         gross
         simples_rate
         das_total
         product_subtotals
         total_purchase
         total_difal_in
         total_difal_out
         (Project.other_costs project)
         total_other
         total_cost
         net_value
         net_percent
         min_sale_for_profit
         (Assumptions.mk interstate_rate DEFAULT_STATE_RATES note)).

(** The entry of one product once the three loops have run. *)
Definition report_item (project : Project.t) (p : Product.t) : Item.t :=
  let item := product_subtotal project p in
  let item := Item.set_difal_out item (item_difal_out DEFAULT_INTERSTATE_RATE item) in
  Item.set_difal_in item
    (item_difal_in (state_rate (Some COMPANY_STATE)) DEFAULT_INTERSTATE_RATE item).

(** ** The reads of the quantity on a dict whose keys may be missing

    The records above are the dicts [load_project] builds, which hold every
    key.  [calculate_report] takes any dict: a key that is missing raises
    [KeyError] under [d[k]] and reads as [None] under [d.get(k)]. *)
Module Dict.

Inductive value : Type :=
| PyNone
| PyInt (n : Z)
| PyFloat (x : Q)
| PyStr (s : string).

Inductive key_error : Type :=
| KeyError (key : string).

Definition t : Type := gmap string value.

(** [bool(v)]. *)
Definition value_truthy (v : value) : bool :=
  match v with
  | PyNone => false
  | PyInt n => negb (n =? 0)%Z
  | PyFloat x => truthy x
  | PyStr s => str_truthy (Some s)
  end.

(** [v or d]. *)
Definition or_else (v d : value) : value :=
  if value_truthy v then v else d.

(** [d[key]]. *)
Definition subscript (d : t) (key : string) : key_error + value :=
  match d !! key with
  | Some v => inr v
  | None => inl (KeyError key)
  end.

(** [d.get(key)]. *)
Definition get (d : t) (key : string) : value :=
  match d !! key with
  | Some v => v
  | None => PyNone
  end.

(** Line 127, one term of the generator: the two factors
    [p['sale_price'] or 0] and [p['qty'] or 1], evaluated left to right. *)
Definition sale_term (p : t) : key_error + (value * value) :=
  match subscript p "sale_price" with
  | inl e => inl e
  | inr sale_price =>
      match subscript p "qty" with
      | inl e => inl e
      | inr qty => inr (or_else sale_price (PyInt 0), or_else qty (PyInt 1))
      end
  end.

(** Line 127, the generator consumed by [sum]: the terms in the order of the
    products, up to the first one that raises. *)
Fixpoint sale_terms (products : list t) : key_error + list (value * value) :=
  match products with
  | [] => inr []
  | p :: rest =>
      match sale_term p with
      | inl e => inl e
      | inr term =>
          match sale_terms rest with
          | inl e => inl e
          | inr terms => inr (term :: terms)
          end
      end
  end.

(** Line 138: [p.get('qty') or 1]. *)
Definition loop_qty (p : t) : value :=
  or_else (get p "qty") (PyInt 1).

(** The number a value stands for in the arithmetic of the engine. *)
Definition number (v : value) : Q :=
  match v with
  | PyInt n => inject_Z n
  | PyFloat x => x
  | _ => 0
  end.

Definition of_float (x : option Q) : value :=
  match x with Some v => PyFloat v | None => PyNone end.

Definition of_int (n : option Z) : value :=
  match n with Some v => PyInt v | None => PyNone end.

Definition of_str (s : option string) : value :=
  match s with Some v => PyStr v | None => PyNone end.

(** The dict of one product as [load_project] builds it (lines 111-115):
    every key is present. *)
Definition of_product (p : Product.t) : t :=
  <[ "id"%string := PyInt (Product.id p) ]>
  (<[ "description"%string := PyStr (Product.description p) ]>
  (<[ "purchase_cost"%string := of_float (Product.purchase_cost p) ]>
  (<[ "sale_price"%string := of_float (Product.sale_price p) ]>
  (<[ "qty"%string := of_int (Product.qty p) ]>
  (<[ "purchase_state"%string := of_str (Product.purchase_state p) ]>
  (<[ "sale_state"%string := of_str (Product.sale_state p) ]> ∅)))))).

(** A product dict that has no [qty] key. *)
Definition product_without_qty : t :=
  <[ "id"%string := PyInt 1 ]>
  (<[ "description"%string := PyStr "Switch" ]>
  (<[ "purchase_cost"%string := PyFloat 100 ]>
  (<[ "sale_price"%string := PyFloat 150 ]> ∅))).

End Dict.

(** ** The min-sale formula on IEEE doubles

    [spec_float] with precision 53 and maximal exponent 1024 is binary64,
    the format of a Python [float]. *)
Module Binary64.
Definition prec : Z := 53.
Definition emax : Z := 1024.

(** The double nearest to a rational (ties to even): what a decimal literal
    denotes, and what [float(n)] is for an integer.  The correctly rounded
    quotient of the numerator by the denominator. *)
Definition of_Q (q : Q) : spec_float :=
  match Qnum q with
  | Z0 => S754_zero false
  | Zpos n =>
      SFdiv prec emax (S754_finite false n 0) (S754_finite false (Qden q) 0)
  | Zneg n =>
      SFdiv prec emax (S754_finite true n 0) (S754_finite false (Qden q) 0)
  end.

(** The exact value of a finite double. *)
Definition to_Q (x : spec_float) : Q :=
  match x with
  | S754_finite s m e =>
      let v := match e with
               | Zneg k => Zpos m # (2 ^ k)
               | _ => inject_Z (Zpos m * 2 ^ e)
               end in
      if s then - v else v
  | _ => 0
  end.

Definition add : spec_float -> spec_float -> spec_float := SFadd prec emax.
Definition sub : spec_float -> spec_float -> spec_float := SFsub prec emax.
Definition mul : spec_float -> spec_float -> spec_float := SFmul prec emax.

(** [a / b]: Python raises on a zero divisor. *)
Definition div (a b : spec_float) : result spec_float :=
  match b with
  | S754_zero _ => inl ZeroDivisionError
  | _ => ret (SFdiv prec emax a b)
  end.

(** [round(x, ndigits)] on a double: the exact value is rounded to
    [ndigits] decimals, ties to even, and the decimal result is converted
    back to the nearest double; infinities and NaN are returned as they
    are. *)
Definition round (x : spec_float) (ndigits : nat) : spec_float :=
  match x with
  | S754_finite _ _ _ =>
      let scale := inject_Z (10 ^ Z.of_nat ndigits) in
      of_Q (inject_Z (round_half_even (to_Q x * scale)) / scale)
  | _ => x
  end.

(** [int(x)] of a finite double. *)
Definition to_int (x : spec_float) : Z := py_int (to_Q x).

(** Line 175 for one margin: [round(total_cost / (1 - m), 2)]. *)
Definition min_sale (total_cost m : spec_float) : result spec_float :=
  let* sale := div total_cost (sub (of_Q 1) m) in
  ret (round sale 2).

(** The total cost of a project with one product of unit cost 1e12 and
    quantity 30000, no sale price, no states, and one other cost of 4. *)
Definition large_total : spec_float := of_Q 30000000000000004.
Definition margin_20 : spec_float := of_Q 0.20.

(** Line 175 on doubles: the key [f"{int(m*100)}%"] ... *)
Definition margin_label (m : spec_float) : string :=
  py_str (to_int (mul m (of_Q 100))) +:+ "%".

(** ... and the dict comprehension over the margins. *)
Fixpoint min_sale_for (margins : list spec_float) (total_cost : spec_float)
    : result (list (string * spec_float)) :=
  match margins with
  | [] => ret []
  | m :: rest =>
      let* sale := min_sale total_cost m in
      let* others := min_sale_for rest total_cost in
      ret ((margin_label m, sale) :: others)
  end.

(** Line 174: the literals 0.10, 0.15 and 0.20 as doubles. *)
Definition margins : list spec_float := map of_Q profit_margins.
End Binary64.

(** 2 to the power [e], for the value [m * 2^e] of a double. *)
Definition pow2 (e : Z) : Q := Qpower 2 e.

(** The real number a mantissa stands for once bits have been shifted out of
    it: [shr_r] is the last bit shifted out and [shr_s] tells whether a bit
    before that one was set. *)
Definition represents (mrs : shr_record) (x : Q) : Prop :=
  let m := inject_Z (shr_m mrs) in
  match shr_r mrs, shr_s mrs with
  | false, false => x == m
  | false, true => m < x /\ x < m + (1 # 2)
  | true, false => x == m + (1 # 2)
  | true, true => m + (1 # 2) < x /\ x < m + 1
  end.

(** A bound on the error of one rounding to binary64 of a value that is not
    negative: two units in the last place of a normal number, or of the
    smallest subnormal one. *)
Definition round_error (X : Q) : Q := pow2 (-51) * X + pow2 (-1073).

(** A double that is a zero or is finite and positive. *)
Definition finite_nonneg (v : spec_float) : Prop :=
  (exists s, v = S754_zero s) \/ exists m e, v = S754_finite false m e.

(** The invariants the data model of the specification (section 3) puts on a
    product: unit cost and unit price are not negative, and the quantity,
    once defaulted, is at least 1. *)
Definition product_valid (p : Product.t) : Prop :=
  0 <= num_or (Product.purchase_cost p) 0.0
  /\ 0 <= num_or (Product.sale_price p) 0.0
  /\ (1 <= int_or (Product.qty p) 1)%Z.


(** ** A worked project: the scenario of the specification *)

Definition example_product : Product.t :=
  Product.mk 1 "Switch" (Some 100) (Some 150) (Some 2%Z) (Some "SP") (Some "RJ").

Definition example_project : Project.t :=
  Project.mk "001/2024" "Prefeitura" (Some 0) None None (Some 0.05)
             [example_product] [].

(** A frozen creation time. *)
Definition example_now : string := "2024-05-01T10:00:00".

(** A project whose default destination is a state outside the rate table. *)
Definition example_unknown_destination : Project.t :=
  Project.mk "002/2024" "Prefeitura" None None (Some "ba") None
             [Product.mk 7 "Roteador" (Some 80) (Some 120) (Some 3%Z) None None]
             [].

(** The project of the specification's scenario with the quantity -2: the
    line totals are -200 and -300. *)
Definition negative_quantity_project : Project.t :=
  Project.mk "001/2024" "Prefeitura" (Some 0) None None (Some 0.05)
             [Product.mk 1 "Switch" (Some 100) (Some 150) (Some (-2)%Z)
                         (Some "SP") (Some "RJ")] [].

(** ** Further definitions read off the source *)

(** Line 156: the value DIFAL-OUT is charged on. *)
Definition item_sale_value (item : Item.t) : Q :=
  if Qlt_bool 0 (Item.sale_total item) then Item.sale_total item
  else Item.purchase_total item.

(** ** The database (schema of lines 60-91) and its readers

    A table is the list of its rows in rowid order; a NULL is [None].  The
    TEXT columns that every INSERT and UPDATE of the application fills with
    text ([project_number], [client_name], [description]) are strings.  A
    SELECT without ORDER BY returns the matching rows in table order.  The
    AUTOINCREMENT counter of a table is the largest rowid the table has
    handed out.  [foreign_keys] is the setting of the connection that
    decides whether REFERENCES ... ON DELETE CASCADE is enforced; the
    program never sets it, so it has the default of the SQLite build. *)

Module ProjectRow.
Record t : Type := mk {
  id : Z;
  project_number : string;
  client_name : string;
  gross_sale : option Q;
  purchase_state : option string;
  sale_state : option string;
  simples_rate : option Q;
  created_at : option string
}.
End ProjectRow.

Module ProductRow.
Record t : Type := mk {
  id : Z;
  project_id : option Z;
  description : string;
  purchase_cost : option Q;
  sale_price : option Q;
  qty : option Z;
  purchase_state : option string;
  sale_state : option string
}.
End ProductRow.

Module CostRow.
Record t : Type := mk {
  id : Z;
  project_id : option Z;
  description : string;
  cost : option Q
}.
End CostRow.

Module Db.
Record t : Type := mk {
  projects : list ProjectRow.t;
  products : list ProductRow.t;
  other_costs : list CostRow.t;
  seq_projects : Z;
  seq_products : Z;
  seq_other_costs : Z;
  foreign_keys : bool
}.
End Db.

(** [WHERE project_id=?]: a NULL matches nothing. *)
Definition refers_to (project_id : Z) (ref : option Z) : bool :=
  match ref with
  | Some k => (k =? project_id)%Z
  | None => false
  end.

(** Lines 114-119: the dict built for one row of [products]. *)
Definition load_product (r : ProductRow.t) : Product.t :=
  Product.mk (ProductRow.id r) (ProductRow.description r)
             (Some (num_or (ProductRow.purchase_cost r) 0.0))
             (Some (num_or (ProductRow.sale_price r) 0.0))
             (Some (int_or (ProductRow.qty r) 1))
             (Some (str_or_empty (ProductRow.purchase_state r)))
             (Some (str_or_empty (ProductRow.sale_state r))).

(** Lines 120-123: the dict built for one row of [other_costs]. *)
Definition load_cost (r : CostRow.t) : OtherCost.t :=
  OtherCost.mk (CostRow.id r) (CostRow.description r)
               (num_or (CostRow.cost r) 0.0).

(** Lines 102-124.  The result is [None] when no row has the id, and the id
    of the row with the project dict otherwise. *)
Definition load_project (db : Db.t) (project_id : Z) : option (Z * Project.t) :=
  match List.find (fun p => (ProjectRow.id p =? project_id)%Z) (Db.projects db) with
  | None => None
  | Some p =>
      Some (ProjectRow.id p,
            Project.mk
              (ProjectRow.project_number p)
              (ProjectRow.client_name p)
              (Some (num_or (ProjectRow.gross_sale p) 0.0))
              (Some (str_or_empty (ProjectRow.purchase_state p)))
              (Some (str_or_empty (ProjectRow.sale_state p)))
              (Some (num_or (ProjectRow.simples_rate p) DEFAULT_SIMPLES_RATE))
              (map load_product
                   (List.filter
                      (fun r => refers_to project_id (ProductRow.project_id r))
                      (Db.products db)))
              (map load_cost
                   (List.filter
                      (fun r => refers_to project_id (CostRow.project_id r))
                      (Db.other_costs db))))
  end.

(** Lines 328-334 of [ReportDialog.__init__]: the project is loaded and, when
    it exists, its report is calculated; [None] is the "Projeto não
    encontrado." warning. *)
Definition report_dialog (db : Db.t) (now : string) (project_id : Z)
    : option (result Report.t) :=
  match load_project db project_id with
  | None => None
  | Some (_, project) => Some (calculate_report now project)
  end.

(** ** The dialogs that write (lines 254-277, 306-319, 536-555, 572-576,
    592-596, 671-703)

    The value of a widget when the handler runs is an input of the handler:
    the text of a line edit, the number of a spin box, the answer to a
    question box. *)

(** [c.isspace()] on one ASCII character: tab to carriage return, the four
    separators 28-31, and the blank. *)
Definition is_space (c : ascii) : bool :=
  let n := N_of_ascii c in
  (((9 <=? n) && (n <=? 13)) || ((28 <=? n) && (n <=? 32)))%N.

(** A text is the UTF-8 encoding of the Python string.  Its characters: a
    lead byte below 0xC0 stands alone, one below 0xE0 takes one continuation
    byte, one below 0xF0 two, and the others three. *)
Fixpoint utf8_chars (s : string) : list string :=
  match s with
  | EmptyString => []
  | String a r =>
      let n := N_of_ascii a in
      if (n <? 192)%N then String a EmptyString :: utf8_chars r
      else
        match r with
        | EmptyString => [s]
        | String b r1 =>
            if (n <? 224)%N
            then String a (String b EmptyString) :: utf8_chars r1
            else
              match r1 with
              | EmptyString => [s]
              | String c r2 =>
                  if (n <? 240)%N
                  then String a (String b (String c EmptyString))
                       :: utf8_chars r2
                  else
                    match r2 with
                    | EmptyString => [s]
                    | String d r3 =>
                        String a (String b (String c (String d EmptyString)))
                        :: utf8_chars r3
                    end
              end
        end
  end.

(** [ch.isspace()] on one character: the ASCII white space, U+0085, U+00A0,
    U+1680, U+2000 to U+200A, U+2028, U+2029, U+202F, U+205F and U+3000. *)
Definition is_space_char (ch : string) : bool :=
  match ch with
  | String a EmptyString => is_space a
  | _ =>
      match map N_of_ascii (list_ascii_of_string ch) with
      | [194; n] => (n =? 133) || (n =? 160)
      | [225; 154; 128] => true
      | [226; 128; n] =>
          ((128 <=? n) && (n <=? 138)) || (n =? 168) || (n =? 169) || (n =? 175)
      | [226; 129; 159] => true
      | [227; 128; 128] => true
      | _ => false
      end%N
  end.

Fixpoint lstrip_chars (cs : list string) : list string :=
  match cs with
  | [] => []
  | c :: r => if is_space_char c then lstrip_chars r else cs
  end.

Fixpoint rstrip_chars (cs : list string) : list string :=
  match cs with
  | [] => []
  | c :: r =>
      match rstrip_chars r with
      | [] => if is_space_char c then [] else [c]
      | r' => c :: r'
      end
  end.

Definition join (cs : list string) : string :=
  fold_right String.append EmptyString cs.

(** [s.strip()]: the white space at both ends is removed. *)
Definition strip (s : string) : string :=
  join (rstrip_chars (lstrip_chars (utf8_chars s))).

(** [not s] for a string. *)
Definition is_empty (s : string) : bool :=
  match s with
  | EmptyString => true
  | String _ _ => false
  end.

(** [text.strip().upper() or None]. *)
Definition state_field (text : string) : option string :=
  let s := upper (strip text) in
  if is_empty s then None else Some s.

Inductive db_error : Type := IntegrityError.

(** How a handler ends: it has written to the database, it has shown a
    message box and written nothing, it has returned silently, or it has let
    an exception of the database out. *)
Inductive outcome : Type :=
| Done
| Message (text : string)
| Returned
| Raised (e : db_error).

(** The rowid an AUTOINCREMENT table gives to a new row: one more than the
    largest rowid it ever held. *)
Definition next_rowid (seq : Z) (ids : list Z) : Z :=
  Z.max seq (fold_right Z.max 0%Z ids) + 1.

Module ProductForm.
Record t : Type := mk {
  desc : string;
  purchase_cost : Q;
  sale_price : Q;
  qty : Z;
  p_state : string;
  s_state : string
}.
End ProductForm.

(** [ProductDialog.on_save] (lines 254-277); [product] is the id of the
    product being edited, [None] for a new one. *)
Definition product_on_save (db : Db.t) (project_id : Z) (product : option Z)
    (form : ProductForm.t) : Db.t * outcome :=
  let desc := strip (ProductForm.desc form) in
  if is_empty desc then (db, Message "Descrição é obrigatória.")
  else
    let purchase_cost := ProductForm.purchase_cost form in
    let sale_price := ProductForm.sale_price form in
    let qty := ProductForm.qty form in
    let p_state := state_field (ProductForm.p_state form) in
    let s_state := state_field (ProductForm.s_state form) in
    match product with
    | Some id =>
        (Db.mk (Db.projects db)
               (map (fun r =>
                       if (ProductRow.id r =? id)%Z
                       then ProductRow.mk (ProductRow.id r)
                              (ProductRow.project_id r) desc
                              (Some purchase_cost) (Some sale_price)
                              (Some qty) p_state s_state
                       else r)
                    (Db.products db))
               (Db.other_costs db) (Db.seq_projects db) (Db.seq_products db)
               (Db.seq_other_costs db) (Db.foreign_keys db),
         Done)
    | None =>
        if Db.foreign_keys db
           && negb (existsb (fun p => (ProjectRow.id p =? project_id)%Z)
                            (Db.projects db))
        then (db, Raised IntegrityError)
        else
          let id := next_rowid (Db.seq_products db)
                               (map ProductRow.id (Db.products db)) in
          (Db.mk (Db.projects db)
                 (Db.products db ++
                    [ProductRow.mk id (Some project_id) desc
                       (Some purchase_cost) (Some sale_price) (Some qty)
                       p_state s_state])
                 (Db.other_costs db) (Db.seq_projects db) id
                 (Db.seq_other_costs db) (Db.foreign_keys db),
           Done)
    end.

(** [OtherCostDialog.on_save] (lines 306-319). *)
Definition cost_on_save (db : Db.t) (project_id : Z) (cost : option Z)
    (desc_text : string) (value : Q) : Db.t * outcome :=
  let desc := strip desc_text in
  if is_empty desc then (db, Message "Descrição é obrigatória.")
  else
    match cost with
    | Some id =>
        (Db.mk (Db.projects db) (Db.products db)
               (map (fun r =>
                       if (CostRow.id r =? id)%Z
                       then CostRow.mk (CostRow.id r) (CostRow.project_id r)
                                       desc (Some value)
                       else r)
                    (Db.other_costs db))
               (Db.seq_projects db) (Db.seq_products db)
               (Db.seq_other_costs db) (Db.foreign_keys db),
         Done)
    | None =>
        if Db.foreign_keys db
           && negb (existsb (fun p => (ProjectRow.id p =? project_id)%Z)
                            (Db.projects db))
        then (db, Raised IntegrityError)
        else
          let id := next_rowid (Db.seq_other_costs db)
                               (map CostRow.id (Db.other_costs db)) in
          (Db.mk (Db.projects db) (Db.products db)
                 (Db.other_costs db ++
                    [CostRow.mk id (Some project_id) desc (Some value)])
                 (Db.seq_projects db) (Db.seq_products db) id
                 (Db.foreign_keys db),
           Done)
    end.

(** [MainWindow.create_project] (lines 671-685): the two input dialogs give
    a text and whether OK was pressed; the second is asked only after the
    first.  The INSERT leaves [gross_sale] and [simples_rate] to the
    defaults of the schema and the two states NULL; it fails when the
    number is taken (UNIQUE). *)
Definition create_project (db : Db.t) (number : string) (ok_number : bool)
    (client : string) (ok_client : bool) (now : string) : Db.t * outcome :=
  if negb ok_number || is_empty (strip number) then (db, Returned)
  else if negb ok_client || is_empty (strip client) then (db, Returned)
  else if existsb (fun p => String.eqb (ProjectRow.project_number p)
                                       (strip number))
                  (Db.projects db)
  then (db, Message "Número de projeto já existe.")
  else
    let id := next_rowid (Db.seq_projects db)
                         (map ProjectRow.id (Db.projects db)) in
    (Db.mk (Db.projects db ++
              [ProjectRow.mk id (strip number) (strip client) (Some 0.0)
                 None None (Some DEFAULT_SIMPLES_RATE) (Some now)])
           (Db.products db) (Db.other_costs db) id (Db.seq_products db)
           (Db.seq_other_costs db) (Db.foreign_keys db),
     Done).

Module ProjectForm.
Record t : Type := mk {
  project_number : string;
  client_name : string;
  gross_sale : Q;
  purchase_state : string;
  sale_state : string;
  simples_rate : Q
}.
End ProjectForm.

(** The row an accepted [save_project] writes over [p]. *)
Definition saved_project_row (form : ProjectForm.t) (p : ProjectRow.t)
    : ProjectRow.t :=
  ProjectRow.mk (ProjectRow.id p)
    (strip (ProjectForm.project_number form))
    (strip (ProjectForm.client_name form))
    (Some (ProjectForm.gross_sale form))
    (state_field (ProjectForm.purchase_state form))
    (state_field (ProjectForm.sale_state form))
    (Some (num_or (Some (ProjectForm.simples_rate form)) DEFAULT_SIMPLES_RATE))
    (ProjectRow.created_at p).

(** [ProjectDialog.save_project] (lines 536-555).  The UPDATE fails
    (UNIQUE) when it reaches a row and leaves two rows with the number. *)
Definition save_project (db : Db.t) (project_id : Z) (form : ProjectForm.t)
    : Db.t * outcome :=
  let pn := strip (ProjectForm.project_number form) in
  let cn := strip (ProjectForm.client_name form) in
  if is_empty pn || is_empty cn
  then (db, Message "Número do projeto e Cliente são obrigatórios.")
  else
    let updated :=
      map (fun p => if (ProjectRow.id p =? project_id)%Z
                    then saved_project_row form p else p)
          (Db.projects db) in
    if existsb (fun p => (ProjectRow.id p =? project_id)%Z) (Db.projects db)
       && (1 <? Z.of_nat
                  (length (List.filter
                             (fun p => String.eqb (ProjectRow.project_number p) pn)
                             updated)))%Z
    then (db, Message "Número de projeto já existe.")
    else
      (Db.mk updated (Db.products db) (Db.other_costs db)
             (Db.seq_projects db) (Db.seq_products db)
             (Db.seq_other_costs db) (Db.foreign_keys db),
       Done).

(** [ProjectDialog.delete_product] (lines 572-576); [confirmed] is the
    answer to the question box. *)
Definition delete_product (db : Db.t) (product_id : Z) (confirmed : bool)
    : Db.t :=
  if confirmed
  then Db.mk (Db.projects db)
             (List.filter (fun r => negb (ProductRow.id r =? product_id)%Z)
                          (Db.products db))
             (Db.other_costs db) (Db.seq_projects db) (Db.seq_products db)
             (Db.seq_other_costs db) (Db.foreign_keys db)
  else db.

(** [ProjectDialog.delete_cost] (lines 592-596). *)
Definition delete_cost (db : Db.t) (cost_id : Z) (confirmed : bool) : Db.t :=
  if confirmed
  then Db.mk (Db.projects db) (Db.products db)
             (List.filter (fun r => negb (CostRow.id r =? cost_id)%Z)
                          (Db.other_costs db))
             (Db.seq_projects db) (Db.seq_products db)
             (Db.seq_other_costs db) (Db.foreign_keys db)
  else db.

(** [MainWindow.delete_project] (lines 695-703); [selection] is the id of
    the selected row of the table, if any.  The rows that refer to the
    project go with it only when the connection enforces foreign keys. *)
Definition delete_project (db : Db.t) (selection : option Z)
    (confirmed : bool) : Db.t * outcome :=
  match selection with
  | None => (db, Message "Selecione um projeto para excluir.")
  | Some pid =>
      if confirmed
      then
        (Db.mk (List.filter (fun p => negb (ProjectRow.id p =? pid)%Z)
                            (Db.projects db))
               (if Db.foreign_keys db
                then List.filter
                       (fun r => negb (refers_to pid (ProductRow.project_id r)))
                       (Db.products db)
                else Db.products db)
               (if Db.foreign_keys db
                then List.filter
                       (fun r => negb (refers_to pid (CostRow.project_id r)))
                       (Db.other_costs db)
                else Db.other_costs db)
               (Db.seq_projects db) (Db.seq_products db)
               (Db.seq_other_costs db) (Db.foreign_keys db),
         Done)
      else (db, Returned)
  end.

(** What [MainWindow.generate_report_main] (lines 705-719) ends in. *)
Inductive report_request : Type :=
| NoRequest
| NotFound
| Shown (report : result Report.t).

Definition show_report (db : Db.t) (now : string) (project_id : Z)
    : report_request :=
  match report_dialog db now project_id with
  | None => NotFound
  | Some report => Shown report
  end.

(** Lines 705-719: the selected project, or else the project whose number
    is typed. *)
Definition generate_report_main (db : Db.t) (now : string)
    (selection : option Z) (pnum : string) (ok : bool) : report_request :=
  match selection with
  | Some pid => show_report db now pid
  | None =>
      if negb ok || is_empty (strip pnum) then NoRequest
      else
        match List.find (fun p => String.eqb (ProjectRow.project_number p)
                                             (strip pnum))
                        (Db.projects db) with
        | None => NotFound
        | Some r => show_report db now (ProjectRow.id r)
        end
  end.

(** An empty database, and one with a project, two of its products (one
    with NULL columns) and a product of another project. *)
Definition empty_db : Db.t := Db.mk [] [] [] 0 0 0 false.

Definition example_db : Db.t :=
  Db.mk [ProjectRow.mk 1 "001/2024" "Prefeitura" (Some 0) None (Some "RJ")
                       (Some 0.05) None;
         ProjectRow.mk 2 "002/2024" "Camara" None None None None None]
        [ProductRow.mk 1 (Some 1%Z) "Switch" (Some 100) (Some 150)
                       (Some 2%Z) (Some "SP") None;
         ProductRow.mk 2 (Some 2%Z) "Cabo" (Some 5) None (Some 10%Z) None None;
         ProductRow.mk 3 (Some 1%Z) "Suporte" None None None None None]
        []
        2 3 0 false.

(** Every character of the string is white space. *)
Definition all_space (s : string) : bool :=
  forallb is_space_char (utf8_chars s).

(** What SQLite and the dialogs keep true of the tables: no project has a
    rowid above the AUTOINCREMENT counter of [projects], and no row of
    [products] or [other_costs] refers to a rowid above it (a row may refer
    to a project that has been deleted). *)
Definition db_wf (db : Db.t) : Prop :=
  (forall p, In p (Db.projects db) ->
     (ProjectRow.id p <= Db.seq_projects db)%Z)
  /\ (forall r k, In r (Db.products db) -> ProductRow.project_id r = Some k ->
      (k <= Db.seq_projects db)%Z)
  /\ (forall r k, In r (Db.other_costs db) -> CostRow.project_id r = Some k ->
      (k <= Db.seq_projects db)%Z).

(** The fields of a record built by its constructor, and nothing else. *)
Ltac entry_fields :=
  cbn [Item.id Item.description Item.qty Item.purchase_total Item.sale_total
       Item.purchase_state Item.sale_state Item.difal_out Item.difal_in
       Item.set_difal_out Item.set_difal_in
       Product.id Product.description Product.purchase_cost Product.sale_price
       Product.qty Product.purchase_state Product.sale_state
       Project.project_number Project.client_name Project.gross_sale
       Project.purchase_state Project.sale_state Project.simples_rate
       Project.products Project.other_costs].

(** ** Facts about the primitives *)

Lemma Qlt_bool_true (a b : Q) : Qlt_bool a b = true <-> a < b.
Proof.
  unfold Qlt_bool. rewrite negb_true_iff. split; intros H.
  - apply Qnot_le_lt. intros Hle. apply Qle_bool_iff in Hle. congruence.
  - destruct (Qle_bool b a) eqn:E; [|reflexivity].
    apply Qle_bool_iff in E. exfalso. apply (Qlt_not_le _ _ H E).
Qed.

Lemma Qlt_bool_false (a b : Q) : Qlt_bool a b = false <-> b <= a.
Proof.
  unfold Qlt_bool. rewrite negb_false_iff. apply Qle_bool_iff.
Qed.

Lemma truthy_true (x : Q) : truthy x = true <-> ~ x == 0.
Proof.
  unfold truthy. rewrite negb_true_iff. split; intros H.
  - intros E. apply Qeq_bool_iff in E. congruence.
  - destruct (Qeq_bool x 0) eqn:E; [|reflexivity].
    apply Qeq_bool_iff in E. contradiction.
Qed.

Lemma truthy_false (x : Q) : truthy x = false <-> x == 0.
Proof.
  unfold truthy. rewrite negb_false_iff. apply Qeq_bool_iff.
Qed.

Lemma num_or_Some (v d : Q) : d == 0 -> num_or (Some v) d == v.
Proof.
  intros Hd. unfold num_or. destruct (truthy v) eqn:E; [reflexivity|].
  apply truthy_false in E. rewrite E. exact Hd.
Qed.

Lemma py_max_Qmax (a b : Q) : py_max a b == Qmax a b.
Proof.
  unfold py_max. destruct (Qlt_bool a b) eqn:E.
  - apply Qlt_bool_true in E. symmetry. apply Q.max_r. apply Qlt_le_weak, E.
  - apply Qlt_bool_false in E. symmetry. apply Q.max_l, E.
Qed.

Lemma py_max_nonneg (b : Q) : 0 <= py_max 0.0 b.
Proof.
  unfold py_max. destruct (Qlt_bool 0.0 b) eqn:E.
  - apply Qlt_bool_true in E. lra.
  - lra.
Qed.

Lemma fold_Qplus_comp (xs : list Q) (a b : Q) :
  a == b -> fold_left Qplus xs a == fold_left Qplus xs b.
Proof.
  revert a b. induction xs as [|x xs IH]; intros a b Hab; simpl.
  - exact Hab.
  - apply IH. rewrite Hab. reflexivity.
Qed.

Lemma fold_Qplus_shift (xs : list Q) (a : Q) :
  fold_left Qplus xs a == a + py_sum xs.
Proof.
  unfold py_sum. revert a. induction xs as [|x xs IH]; intros a; simpl.
  - lra.
  - rewrite (IH (a + x)), (IH (0 + x)). lra.
Qed.

Lemma py_sum_nonneg (xs : list Q) : Forall (fun x => 0 <= x) xs -> 0 <= py_sum xs.
Proof.
  induction 1 as [|x xs Hx _ IH]; unfold py_sum; simpl.
  - lra.
  - rewrite fold_Qplus_shift. lra.
Qed.

Lemma py_sum_pos (xs : list Q) :
  Forall (fun x => 0 <= x) xs -> Exists (fun x => 0 < x) xs -> 0 < py_sum xs.
Proof.
  intros Hall Hex. induction Hex as [x xs Hx|x xs _ IH].
  - inversion Hall as [|? ? _ Hxs]; subst.
    unfold py_sum; simpl. rewrite fold_Qplus_shift.
    pose proof (py_sum_nonneg _ Hxs). lra.
  - inversion Hall as [|? ? Hx Hxs]; subst.
    unfold py_sum; simpl. rewrite fold_Qplus_shift.
    specialize (IH Hxs). lra.
Qed.

(** *** Upper-casing *)

Lemma upper_ascii_idem (c : ascii) : upper_ascii (upper_ascii c) = upper_ascii c.
Proof.
  destruct c as [[] [] [] [] [] [] [] []]; reflexivity.
Qed.

Lemma upper_idem (s : string) : upper (upper s) = upper s.
Proof.
  induction s as [|c r IH]; simpl.
  - reflexivity.
  - rewrite upper_ascii_idem, IH. reflexivity.
Qed.

(** *** The three loops in closed form *)

Lemma subtotal_loop (project : Project.t) (ps : list Product.t)
    (acc : list Item.t) (tp ts : Q) :
  fold_left (subtotal_step project) ps (acc, tp, ts) =
  (acc ++ map (product_subtotal project) ps,
   fold_left Qplus (map (fun p => Item.purchase_total (product_subtotal project p)) ps) tp,
   fold_left Qplus (map (fun p => Item.sale_total (product_subtotal project p)) ps) ts).
Proof.
  revert acc tp ts. induction ps as [|p ps IH]; intros acc tp ts; simpl.
  - rewrite app_nil_r. reflexivity.
  - rewrite IH, <- app_assoc. reflexivity.
Qed.

Lemma difal_out_loop (ir : Q) (items done : list Item.t) (t : Q) :
  fold_left (difal_out_step ir) items (done, t) =
  (done ++ map (fun it => Item.set_difal_out it (item_difal_out ir it)) items,
   fold_left Qplus (map (item_difal_out ir) items) t).
Proof.
  revert done t. induction items as [|it items IH]; intros done t; simpl.
  - rewrite app_nil_r. reflexivity.
  - rewrite IH, <- app_assoc. reflexivity.
Qed.

Lemma difal_in_loop (cr ir : Q) (items done : list Item.t) (t : Q) :
  fold_left (difal_in_step cr ir) items (done, t) =
  (done ++ map (fun it => Item.set_difal_in it (item_difal_in cr ir it)) items,
   fold_left Qplus (map (item_difal_in cr ir) items) t).
Proof.
  revert done t. induction items as [|it items IH]; intros done t; simpl.
  - rewrite app_nil_r. reflexivity.
  - rewrite IH, <- app_assoc. reflexivity.
Qed.

(** *** The margin table and the whole report in closed form *)

Lemma min_sale_for_profit_margins (total_cost : Q) :
  min_sale_for profit_margins total_cost =
  inr [("10%"%string, py_round (total_cost / (1 - 0.10)) 2);
       ("15%"%string, py_round (total_cost / (1 - 0.15)) 2);
       ("20%"%string, py_round (total_cost / (1 - 0.20)) 2)].
Proof. reflexivity. Qed.

Lemma net_percent_total (net_value gross : Q) :
  (if truthy gross
   then let* q := py_div net_value gross in ret (q * 100.0)
   else ret 0.0)
  = inr (if truthy gross then net_value / gross * 100.0 else 0.0).
Proof.
  destruct (truthy gross) eqn:E; [|reflexivity].
  unfold py_div. unfold truthy in E. apply negb_true_iff in E. rewrite E.
  reflexivity.
Qed.

Lemma calculate_report_closed (now : string) (project : Project.t) :
  exists r,
    calculate_report now project = inr r
    /\ Report.gross_sale r = resolve_gross project
    /\ Report.simples_rate r
       = num_or (Project.simples_rate project) DEFAULT_SIMPLES_RATE
    /\ Report.das_total r = Report.gross_sale r * Report.simples_rate r
    /\ Report.products r = map (report_item project) (Project.products project)
    /\ Report.total_purchase r
       = fold_left Qplus
           (map (fun p => Item.purchase_total (product_subtotal project p))
                (Project.products project)) 0.0
    /\ Report.total_difal_out r
       = fold_left Qplus
           (map (item_difal_out DEFAULT_INTERSTATE_RATE)
                (map (product_subtotal project) (Project.products project))) 0.0
    /\ Report.total_difal_in r
       = fold_left Qplus
           (map (item_difal_in (state_rate (Some COMPANY_STATE))
                               DEFAULT_INTERSTATE_RATE)
                (map (fun it => Item.set_difal_out it
                                  (item_difal_out DEFAULT_INTERSTATE_RATE it))
                     (map (product_subtotal project) (Project.products project))))
           0.0
    /\ Report.total_other r
       = py_sum (map OtherCost.cost (Project.other_costs project))
    /\ Report.total_cost r
       = Report.total_purchase r + Report.total_difal_in r
         + Report.total_difal_out r + Report.total_other r + Report.das_total r
    /\ Report.net_value r = Report.gross_sale r - Report.total_cost r
    /\ Report.net_percent r
       = (if truthy (Report.gross_sale r)
          then Report.net_value r / Report.gross_sale r * 100.0 else 0.0)
    /\ min_sale_for profit_margins (Report.total_cost r)
       = inr (Report.min_sale_for_profit r).
Proof.
  unfold calculate_report.
  rewrite subtotal_loop. cbv zeta. cbn [app].
  rewrite difal_out_loop. cbn [app].
  rewrite difal_in_loop. cbn [app].
  rewrite net_percent_total. cbn [bind].
  rewrite min_sale_for_profit_margins. cbn [bind].
  eexists. split; [reflexivity|]. cbn [Report.gross_sale Report.simples_rate Report.das_total Report.products Report.total_purchase Report.total_difal_in Report.total_difal_out Report.total_other Report.total_cost Report.net_value Report.net_percent Report.min_sale_for_profit].
  repeat split; try reflexivity.
  rewrite !map_map. reflexivity.
Qed.

(** The scenario of the specification (section 8): one product bought in SP
    and sold to RJ by a company of MG. *)
Example spec_scenario :
  exists r,
    calculate_report example_now example_project = inr r
    /\ Report.gross_sale r == 300
    /\ Report.das_total r == 15
    /\ Report.total_difal_out r == 24
    /\ Report.total_difal_in r == 12
    /\ Report.total_cost r == 251
    /\ Report.net_value r == 49
    /\ Report.min_sale_for_profit r
       = [("10%"%string, 278.89); ("15%"%string, 295.29);
          ("20%"%string, 313.75)].
Proof.
  eexists. split; [vm_compute; reflexivity|].
  repeat split; reflexivity.
Qed.

Lemma report_products_inv (project : Project.t) (item : Item.t) :
  In item (map (report_item project) (Project.products project)) ->
  exists p, In p (Project.products project) /\ item = report_item project p.
Proof.
  intros H. apply List.in_map_iff in H. destruct H as [p [Hp Hin]].
  exists p. split; [exact Hin | symmetry; exact Hp].
Qed.

Lemma product_valid_totals (project : Project.t) (p : Product.t) :
  product_valid p ->
  0 <= Item.purchase_total (product_subtotal project p)
  /\ 0 <= Item.sale_total (product_subtotal project p).
Proof.
  intros [Hc [Hs Hq]]. simpl.
  assert (Hq' : 0 <= inject_Z (int_or (Product.qty p) 1)).
  { change 0 with (inject_Z 0). rewrite <- Zle_Qle. lia. }
  split; apply Qmult_le_0_compat; assumption.
Qed.

(** * The claims *)

(** C1. In every compiled report the total cost is the sum of the purchase
    total, the two DIFAL totals, the other costs and the DAS charge; the
    purchase total is the sum of unit cost times quantity over the products,
    the DIFAL totals are the sums of the per-item figures, the other-cost
    total is the sum of the amounts and the DAS charge is the gross sale
    times the Simples rate.  A report is compiled for every project. *)
Theorem report_total_cost_invariant (now : string) (project : Project.t) :
  exists r,
    calculate_report now project = inr r
    /\ Report.total_cost r
       = Report.total_purchase r + Report.total_difal_in r
         + Report.total_difal_out r + Report.total_other r + Report.das_total r
    /\ Report.total_purchase r
       == py_sum (map (fun p => num_or (Product.purchase_cost p) 0.0
                                * inject_Z (int_or (Product.qty p) 1))
                      (Project.products project))
    /\ (exists ins outs,
          map Item.difal_in (Report.products r) = map Some ins
          /\ map Item.difal_out (Report.products r) = map Some outs
          /\ Report.total_difal_in r == py_sum ins
          /\ Report.total_difal_out r == py_sum outs)
    /\ Report.total_other r
       = py_sum (map OtherCost.cost (Project.other_costs project))
    /\ Report.das_total r = Report.gross_sale r * Report.simples_rate r.
Proof.
  destruct (calculate_report_closed now project)
    as (r & Hr & Hg & Hs & Hdas & Hps & Htp & Hout & Hin & Hoth & Htc & _).
  exists r. split; [exact Hr|]. split; [exact Htc|]. split.
  { rewrite Htp. unfold py_sum. apply fold_Qplus_comp. reflexivity. }
  split; [|split; [exact Hoth | exact Hdas]].
  exists (map (fun p => item_difal_in (state_rate (Some COMPANY_STATE))
                          DEFAULT_INTERSTATE_RATE (product_subtotal project p))
              (Project.products project)),
         (map (fun p => item_difal_out DEFAULT_INTERSTATE_RATE
                          (product_subtotal project p))
              (Project.products project)).
  rewrite Hps, Hin, Hout, !map_map. unfold py_sum.
  repeat split; try reflexivity; apply fold_Qplus_comp; reflexivity.
Qed.

(** C2, as the specification states it, fails: a product with a positive
    unit price and the quantity -2 has the line total -300, the sum of line
    247 is not positive and the manual figure 1000 is used, although the
    project has a positively priced product. *)
Lemma gross_sale_negative_quantity :
  let p := Product.mk 1 "Switch" (Some 100) (Some 150) (Some (-2)%Z)
                      (Some "SP"%string) (Some "RJ"%string) in
  let project := Project.mk "001/2024" "Prefeitura" (Some 1000) None None
                            (Some 0.05) [p] [] in
  0 < num_or (Product.sale_price p) 0
  /\ total_sale_from_products project == - (300)
  /\ exists r,
       calculate_report example_now project = inr r
       /\ Report.gross_sale r == 1000
       /\ ~ Report.gross_sale r == total_sale_from_products project.
Proof.
  cbv zeta. split; [reflexivity|]. split; [reflexivity|].
  destruct (calculate_report_closed example_now
              (Project.mk "001/2024" "Prefeitura" (Some 1000) None None
                 (Some 0.05)
                 [Product.mk 1 "Switch" (Some 100) (Some 150) (Some (-2)%Z)
                    (Some "SP"%string) (Some "RJ"%string)] []))
    as (r & Hr & Hg & _).
  exists r. split; [exact Hr|]. rewrite Hg. split.
  - reflexivity.
  - intros H. vm_compute in H. discriminate H.
Qed.

(** C2, amended.  The gross sale of the report is the sum of unit price times
    quantity over the products whenever that sum is strictly positive, and
    the manual gross-sale field of the project otherwise (0 when the field is
    empty).  In particular, when no product has a negative line total (unit
    price times quantity) and one of them has a positive line total, the
    line-item sum is used whatever the manual figure is. *)
Theorem gross_sale_resolution (now : string) (project : Project.t) :
  exists r,
    calculate_report now project = inr r
    /\ (0 < total_sale_from_products project ->
        Report.gross_sale r = total_sale_from_products project)
    /\ (~ 0 < total_sale_from_products project ->
        Report.gross_sale r == default 0 (Project.gross_sale project))
    /\ (Forall (fun p => 0 <= num_or (Product.sale_price p) 0
                              * inject_Z (int_or (Product.qty p) 1))
               (Project.products project) ->
        Exists (fun p => 0 < num_or (Product.sale_price p) 0
                             * inject_Z (int_or (Product.qty p) 1))
               (Project.products project) ->
        Report.gross_sale r = total_sale_from_products project).
Proof.
  destruct (calculate_report_closed now project) as (r & Hr & Hg & _).
  exists r. split; [exact Hr|].
  assert (Hpos : 0 < total_sale_from_products project ->
                 Report.gross_sale r = total_sale_from_products project).
  { intros H. rewrite Hg. unfold resolve_gross.
    apply Qlt_bool_true in H. rewrite H. reflexivity. }
  split; [exact Hpos|]. split.
  - intros H. rewrite Hg. unfold resolve_gross.
    destruct (Qlt_bool 0 (total_sale_from_products project)) eqn:E.
    + apply Qlt_bool_true in E. contradiction.
    + destruct (Project.gross_sale project) as [g|]; simpl.
      * apply num_or_Some. reflexivity.
      * reflexivity.
  - intros Hval Hex. apply Hpos. unfold total_sale_from_products.
    apply py_sum_pos.
    + apply List.Forall_forall. intros x Hx.
      apply List.in_map_iff in Hx. destruct Hx as [p [Hx Hin]]. subst x.
      rewrite List.Forall_forall in Hval. exact (Hval p Hin).
    + apply List.Exists_exists in Hex. destruct Hex as [p [Hin Hp]].
      apply List.Exists_exists.
      exists (num_or (Product.sale_price p) 0
              * inject_Z (int_or (Product.qty p) 1)). split.
      * apply List.in_map_iff. exists p. split; [reflexivity | exact Hin].
      * exact Hp.
Qed.

Lemma gross_sale_resolution_witness :
  exists r,
    calculate_report example_now example_project = inr r
    /\ Report.gross_sale r = 300.
Proof.
  destruct (gross_sale_resolution example_now example_project)
    as (r & Hr & Hpos & _ & Hval).
  exists r. split; [exact Hr|].
  rewrite Hval.
  - reflexivity.
  - apply List.Forall_cons; [vm_compute; discriminate | apply List.Forall_nil].
  - apply List.Exists_cons_hd. vm_compute. reflexivity.
Defined.

(** C5. The rate resolver returns 0 for a missing or empty state code; a
    non-empty code is upper-cased and looked up in the fixed table, whose
    rate is returned when the code is present, and the default interstate
    rate when it is not.  [state_rate] is a total function: these cases
    cover every input and none of them raises. *)
Theorem state_rate_cases :
  state_rate None == 0
  /\ state_rate (Some EmptyString) == 0
  /\ (forall s : string, s <> EmptyString ->
        (forall v, DEFAULT_STATE_RATES !! upper s = Some v ->
                   state_rate (Some s) = v)
        /\ (DEFAULT_STATE_RATES !! upper s = None ->
            state_rate (Some s) = DEFAULT_INTERSTATE_RATE))
  /\ (forall k v, DEFAULT_STATE_RATES !! k = Some v <->
        (k = "MG"%string /\ v = 0.18) \/ (k = "SP"%string /\ v = 0.18)
        \/ (k = "RJ"%string /\ v = 0.20)).
Proof.
  split; [reflexivity|]. split; [reflexivity|]. split.
  - intros s Hs. destruct s as [|c r]; [contradiction|].
    unfold state_rate. split.
    + intros v Hv. rewrite Hv. reflexivity.
    + intros Hn. rewrite Hn. reflexivity.
  - intros k v. unfold DEFAULT_STATE_RATES. split.
    + intros H.
      destruct (decide (k = "MG"%string)) as [->|Hmg].
      { rewrite lookup_insert_eq in H. left. split; congruence. }
      rewrite lookup_insert_ne in H by congruence.
      destruct (decide (k = "SP"%string)) as [->|Hsp].
      { rewrite lookup_insert_eq in H. right; left. split; congruence. }
      rewrite lookup_insert_ne in H by congruence.
      destruct (decide (k = "RJ"%string)) as [->|Hrj].
      { rewrite lookup_insert_eq in H. right; right. split; congruence. }
      rewrite lookup_insert_ne in H by congruence.
      rewrite lookup_empty in H. discriminate.
    + intros [[-> ->]|[[-> ->]|[-> ->]]]; reflexivity.
Qed.

Lemma state_rate_cases_witness :
  state_rate (Some "rj"%string) = 0.20
  /\ state_rate (Some "ba"%string) = DEFAULT_INTERSTATE_RATE.
Proof.
  destruct state_rate_cases as (_ & _ & H & _).
  split.
  - apply (H "rj"%string); [discriminate | reflexivity].
  - apply (H "ba"%string); [discriminate | reflexivity].
Defined.

(** The record model is the case of a dict that holds every key: on the dict
    of a product, line 127 raises nothing and its factors are the defaulted
    price and quantity of the record. *)
Lemma sale_term_of_product (p : Product.t) :
  exists price qty,
    Dict.sale_term (Dict.of_product p) = inr (price, qty)
    /\ Dict.number price == num_or (Product.sale_price p) 0
    /\ Dict.number qty = inject_Z (int_or (Product.qty p) 1)
    /\ Dict.number (Dict.loop_qty (Dict.of_product p))
       = inject_Z (int_or (Product.qty p) 1).
Proof.
  destruct p as [id description purchase_cost sale_price qty ps ss].
  set (d := Dict.of_product
              (Product.mk id description purchase_cost sale_price qty ps ss)).
  assert (Hprice : d !! "sale_price"%string = Some (Dict.of_float sale_price))
    by reflexivity.
  assert (Hqty : d !! "qty"%string = Some (Dict.of_int qty)) by reflexivity.
  unfold Dict.sale_term, Dict.loop_qty, Dict.subscript, Dict.get.
  rewrite Hprice, Hqty.
  cbn [Product.sale_price Product.qty].
  eexists. eexists. split; [reflexivity|].
  split; [|split].
  - destruct sale_price as [v|]; simpl; [|reflexivity].
    unfold Dict.or_else. simpl. destruct (truthy v); reflexivity.
  - destruct qty as [n|]; simpl; [|reflexivity].
    unfold Dict.or_else. simpl. destruct (n =? 0)%Z; reflexivity.
  - destruct qty as [n|]; simpl; [|reflexivity].
    unfold Dict.or_else. simpl. destruct (n =? 0)%Z; reflexivity.
Qed.

(** C6.  The claim holds of a quantity that is None or zero, and line 138
    applies it to a missing key too; line 127 does not.  For a product dict
    without the [qty] key the subscript of line 127 raises KeyError('qty'),
    so [sum] raises before any figure is computed, whereas line 138 reads the
    quantity of the same product as 1.  With the key present and the value
    None or 0, both lines use 1. *)
Theorem omitted_qty_raises_key_error :
  Dict.product_without_qty !! "qty"%string = None
  /\ Dict.sale_terms [Dict.product_without_qty]
     = inl (Dict.KeyError "qty")
  /\ Dict.loop_qty Dict.product_without_qty = Dict.PyInt 1
  /\ (forall qty, qty = Dict.PyNone \/ qty = Dict.PyInt 0 ->
      Dict.sale_terms [<[ "qty"%string := qty ]> Dict.product_without_qty]
      = inr [(Dict.PyFloat 150, Dict.PyInt 1)]
      /\ Dict.loop_qty (<[ "qty"%string := qty ]> Dict.product_without_qty)
         = Dict.PyInt 1).
Proof.
  split; [reflexivity|]. split; [reflexivity|]. split; [reflexivity|].
  intros qty [->| ->]; split; reflexivity.
Qed.

(** A product whose quantity is None (an SQL NULL) or zero gives the same
    report, figure by figure, as the same product with quantity 1: its entry
    (and so its purchase and sale totals) and its contribution to the
    product-derived gross sale are the same, and so is the whole report. *)
Theorem missing_qty_counts_as_one (now : string) (project : Project.t)
    (before after : list Product.t) (p : Product.t) :
  Project.products project = before ++ p :: after ->
  Product.qty p = None \/ Product.qty p = Some 0%Z ->
  product_subtotal project p
  = product_subtotal project (Product.set_qty p (Some 1%Z))
  /\ total_sale_from_products project
     = total_sale_from_products
         (Project.set_products project
            (before ++ Product.set_qty p (Some 1%Z) :: after))
  /\ calculate_report now project
     = calculate_report now
         (Project.set_products project
            (before ++ Product.set_qty p (Some 1%Z) :: after)).
Proof.
  intros Hps Hq.
  assert (Hint : int_or (Product.qty p) 1 = 1%Z).
  { destruct Hq as [Hq|Hq]; rewrite Hq; reflexivity. }
  assert (Hsub : product_subtotal project p
                 = product_subtotal project (Product.set_qty p (Some 1%Z))).
  { unfold product_subtotal. cbn [Product.set_qty Product.qty Product.id
      Product.description Product.purchase_cost Product.sale_price
      Product.purchase_state Product.sale_state].
    rewrite Hint. reflexivity. }
  assert (Hsale : total_sale_from_products project
     = total_sale_from_products
         (Project.set_products project
            (before ++ Product.set_qty p (Some 1%Z) :: after))).
  { unfold total_sale_from_products.
    cbn [Project.set_products Project.products]. rewrite Hps.
    rewrite !map_app. cbn [map Product.set_qty Product.qty Product.sale_price].
    rewrite Hint. reflexivity. }
  split; [exact Hsub|]. split; [exact Hsale|].
  unfold calculate_report, resolve_gross. rewrite <- Hsale.
  change (fold_left
            (subtotal_step
               (Project.set_products project
                  (before ++ Product.set_qty p (Some 1%Z) :: after)))
            (Project.products
               (Project.set_products project
                  (before ++ Product.set_qty p (Some 1%Z) :: after))))
    with (fold_left (subtotal_step project)
            (before ++ Product.set_qty p (Some 1%Z) :: after)).
  rewrite Hps, !subtotal_loop, !map_app.
  cbn [map]. rewrite <- Hsub. reflexivity.
Qed.

Lemma missing_qty_counts_as_one_witness :
  calculate_report example_now
    (Project.set_products example_project
       [Product.set_qty example_product (Some 0%Z)])
  = calculate_report example_now
      (Project.set_products example_project
         [Product.set_qty example_product (Some 1%Z)]).
Proof.
  apply (missing_qty_counts_as_one example_now
           (Project.set_products example_project
              [Product.set_qty example_product (Some 0%Z)])
           [] [] (Product.set_qty example_product (Some 0%Z))).
  - reflexivity.
  - right. reflexivity.
Defined.

(** C7. Every project compiles to a report, so no division by zero escapes;
    the net value is the gross sale minus the total cost; the net percentage
    is net value / gross * 100 when the gross sale is positive and 0 when the
    gross sale is 0. *)
Theorem net_value_and_percent (now : string) (project : Project.t) :
  exists r,
    calculate_report now project = inr r
    /\ Report.net_value r = Report.gross_sale r - Report.total_cost r
    /\ (0 < Report.gross_sale r ->
        Report.net_percent r
        == Report.net_value r / Report.gross_sale r * 100)
    /\ (Report.gross_sale r == 0 -> Report.net_percent r == 0).
Proof.
  destruct (calculate_report_closed now project)
    as (r & Hr & _ & _ & _ & _ & _ & _ & _ & _ & _ & Hnv & Hnp & _).
  exists r. split; [exact Hr|]. split; [exact Hnv|]. split.
  - intros Hg. rewrite Hnp.
    destruct (truthy (Report.gross_sale r)) eqn:E.
    + apply Qmult_comp; reflexivity.
    + apply truthy_false in E. lra.
  - intros Hg. rewrite Hnp.
    apply truthy_false in Hg. rewrite Hg. reflexivity.
Qed.

Lemma net_value_and_percent_witness :
  exists r,
    calculate_report example_now example_project = inr r
    /\ Report.net_percent r == 4900 # 300.
Proof.
  destruct (net_value_and_percent example_now example_project)
    as (r & Hr & Hnv & Hpos & _).
  exists r. split; [exact Hr|].
  vm_compute in Hr. injection Hr as <-.
  rewrite Hpos; reflexivity.
Defined.

(** *** The interstate test of the two DIFAL loops *)

Lemma interstate_true (s : string) :
  s <> EmptyString -> s <> COMPANY_STATE ->
  str_truthy (Some s) && negb (String.eqb s COMPANY_STATE) = true.
Proof.
  intros Hne Hhome. destruct s as [|c r]; [contradiction|].
  apply String.eqb_neq in Hhome. rewrite Hhome. reflexivity.
Qed.

Lemma interstate_false (s : string) :
  s = EmptyString \/ s = COMPANY_STATE ->
  str_truthy (Some s) && negb (String.eqb s COMPANY_STATE) = false.
Proof.
  intros [->| ->]; reflexivity.
Qed.

Lemma sale_value_nonneg (project : Project.t) (p : Product.t) :
  product_valid p ->
  0 <= (if Qlt_bool 0 (Item.sale_total (product_subtotal project p))
        then Item.sale_total (product_subtotal project p)
        else Item.purchase_total (product_subtotal project p)).
Proof.
  intros Hv. destruct (product_valid_totals project p Hv) as [Hp Hs].
  destruct (Qlt_bool 0 (Item.sale_total (product_subtotal project p)));
    assumption.
Qed.

(** C3, as the specification states it, fails: the clamp of line 157 is on
    the rate difference only.  With the quantity -2 the sale total -300 is
    not positive, the sale value is the purchase total -200 and DIFAL-OUT to
    RJ is 0.08 * -200 = -16. *)
Lemma difal_out_negative_quantity :
  exists r item difal_out,
    calculate_report example_now negative_quantity_project = inr r
    /\ In item (Report.products r)
    /\ Item.difal_out item = Some difal_out
    /\ difal_out == - (16)
    /\ difal_out < 0.
Proof.
  eexists. eexists. eexists.
  split; [vm_compute; reflexivity|].
  split; [left; reflexivity|].
  split; [reflexivity|].
  split; reflexivity.
Qed.

(** C3, amended.  For every line item of a compiled report, DIFAL-OUT is
    max(0, rate of the destination - interstate rate) times the sale value
    when the resolved destination is non-empty and is not the home state,
    the sale value being the sale total when that is positive and the
    purchase total otherwise; it is 0 when the destination is empty or is
    the home state.  The figure is never negative when the sale value is not
    negative, that is when the sale total is positive or the purchase total
    is not negative. *)
Theorem difal_out_per_item (now : string) (project : Project.t) :
  exists r,
    calculate_report now project = inr r
    /\ forall item, In item (Report.products r) ->
       exists difal_out,
         Item.difal_out item = Some difal_out
         /\ (Item.sale_state item <> EmptyString ->
             Item.sale_state item <> COMPANY_STATE ->
             (0 < Item.sale_total item ->
              difal_out
              == Qmax 0 (state_rate (Some (Item.sale_state item))
                         - DEFAULT_INTERSTATE_RATE)
                 * Item.sale_total item)
             /\ (~ 0 < Item.sale_total item ->
                 difal_out
                 == Qmax 0 (state_rate (Some (Item.sale_state item))
                            - DEFAULT_INTERSTATE_RATE)
                    * Item.purchase_total item))
         /\ (Item.sale_state item = EmptyString
             \/ Item.sale_state item = COMPANY_STATE ->
             difal_out == 0)
         /\ (0 < Item.sale_total item \/ 0 <= Item.purchase_total item ->
             0 <= difal_out).
Proof.
  destruct (calculate_report_closed now project)
    as (r & Hr & _ & _ & _ & Hps & _).
  exists r. split; [exact Hr|].
  intros item Hin. rewrite Hps in Hin.
  apply report_products_inv in Hin. destruct Hin as [p [Hp ->]].
  exists (item_difal_out DEFAULT_INTERSTATE_RATE (product_subtotal project p)).
  split; [reflexivity|].
  change (Item.sale_state (report_item project p))
    with (Item.sale_state (product_subtotal project p)).
  change (Item.sale_total (report_item project p))
    with (Item.sale_total (product_subtotal project p)).
  change (Item.purchase_total (report_item project p))
    with (Item.purchase_total (product_subtotal project p)).
  unfold item_difal_out. split; [|split].
  - intros Hne Hhome. rewrite (interstate_true _ Hne Hhome). split.
    + intros Hpos. apply Qlt_bool_true in Hpos. rewrite Hpos.
      rewrite py_max_Qmax. apply Qmult_comp; [|reflexivity].
      apply Q.max_compat; reflexivity.
    + intros Hnpos.
      destruct (Qlt_bool 0 (Item.sale_total (product_subtotal project p)))
        eqn:E.
      * apply Qlt_bool_true in E. contradiction.
      * rewrite py_max_Qmax. apply Qmult_comp; [|reflexivity].
        apply Q.max_compat; reflexivity.
  - intros Hloc. rewrite (interstate_false _ Hloc). reflexivity.
  - intros Hval.
    destruct (str_truthy (Some (Item.sale_state (product_subtotal project p)))
              && negb (String.eqb (Item.sale_state (product_subtotal project p))
                                  COMPANY_STATE)); [|lra].
    apply Qmult_le_0_compat; [apply py_max_nonneg|].
    destruct (Qlt_bool 0 (Item.sale_total (product_subtotal project p)))
      eqn:E.
    + apply Qlt_bool_true in E. lra.
    + apply Qlt_bool_false in E. destruct Hval as [Hs|Hpt]; [lra | exact Hpt].
Qed.

Lemma difal_out_per_item_witness :
  exists r,
    calculate_report example_now example_project = inr r
    /\ exists item difal_out,
         In item (Report.products r)
         /\ Item.difal_out item = Some difal_out
         /\ difal_out == 24 /\ 0 <= difal_out.
Proof.
  destruct (difal_out_per_item example_now example_project) as (r & Hr & H).
  exists r. split; [exact Hr|].
  vm_compute in Hr. injection Hr as <-.
  match goal with
  | H : forall item, In item (Report.products ?R) -> _ |- _ =>
      destruct (H (hd (report_item example_project example_product)
                      (Report.products R)))
        as (d & Hd & Hfar & _ & Hnn)
  end.
  { left. reflexivity. }
  eexists. exists d. split; [left; reflexivity|]. split; [exact Hd|].
  split.
  - destruct Hfar as [Hpos _]; [discriminate | discriminate |].
    rewrite Hpos; reflexivity.
  - apply Hnn. left. reflexivity.
Defined.

(** C4, as the specification states it, fails: the clamp of line 165 is on
    the rate difference only.  With the quantity -2 the purchase total is
    -200 and DIFAL-IN from SP is 0.06 * -200 = -12. *)
Lemma difal_in_negative_quantity :
  exists r item difal_in,
    calculate_report example_now negative_quantity_project = inr r
    /\ In item (Report.products r)
    /\ Item.difal_in item = Some difal_in
    /\ difal_in == - (12)
    /\ difal_in < 0.
Proof.
  eexists. eexists. eexists.
  split; [vm_compute; reflexivity|].
  split; [left; reflexivity|].
  split; [reflexivity|].
  split; reflexivity.
Qed.

(** C4, amended.  For every line item of a compiled report, DIFAL-IN is
    max(0, home-state rate - interstate rate) times the purchase total when
    the resolved origin is non-empty and is not the home state, and 0
    otherwise.  The rate is the one of the home state (0.18), whatever the
    origin is.  The figure is never negative when the purchase total is not
    negative. *)
Theorem difal_in_per_item (now : string) (project : Project.t) :
  exists r,
    calculate_report now project = inr r
    /\ state_rate (Some COMPANY_STATE) = 0.18
    /\ forall item, In item (Report.products r) ->
       exists difal_in,
         Item.difal_in item = Some difal_in
         /\ (Item.purchase_state item <> EmptyString ->
             Item.purchase_state item <> COMPANY_STATE ->
             difal_in
             == Qmax 0 (state_rate (Some COMPANY_STATE)
                        - DEFAULT_INTERSTATE_RATE)
                * Item.purchase_total item)
         /\ (Item.purchase_state item = EmptyString
             \/ Item.purchase_state item = COMPANY_STATE ->
             difal_in == 0)
         /\ (0 <= Item.purchase_total item -> 0 <= difal_in).
Proof.
  destruct (calculate_report_closed now project)
    as (r & Hr & _ & _ & _ & Hps & _).
  exists r. split; [exact Hr|]. split; [reflexivity|].
  intros item Hin. rewrite Hps in Hin.
  apply report_products_inv in Hin. destruct Hin as [p [Hp ->]].
  exists (item_difal_in (state_rate (Some COMPANY_STATE))
            DEFAULT_INTERSTATE_RATE (product_subtotal project p)).
  split; [reflexivity|].
  change (Item.purchase_state (report_item project p))
    with (Item.purchase_state (product_subtotal project p)).
  change (Item.purchase_total (report_item project p))
    with (Item.purchase_total (product_subtotal project p)).
  unfold item_difal_in. split; [|split].
  - intros Hne Hhome. rewrite (interstate_true _ Hne Hhome).
    rewrite py_max_Qmax. apply Qmult_comp; [|reflexivity].
    apply Q.max_compat; reflexivity.
  - intros Hloc. rewrite (interstate_false _ Hloc). reflexivity.
  - intros Hpt.
    destruct (str_truthy
                (Some (Item.purchase_state (product_subtotal project p)))
              && negb (String.eqb
                         (Item.purchase_state (product_subtotal project p))
                         COMPANY_STATE)).
    + apply Qmult_le_0_compat; [apply py_max_nonneg | exact Hpt].
    + lra.
Qed.

Lemma difal_in_per_item_witness :
  exists r,
    calculate_report example_now example_project = inr r
    /\ exists item difal_in,
         In item (Report.products r)
         /\ Item.difal_in item = Some difal_in
         /\ difal_in == 12 /\ 0 <= difal_in.
Proof.
  destruct (difal_in_per_item example_now example_project) as (r & Hr & _ & H).
  exists r. split; [exact Hr|].
  vm_compute in Hr. injection Hr as <-.
  match goal with
  | H : forall item, In item (Report.products ?R) -> _ |- _ =>
      destruct (H (hd (report_item example_project example_product)
                      (Report.products R)))
        as (d & Hd & Hfar & _ & Hnn)
  end.
  { left. reflexivity. }
  eexists. exists d. split; [left; reflexivity|]. split; [exact Hd|].
  split.
  - rewrite Hfar; [reflexivity | discriminate | discriminate].
  - apply Hnn. vm_compute. discriminate.
Defined.

Lemma subtotal_sale_state_upper (project : Project.t) (p : Product.t) :
  upper (Item.sale_state (product_subtotal project p))
  = Item.sale_state (product_subtotal project p).
Proof. apply upper_idem. Qed.

(** C10. For every line item of a compiled report whose resolved destination
    is non-empty, is not the home state and is not a key of the state-rate
    table, the rate resolver returns exactly the default interstate rate, the
    clamped differential is 0, and DIFAL-OUT is 0. *)
Theorem difal_out_unknown_destination (now : string) (project : Project.t) :
  exists r,
    calculate_report now project = inr r
    /\ forall item, In item (Report.products r) ->
       Item.sale_state item <> EmptyString ->
       Item.sale_state item <> COMPANY_STATE ->
       DEFAULT_STATE_RATES !! Item.sale_state item = None ->
       state_rate (Some (Item.sale_state item)) = DEFAULT_INTERSTATE_RATE
       /\ Qmax 0 (state_rate (Some (Item.sale_state item))
                  - DEFAULT_INTERSTATE_RATE) == 0
       /\ exists difal_out,
            Item.difal_out item = Some difal_out /\ difal_out == 0.
Proof.
  destruct (calculate_report_closed now project)
    as (r & Hr & _ & _ & _ & Hps & _).
  exists r. split; [exact Hr|].
  intros item Hin. rewrite Hps in Hin.
  apply report_products_inv in Hin. destruct Hin as [p [Hp ->]].
  change (Item.sale_state (report_item project p))
    with (Item.sale_state (product_subtotal project p)).
  intros Hne Hhome Hnone.
  assert (Hrate : state_rate (Some (Item.sale_state (product_subtotal project p)))
                  = DEFAULT_INTERSTATE_RATE).
  { pose proof (subtotal_sale_state_upper project p) as Hup.
    destruct (Item.sale_state (product_subtotal project p)) as [|c s];
      [contradiction|].
    unfold state_rate. rewrite Hup, Hnone. reflexivity. }
  split; [exact Hrate|]. split.
  { rewrite Hrate. reflexivity. }
  exists (item_difal_out DEFAULT_INTERSTATE_RATE (product_subtotal project p)).
  split; [reflexivity|].
  unfold item_difal_out. rewrite (interstate_true _ Hne Hhome), Hrate.
  unfold py_max.
  replace (Qlt_bool 0.0 (DEFAULT_INTERSTATE_RATE - DEFAULT_INTERSTATE_RATE))
    with false by reflexivity.
  lra.
Qed.

Lemma difal_out_unknown_destination_witness :
  exists r,
    calculate_report example_now example_unknown_destination = inr r
    /\ exists item,
         In item (Report.products r)
         /\ Item.sale_state item = "BA"%string
         /\ exists difal_out,
              Item.difal_out item = Some difal_out /\ difal_out == 0.
Proof.
  destruct (difal_out_unknown_destination example_now
              example_unknown_destination) as (r & Hr & H).
  exists r. split; [exact Hr|].
  vm_compute in Hr. injection Hr as <-.
  match goal with
  | H : forall item, In item (Report.products ?R) -> _ |- _ =>
      destruct (H (hd (report_item example_project example_product)
                      (Report.products R)))
        as (_ & _ & Hd)
  end.
  - left. reflexivity.
  - discriminate.
  - discriminate.
  - reflexivity.
  - eexists. split; [left; reflexivity|]. split; [reflexivity|]. exact Hd.
Defined.

(** *** Rounding to cents *)

Lemma round_half_even_error (y : Q) :
  Qabs (inject_Z (round_half_even y) - y) <= 1 # 2.
Proof.
  unfold round_half_even.
  pose proof (Qfloor_le y) as Hlo. pose proof (Qlt_floor y) as Hhi.
  rewrite inject_Z_plus in Hhi. change (inject_Z 1) with 1 in Hhi.
  apply Qabs_Qle_condition.
  destruct (Qlt_bool (y - inject_Z (Qfloor y)) (1 # 2)) eqn:E1.
  { apply Qlt_bool_true in E1. split; lra. }
  apply Qlt_bool_false in E1.
  destruct (Qlt_bool (1 # 2) (y - inject_Z (Qfloor y))) eqn:E2.
  { apply Qlt_bool_true in E2. rewrite inject_Z_plus. change (inject_Z 1) with 1. split; lra. }
  apply Qlt_bool_false in E2.
  destruct (Z.even (Qfloor y)).
  - split; lra.
  - rewrite inject_Z_plus. change (inject_Z 1) with 1. split; lra.
Qed.

(** *** The same figures on IEEE doubles *)

(** The literals of the engine are the doubles one expects, e.g. 0.20 is
    0x1.999999999999ap-3, and the keys of the margin table are 10, 15 and 20
    on doubles as well. *)
Example binary64_literals :
  Binary64.of_Q 0.20 = S754_finite false 0x1999999999999a (-55)
  /\ Binary64.of_Q 1 = S754_finite false 0x10000000000000 (-52)
  /\ map (fun m => Binary64.to_int
                     (Binary64.mul (Binary64.of_Q m) (Binary64.of_Q 100)))
         profit_margins
     = [10; 15; 20]%Z.
Proof. repeat split; vm_compute; reflexivity. Qed.

(** The scenario of the specification on doubles: 278.89, 295.29, 313.75. *)
Example binary64_spec_scenario :
  map (fun m => Binary64.min_sale (Binary64.of_Q 251) (Binary64.of_Q m))
      profit_margins
  = [inr (Binary64.of_Q 278.89); inr (Binary64.of_Q 295.29);
     inr (Binary64.of_Q 313.75)].
Proof. vm_compute. reflexivity. Qed.

(** Line 170 on doubles for the project behind [Binary64.large_total]:
    the purchase total is 0.0 + 1e12 * 30000, both DIFAL totals and the DAS
    charge are 0, and the other costs sum to 0 + 4.0. *)
Example binary64_large_total_reached :
  Binary64.add
    (Binary64.add
       (Binary64.add
          (Binary64.add
             (Binary64.add (Binary64.of_Q 0)
                (Binary64.mul (Binary64.of_Q 1000000000000)
                              (Binary64.of_Q 30000)))
             (Binary64.of_Q 0))
          (Binary64.of_Q 0))
       (Binary64.add (Binary64.of_Q 0) (Binary64.of_Q 4)))
    (Binary64.mul (Binary64.of_Q 0) (Binary64.of_Q 0.05))
  = Binary64.large_total.
Proof. vm_compute. reflexivity. Qed.

(** On doubles too, 1 - m is not zero for the three margins, so the division
    of line 175 raises for no total cost; for a margin of 100% it raises. *)
Lemma binary64_margins_nonzero (total_cost : spec_float) :
  Forall (fun m => exists sale,
            Binary64.min_sale total_cost (Binary64.of_Q m) = inr sale)
         profit_margins
  /\ Binary64.min_sale total_cost (Binary64.of_Q 1.0) = inl ZeroDivisionError.
Proof.
  split; [|reflexivity].
  unfold profit_margins.
  repeat constructor; eexists; reflexivity.
Qed.

(** C8, as the specification states it, fails on the doubles the code
    computes with: for a total cost of 30000000000000004 and the margin 20%
    the minimum sale is 37500000000000000, and this figure times (1 - m)
    misses the total cost by more than 2, whether the product is taken
    exactly or rounded to a double. *)
Lemma min_sale_tolerance_fails_on_doubles :
  exists sale,
    Binary64.min_sale Binary64.large_total Binary64.margin_20 = inr sale
    /\ Binary64.to_Q Binary64.large_total == 30000000000000004
    /\ Binary64.to_Q sale == 37500000000000000
    /\ 2 < Qabs (Binary64.to_Q sale
                 * Binary64.to_Q (Binary64.sub (Binary64.of_Q 1)
                                               Binary64.margin_20)
                 - Binary64.to_Q Binary64.large_total)
    /\ 2 < Qabs (Binary64.to_Q
                   (Binary64.mul sale
                      (Binary64.sub (Binary64.of_Q 1) Binary64.margin_20))
                 - Binary64.to_Q Binary64.large_total).
Proof.
  eexists. split; [vm_compute; reflexivity|].
  repeat split; vm_compute; reflexivity.
Qed.

(** *** Rounding to binary64: the error of a division and of a product *)

Lemma pow2_pos (e : Z) : 0 < pow2 e.
Proof. apply Qpower_0_lt. reflexivity. Qed.

Lemma pow2_add (a b : Z) : pow2 (a + b) == pow2 a * pow2 b.
Proof. apply Qpower_plus. discriminate. Qed.

Lemma pow2_sub (a b : Z) : pow2 (a - b) == pow2 a / pow2 b.
Proof. apply Qpower_minus. discriminate. Qed.

Lemma pow2_le (a b : Z) : (a <= b)%Z -> pow2 a <= pow2 b.
Proof. intros H. apply Qpower_le_compat_l; [exact H | discriminate]. Qed.

Lemma pow2_lt_inv (a b : Z) : pow2 a < pow2 b -> (a < b)%Z.
Proof. intros H. apply (Qpower_lt_compat_l_inv 2); [exact H | reflexivity]. Qed.

Lemma pow2_Z (n : Z) : (0 <= n)%Z -> pow2 n == inject_Z (2 ^ n).
Proof. intros H. unfold pow2. rewrite Zpower_Qpower by exact H. reflexivity. Qed.

Lemma pow2_0 : pow2 0 == 1.
Proof. reflexivity. Qed.

Lemma pow2_1 : pow2 1 == 2.
Proof. reflexivity. Qed.

Lemma pow2_split (a b : Z) : pow2 a == pow2 b * pow2 (a - b).
Proof. rewrite <- pow2_add. replace (b + (a - b))%Z with a by lia. reflexivity. Qed.

Lemma to_Q_finite (m : positive) (e : Z) :
  Binary64.to_Q (S754_finite false m e) == inject_Z (Zpos m) * pow2 e.
Proof.
  unfold Binary64.to_Q. destruct e as [|k|k].
  - rewrite Z.pow_0_r, Z.mul_1_r, pow2_0. ring.
  - rewrite inject_Z_mult, pow2_Z by lia. reflexivity.
  - unfold pow2. change (2 : Q) with (2 # 1).
    rewrite Qpower_decomp_neg_pos.
    unfold Qeq, Qmult, inject_Z. simpl.
    rewrite Z.pow_1_l by lia. rewrite Pos.mul_1_l. lia.
Qed.

Lemma digits2_size (p : positive) : digits2_pos p = Pos.size p.
Proof. induction p; simpl; congruence. Qed.

Lemma Zdigits2_bounds (p : positive) :
  (2 ^ (Zdigits2 (Zpos p) - 1) <= Zpos p < 2 ^ Zdigits2 (Zpos p))%Z.
Proof.
  simpl. rewrite digits2_size.
  pose proof (Pos.size_gt p) as Hgt. pose proof (Pos.size_le p) as Hle.
  apply Pos2Z.pos_lt_pos in Hgt. apply Pos2Z.pos_le_pos in Hle.
  rewrite Pos2Z.inj_pow in Hgt, Hle.
  change (Zpos 2) with 2%Z in *.
  split; [|exact Hgt].
  replace (Zpos (Pos.size p)) with (Z.succ (Zpos (Pos.size p) - 1)) in Hle by lia.
  rewrite Z.pow_succ_r in Hle by lia.
  change (Zpos p~0) with (2 * Zpos p)%Z in Hle. lia.
Qed.

Lemma Zdigits2_pos (p : positive) : (0 < Zdigits2 (Zpos p))%Z.
Proof. simpl. lia. Qed.

Lemma Zdigits2_bounds_Q (p : positive) (e : Z) :
  pow2 (Zdigits2 (Zpos p) + e - 1) <= inject_Z (Zpos p) * pow2 e.
Proof.
  pose proof (Zdigits2_bounds p) as [Hlo _].
  pose proof (Zdigits2_pos p) as Hd.
  replace (Zdigits2 (Zpos p) + e - 1)%Z with ((Zdigits2 (Zpos p) - 1) + e)%Z by lia.
  rewrite pow2_add, pow2_Z by lia.
  apply Qmult_le_compat_r; [|apply Qlt_le_weak, pow2_pos].
  rewrite <- Zle_Qle. exact Hlo.
Qed.

Lemma represents_comp (mrs : shr_record) (x y : Q) :
  x == y -> represents mrs x -> represents mrs y.
Proof.
  intros H. unfold represents.
  destruct (shr_r mrs), (shr_s mrs); cbv zeta; rewrite H; trivial.
Qed.

Lemma represents_bounds (mrs : shr_record) (x : Q) :
  represents mrs x ->
  inject_Z (shr_m mrs) <= x /\ x < inject_Z (shr_m mrs) + 1.
Proof.
  unfold represents. destruct (shr_r mrs), (shr_s mrs); cbv zeta; lra.
Qed.

Lemma represents_exact (m : Z) (x : Q) :
  represents (shr_record_of_loc m loc_Exact) x <-> x == inject_Z m.
Proof. reflexivity. Qed.

Lemma inject_Z_xO (p : positive) :
  inject_Z (Zpos p~0) == 2 * inject_Z (Zpos p).
Proof. unfold Qeq, Qmult, inject_Z. simpl. lia. Qed.

Lemma inject_Z_xI (p : positive) :
  inject_Z (Zpos p~1) == 2 * inject_Z (Zpos p) + 1.
Proof. unfold Qeq, Qmult, Qplus, inject_Z. simpl. lia. Qed.

Lemma shr_1_represents (mrs : shr_record) (x : Q) :
  (0 <= shr_m mrs)%Z -> represents mrs x ->
  represents (shr_1 mrs) (x / 2) /\ (0 <= shr_m (shr_1 mrs))%Z.
Proof.
  destruct mrs as [m r s]. cbn [shr_m]. intros Hm H.
  assert (Hx : x / 2 == x * (1 # 2)) by (unfold Qdiv; reflexivity).
  destruct m as [|p|p]; [| |lia].
  - split; [|simpl; destruct r, s; simpl; lia].
    apply (represents_comp _ (x * (1 # 2))); [symmetry; exact Hx|].
    unfold represents in *.
    destruct r, s; cbn [shr_1 shr_m shr_r shr_s orb] in *;
      change (inject_Z 0) with 0 in *; lra.
  - pose proof (inject_Z_xO p) as HO. pose proof (inject_Z_xI p) as HI.
    split; [|destruct p, r, s; simpl; lia].
    apply (represents_comp _ (x * (1 # 2))); [symmetry; exact Hx|].
    unfold represents in *.
    destruct p as [p|p|]; destruct r, s;
      cbn [shr_1 shr_m shr_r shr_s orb] in *;
      try (specialize (inject_Z_xO p) as HO');
      try (specialize (inject_Z_xI p) as HI');
      change (inject_Z 0) with 0 in *; change (inject_Z 1) with 1 in *; lra.
Qed.

Lemma iter_pos_represents (n : positive) :
  forall (mrs : shr_record) (x : Q),
    (0 <= shr_m mrs)%Z -> represents mrs x ->
    represents (SpecFloat.iter_pos shr_1 n mrs) (x / pow2 (Zpos n))
    /\ (0 <= shr_m (SpecFloat.iter_pos shr_1 n mrs))%Z.
Proof.
  induction n as [n IH|n IH|]; intros mrs x Hm H; cbn [SpecFloat.iter_pos].
  - destruct (shr_1_represents mrs x Hm H) as [H1 Hm1].
    destruct (IH _ _ Hm1 H1) as [H2 Hm2].
    destruct (IH _ _ Hm2 H2) as [H3 Hm3].
    split; [|exact Hm3].
    revert H3. apply represents_comp.
    replace (Zpos n~1) with (1 + (Zpos n + Zpos n))%Z by lia.
    rewrite !pow2_add, pow2_1.
    field. pose proof (pow2_pos (Zpos n)). lra.
  - destruct (IH _ _ Hm H) as [H2 Hm2].
    destruct (IH _ _ Hm2 H2) as [H3 Hm3].
    split; [|exact Hm3].
    revert H3. apply represents_comp.
    replace (Zpos n~0) with (Zpos n + Zpos n)%Z by lia.
    rewrite !pow2_add.
    field. pose proof (pow2_pos (Zpos n)). lra.
  - destruct (shr_1_represents mrs x Hm H) as [H1 Hm1].
    split; [|exact Hm1].
    revert H1. apply represents_comp. rewrite pow2_1. reflexivity.
Qed.

Lemma round_nearest_even_error (mrs : shr_record) (x : Q) :
  (0 <= shr_m mrs)%Z -> represents mrs x ->
  let m1 := round_nearest_even (shr_m mrs) (loc_of_shr_record mrs) in
  (0 <= m1)%Z
  /\ inject_Z m1 - (1 # 2) <= x /\ x <= inject_Z m1 + (1 # 2).
Proof.
  destruct mrs as [m r s]. cbn [shr_m]. intros Hm H. cbv zeta.
  unfold represents in H. cbn [shr_m shr_r shr_s] in H.
  destruct r, s; cbn [loc_of_shr_record round_nearest_even];
    try destruct (Z.even m);
    rewrite ?inject_Z_plus; change (inject_Z 1) with 1;
    (split; [lia | lra]).
Qed.

Lemma fexp_eq (e : Z) : SpecFloat.fexp 53 1024 e = Z.max (e - 53) (-1074).
Proof. reflexivity. Qed.

Lemma shr_spec (mrs : shr_record) (e n : Z) (mrs' : shr_record) (e' : Z)
    (x : Q) :
  shr mrs e n = (mrs', e') ->
  (0 <= shr_m mrs)%Z -> represents mrs x ->
  e' = (e + Z.max n 0)%Z
  /\ (0 <= shr_m mrs')%Z
  /\ represents mrs' (x / pow2 (Z.max n 0))
  /\ ((n <= 0)%Z -> mrs' = mrs).
Proof.
  intros Hs Hm H.
  assert (Hx0 : x / pow2 0 == x) by (rewrite pow2_0; field).
  destruct n as [|p|p]; cbn [shr] in Hs; injection Hs as <- <-.
  - split; [simpl; lia|]. split; [exact Hm|]. split; [|reflexivity].
    revert H. apply represents_comp. symmetry. exact Hx0.
  - destruct (iter_pos_represents p mrs x Hm H) as [H1 Hm1].
    split; [reflexivity|]. split; [exact Hm1|]. split; [exact H1|]. lia.
  - split; [simpl; lia|]. split; [exact Hm|]. split; [|reflexivity].
    revert H. apply represents_comp. symmetry. exact Hx0.
Qed.

(** 2 ^ fexp(digits m + e) against the value m * 2^e. *)
Lemma pow2_fexp_bound (m : positive) (e : Z) :
  pow2 (SpecFloat.fexp 53 1024 (Zdigits2 (Zpos m) + e))
  <= pow2 (-52) * (inject_Z (Zpos m) * pow2 e) + pow2 (-1074).
Proof.
  rewrite fexp_eq.
  pose proof (Zdigits2_bounds_Q m e) as Hd.
  pose proof (pow2_pos (-1074)) as Ht.
  pose proof (pow2_pos (-52)) as Ha.
  pose proof (pow2_pos (Zdigits2 (Zpos m) + e - 1)) as Hb.
  destruct (Z.max_spec (Zdigits2 (Zpos m) + e - 53) (-1074)) as [[_ ->]|[_ ->]].
  - assert (0 <= pow2 (-52) * (inject_Z (Zpos m) * pow2 e)); [|lra].
    apply Qmult_le_0_compat; lra.
  - replace (Zdigits2 (Zpos m) + e - 53)%Z
      with (-52 + (Zdigits2 (Zpos m) + e - 1))%Z by lia.
    rewrite pow2_add.
    assert (pow2 (-52) * pow2 (Zdigits2 (Zpos m) + e - 1)
            <= pow2 (-52) * (inject_Z (Zpos m) * pow2 e)); [|lra].
    apply Qmult_le_l; [exact Ha | exact Hd].
Qed.

Lemma pow2_m52 : pow2 (-52) == 1 # 4503599627370496.
Proof. reflexivity. Qed.

Lemma pow2_m51 : pow2 (-51) == 1 # 2251799813685248.
Proof. reflexivity. Qed.

Lemma pow2_m1073 : pow2 (-1073) == 2 * pow2 (-1074).
Proof.
  replace (-1073)%Z with (1 + -1074)%Z by lia.
  rewrite pow2_add, pow2_1. reflexivity.
Qed.


#[local] Instance round_error_comp : Proper (Qeq ==> Qeq) round_error.
Proof. intros a b H. unfold round_error. rewrite H. reflexivity. Qed.

Lemma binary_round_aux_error (mx ex : Z) (lx : location) (x : Q) :
  (0 <= mx)%Z ->
  represents (shr_record_of_loc mx lx) x ->
  (ex <= SpecFloat.fexp 53 1024 (Zdigits2 mx + ex))%Z \/ lx = loc_Exact ->
  exists m'' e'',
    binary_round_aux 53 1024 false mx ex lx
    = match m'' with
      | Z0 => S754_zero false
      | Zpos m => if (e'' <=? 1024 - 53)%Z then S754_finite false m e''
                  else S754_infinity false
      | Zneg _ => S754_nan
      end
    /\ (0 <= m'')%Z
    /\ inject_Z m'' * pow2 e'' <= x * pow2 ex + round_error (x * pow2 ex)
    /\ x * pow2 ex - round_error (x * pow2 ex) <= inject_Z m'' * pow2 e''.
Proof.
  intros Hmx Hx Hcase.
  assert (Hm0 : (0 <= shr_m (shr_record_of_loc mx lx))%Z).
  { destruct lx as [|[| |]]; exact Hmx. }
  assert (Hxm : inject_Z mx <= x).
  { apply represents_bounds in Hx.
    destruct lx as [|[| |]]; cbn [shr_record_of_loc shr_m] in Hx; lra. }
  pose proof (pow2_pos ex) as Hpex.
  pose proof (pow2_pos (-1074)) as Ht.
  assert (HX0 : 0 <= x * pow2 ex).
  { apply Qmult_le_0_compat; [|lra].
    assert (0 <= inject_Z mx) by (change 0 with (inject_Z 0); rewrite <- Zle_Qle; exact Hmx).
    lra. }
  unfold binary_round_aux, shr_fexp.
  set (n := (SpecFloat.fexp 53 1024 (Zdigits2 mx + ex) - ex)%Z).
  destruct (shr (shr_record_of_loc mx lx) ex n) as [mrs' e'] eqn:E1.
  destruct (shr_spec _ _ _ _ _ x E1 Hm0 Hx) as (He' & Hm' & Hx' & Hsame).
  set (x' := x / pow2 (Z.max n 0)) in *.
  destruct (round_nearest_even_error mrs' x' Hm' Hx') as (Hm1 & Hlo & Hhi).
  set (m1 := round_nearest_even (shr_m mrs') (loc_of_shr_record mrs')) in *.
  set (n2 := (SpecFloat.fexp 53 1024 (Zdigits2 m1 + e') - e')%Z).
  destruct (shr (shr_record_of_loc m1 loc_Exact) e' n2) as [mrs'' e''] eqn:E2.
  destruct (shr_spec _ _ _ _ _ (inject_Z m1) E2 Hm1 (Qeq_refl _))
    as (He'' & Hm'' & Hx'' & Hsame2).
  exists (shr_m mrs''), e''.
  split; [reflexivity|]. split; [exact Hm''|].
  apply represents_bounds in Hx''.
  pose proof (pow2_pos e') as Hpe'. pose proof (pow2_pos e'') as Hpe''.
  pose proof (pow2_pos (Z.max n 0)) as Hpn.
  pose proof (pow2_pos (Z.max n2 0)) as Hpn2.
  assert (HX : x' * pow2 e' == x * pow2 ex).
  { unfold x'. rewrite He', pow2_add. field. lra. }
  assert (HV : inject_Z m1 / pow2 (Z.max n2 0) * pow2 e''
               == inject_Z m1 * pow2 e').
  { rewrite He'', pow2_add. field. lra. }
  set (V := inject_Z (shr_m mrs'') * pow2 e'').
  set (X := x * pow2 ex) in *.
  set (M := inject_Z m1 * pow2 e') in *.
  (* V <= M < V + 2^e'' *)
  assert (HVM : V <= M /\ M < V + pow2 e'').
  { destruct Hx'' as [H1 H2]. unfold V. rewrite <- HV. split.
    - apply Qmult_le_compat_r; lra.
    - apply (Qmult_lt_compat_r _ _ (pow2 e'')) in H2; [|exact Hpe''].
      lra. }
  (* |M - X| <= 2^e' / 2 *)
  assert (HMX : M - pow2 e' * (1 # 2) <= X /\ X <= M + pow2 e' * (1 # 2)).
  { unfold M. rewrite <- HX. split.
    - assert ((inject_Z m1 - (1 # 2)) * pow2 e' <= x' * pow2 e')
        by (apply Qmult_le_compat_r; lra). lra.
    - assert (x' * pow2 e' <= (inject_Z m1 + (1 # 2)) * pow2 e')
        by (apply Qmult_le_compat_r; lra). lra. }
  unfold round_error. rewrite pow2_m51, pow2_m1073.
  destruct (Z_le_gt_dec 0 n) as [Hn|Hn].
  - (* the first shift lands on fexp *)
    assert (Hfe : e' = SpecFloat.fexp 53 1024 (Zdigits2 mx + ex)).
    { rewrite He'. unfold n. lia. }
    assert (Hemin : (-1074 <= e')%Z).
    { rewrite Hfe, fexp_eq. lia. }
    assert (HU : pow2 e' <= pow2 (-52) * X + pow2 (-1074)).
    { destruct mx as [|p|p]; [| |lia].
      - assert (e' = (-1074)%Z).
        { rewrite Hfe, fexp_eq in *. unfold n in Hn.
          rewrite fexp_eq in Hn. cbn [Zdigits2] in *. lia. }
        subst e'. rewrite H. rewrite pow2_m52. lra.
      - rewrite Hfe.
        pose proof (pow2_fexp_bound p ex) as Hb.
        assert (inject_Z (Zpos p) * pow2 ex <= X)
          by (unfold X; apply Qmult_le_compat_r; lra).
        rewrite pow2_m52 in *. lra. }
    rewrite pow2_m52 in HU.
    destruct (Z_le_gt_dec n2 0) as [Hn2|Hn2].
    + assert (HVeq : V == M).
      { unfold V, M. rewrite (Hsame2 Hn2). cbn [shr_record_of_loc shr_m].
        rewrite He''. replace (Z.max n2 0) with 0%Z by lia.
        rewrite Z.add_0_r. reflexivity. }
      rewrite HVeq. split; lra.
    + assert (Hm1pos : (0 < m1)%Z).
      { destruct (Z.eq_dec m1 0%Z) as [E0|E0]; [|lia].
        exfalso. unfold n2 in Hn2. rewrite E0, fexp_eq in Hn2.
        cbn [Zdigits2] in Hn2. lia. }
      assert (HU2 : pow2 e'' <= pow2 (-52) * M + pow2 (-1074)).
      { assert (Hfe2 : e'' = SpecFloat.fexp 53 1024 (Zdigits2 m1 + e')).
        { rewrite He''. unfold n2. lia. }
        rewrite Hfe2. destruct m1 as [|p|p]; [lia| |lia].
        apply pow2_fexp_bound. }
      rewrite pow2_m52 in HU2. split; lra.
  - (* no shift at all: the input is exact *)
    destruct Hcase as [Hc| ->]; [unfold n in Hn; lia|].
    assert (Hs1 : mrs' = shr_record_of_loc mx loc_Exact) by (apply Hsame; lia).
    assert (He1 : e' = ex) by (rewrite He'; lia).
    assert (Hm1eq : m1 = mx) by (unfold m1; rewrite Hs1; reflexivity).
    assert (Hn2 : (n2 <= 0)%Z).
    { unfold n2. rewrite Hm1eq, He1. fold n. lia. }
    assert (HVeq : V == X).
    { unfold V, X. rewrite (Hsame2 Hn2). cbn [shr_record_of_loc shr_m].
      rewrite He'', He1, Hm1eq. replace (Z.max n2 0) with 0%Z by lia.
      rewrite Z.add_0_r.
      assert (Hxe : x == inject_Z mx) by exact Hx.
      rewrite Hxe. reflexivity. }
    rewrite HVeq. split; lra.
Qed.


Lemma binary_round_aux_finite (mx ex : Z) (lx : location) (x : Q) :
  (0 <= mx)%Z ->
  represents (shr_record_of_loc mx lx) x ->
  (ex <= SpecFloat.fexp 53 1024 (Zdigits2 mx + ex))%Z \/ lx = loc_Exact ->
  x * pow2 ex <= pow2 900 ->
  finite_nonneg (binary_round_aux 53 1024 false mx ex lx)
  /\ Binary64.to_Q (binary_round_aux 53 1024 false mx ex lx)
     <= x * pow2 ex + round_error (x * pow2 ex)
  /\ x * pow2 ex - round_error (x * pow2 ex)
     <= Binary64.to_Q (binary_round_aux 53 1024 false mx ex lx).
Proof.
  intros Hmx Hx Hcase Hbig.
  destruct (binary_round_aux_error mx ex lx x Hmx Hx Hcase)
    as (m & e & -> & Hm & Hhi & Hlo).
  destruct m as [|p|p]; [| |lia].
  - split; [left; eexists; reflexivity|].
    change (Binary64.to_Q (S754_zero false)) with 0.
    assert (E : inject_Z 0 * pow2 e == 0) by (change (inject_Z 0) with 0; ring).
    rewrite E in Hhi, Hlo. split; assumption.
  - assert (He : (e <=? 1024 - 53)%Z = true).
    { apply Z.leb_le.
      assert (Hlt : pow2 e < pow2 902).
      { pose proof (pow2_pos e) as Hpe.
        assert (H1 : pow2 e <= inject_Z (Zpos p) * pow2 e).
        { assert (1 <= inject_Z (Zpos p)).
          { change 1 with (inject_Z 1). rewrite <- Zle_Qle. lia. }
          assert ((inject_Z (Zpos p) - 1) * pow2 e >= 0)
            by (apply Qmult_le_0_compat; lra). lra. }
        assert (H2 : pow2 902 == 4 * pow2 900).
        { replace 902%Z with (2 + 900)%Z by lia. rewrite pow2_add.
          reflexivity. }
        assert (H3 : pow2 (-1073) <= pow2 900) by (apply pow2_le; lia).
        pose proof (pow2_pos 900) as H4.
        unfold round_error in Hhi. rewrite pow2_m51 in Hhi.
        rewrite H2. lra. }
      apply pow2_lt_inv in Hlt. lia. }
    rewrite He. split; [right; eauto|].
    rewrite to_Q_finite. split; assumption.
Qed.

Lemma new_location_represents (m2 r q : Z) :
  (0 < m2)%Z -> (0 <= r < m2)%Z ->
  represents (shr_record_of_loc q (new_location m2 r))
             (inject_Z q + inject_Z r / inject_Z m2).
Proof.
  intros Hm2 Hr.
  assert (Hm2q : 0 < inject_Z m2).
  { change 0 with (inject_Z 0). rewrite <- Zlt_Qlt. exact Hm2. }
  set (t := inject_Z r / inject_Z m2).
  assert (Ht : t * inject_Z m2 == inject_Z r).
  { unfold t. field. lra. }
  assert (Hpos : (0 < r)%Z -> 0 < t).
  { intros H. unfold t. apply Qlt_shift_div_l; [exact Hm2q|].
    rewrite Qmult_0_l. change 0 with (inject_Z 0). rewrite <- Zlt_Qlt.
    exact H. }
  assert (Hlt1 : t < 1).
  { unfold t. apply Qlt_shift_div_r; [exact Hm2q|].
    rewrite Qmult_1_l. rewrite <- Zlt_Qlt. lia. }
  assert (Hhalf_lt : (2 * r < m2)%Z -> t < 1 # 2).
  { intros H. unfold t. apply Qlt_shift_div_r; [exact Hm2q|].
    rewrite Zlt_Qlt, inject_Z_mult in H. change (inject_Z 2) with 2 in H.
    lra. }
  assert (Hhalf_gt : (m2 < 2 * r)%Z -> 1 # 2 < t).
  { intros H. unfold t. apply Qlt_shift_div_l; [exact Hm2q|].
    rewrite Zlt_Qlt, inject_Z_mult in H. change (inject_Z 2) with 2 in H.
    lra. }
  assert (Hhalf_eq : (2 * r = m2)%Z -> t == 1 # 2).
  { intros H. unfold t. rewrite <- H, inject_Z_mult.
    change (inject_Z 2) with 2. field.
    rewrite <- H, inject_Z_mult in Hm2q. change (inject_Z 2) with 2 in Hm2q.
    lra. }
  assert (Hzero : r = 0%Z -> t == 0).
  { intros E0. unfold t. rewrite E0. reflexivity. }
  clearbody t.
  unfold new_location.
  destruct (Z.even m2) eqn:Ev;
    unfold new_location_even, new_location_odd;
    (destruct (Z.eqb r 0) eqn:E0;
     [apply Z.eqb_eq in E0 | apply Z.eqb_neq in E0]).
  - specialize (Hzero E0). unfold represents.
    cbn [shr_record_of_loc shr_m shr_r shr_s]. lra.
  - assert (Hrpos : (0 < r)%Z) by lia. specialize (Hpos Hrpos).
    destruct (Z.compare_spec (2 * r) m2) as [E|E|E];
      unfold represents; cbn [shr_record_of_loc shr_m shr_r shr_s].
    + specialize (Hhalf_eq E). lra.
    + specialize (Hhalf_lt E). lra.
    + specialize (Hhalf_gt E). lra.
  - specialize (Hzero E0). unfold represents.
    cbn [shr_record_of_loc shr_m shr_r shr_s]. lra.
  - assert (Hrpos : (0 < r)%Z) by lia. specialize (Hpos Hrpos).
    assert (Hne : (2 * r <> m2)%Z).
    { intros E. rewrite <- E, Z.even_mul in Ev. discriminate. }
    destruct (Z.compare_spec (2 * r + 1) m2) as [E|E|E];
      unfold represents; cbn [shr_record_of_loc shr_m shr_r shr_s].
    + assert (H : (2 * r < m2)%Z) by lia. specialize (Hhalf_lt H). lra.
    + assert (H : (2 * r < m2)%Z) by lia. specialize (Hhalf_lt H). lra.
    + assert (H : (m2 < 2 * r)%Z) by lia. specialize (Hhalf_gt H). lra.
Qed.

Lemma Zdigits2_ge_53 (q : Z) : (2 ^ 52 <= q)%Z -> (53 <= Zdigits2 q)%Z.
Proof.
  intros H. destruct q as [|p|p]; try (exfalso; lia).
  pose proof (Zdigits2_bounds p) as [_ Hhi].
  pose proof (Zdigits2_pos p) as Hd.
  destruct (Z_lt_le_dec (Zdigits2 (Zpos p)) 53) as [Hlt|Hge]; [|exact Hge].
  exfalso.
  assert (2 ^ Zdigits2 (Zpos p) <= 2 ^ 52)%Z by (apply Z.pow_le_mono_r; lia).
  lia.
Qed.

Lemma SFdiv_core_spec (mx my : positive) (ex ey : Z) :
  exists q e' l x,
    SFdiv_core_binary 53 1024 (Zpos mx) ex (Zpos my) ey = (q, e', l)
    /\ (0 <= q)%Z
    /\ represents (shr_record_of_loc q l) x
    /\ x * pow2 e'
       == inject_Z (Zpos mx) * pow2 ex / (inject_Z (Zpos my) * pow2 ey)
    /\ (e' <= SpecFloat.fexp 53 1024 (Zdigits2 q + e'))%Z.
Proof.
  unfold SFdiv_core_binary.
  set (d1 := Zdigits2 (Zpos mx)). set (d2 := Zdigits2 (Zpos my)).
  set (e' := Z.min (SpecFloat.fexp 53 1024 (d1 + ex - (d2 + ey))) (ex - ey)).
  set (s := (ex - ey - e')%Z).
  assert (Hs : (0 <= s)%Z) by (unfold s, e'; lia).
  set (m' := match s with
             | 0%Z => Zpos mx
             | Zpos _ => Z.shiftl (Zpos mx) s
             | Zneg _ => 0%Z
             end).
  assert (Hm' : m' = (Zpos mx * 2 ^ s)%Z).
  { unfold m'. destruct s as [|p|p] eqn:Es.
    - rewrite Z.pow_0_r. lia.
    - apply Z.shiftl_mul_pow2. lia.
    - lia. }
  pose proof (Z_div_mod m' (Zpos my) eq_refl) as Hdiv.
  destruct (Z.div_eucl m' (Zpos my)) as [q r].
  destruct Hdiv as [Hqr Hr].
  assert (Hpow : (0 < 2 ^ s)%Z) by (apply Z.pow_pos_nonneg; lia).
  assert (Hq : (0 <= q)%Z) by nia.
  exists q, e', (new_location (Zpos my) r),
         (inject_Z q + inject_Z r / inject_Z (Zpos my)).
  split; [reflexivity|]. split; [exact Hq|].
  split; [apply new_location_represents; lia|].
  pose proof (pow2_pos ex) as Hpex. pose proof (pow2_pos ey) as Hpey.
  pose proof (pow2_pos e') as Hpe'.
  assert (Hmy : 0 < inject_Z (Zpos my)).
  { change 0 with (inject_Z 0). rewrite <- Zlt_Qlt. lia. }
  split.
  - assert (E1 : inject_Z q + inject_Z r / inject_Z (Zpos my)
                 == inject_Z m' / inject_Z (Zpos my)).
    { rewrite Hqr, inject_Z_plus, inject_Z_mult. field. lra. }
    rewrite E1, Hm', inject_Z_mult.
    rewrite <- (pow2_Z s Hs).
    assert (E2 : pow2 ex == pow2 s * pow2 e' * pow2 ey).
    { rewrite <- !pow2_add. replace (s + e' + ey)%Z with ex by (unfold s; lia).
      reflexivity. }
    rewrite E2. field. split; lra.
  - rewrite fexp_eq.
    destruct (Z_le_gt_dec e' (-1074)) as [Hlow|Hhigh]; [lia|].
    assert (Hs53 : (53 + d2 <= d1 + s)%Z).
    { unfold s. unfold e' in *. rewrite fexp_eq in *. lia. }
    assert (H52 : (2 ^ 52 <= q)%Z).
    { pose proof (Zdigits2_bounds mx) as [Hlo1 _].
      pose proof (Zdigits2_bounds my) as [_ Hhi2].
      pose proof (Zdigits2_pos mx) as Hd1. pose proof (Zdigits2_pos my) as Hd2.
      fold d1 in Hlo1, Hd1. fold d2 in Hhi2, Hd2.
      assert (Ha : (2 ^ (52 + d2) <= 2 ^ (d1 - 1 + s))%Z)
        by (apply Z.pow_le_mono_r; lia).
      rewrite Z.pow_add_r in Ha by lia.
      rewrite (Z.pow_add_r 2 (d1 - 1) s) in Ha by lia.
      assert (Hb : (2 ^ (d1 - 1) * 2 ^ s <= m')%Z).
      { rewrite Hm'. apply Z.mul_le_mono_nonneg_r; lia. }
      assert (Hc : (0 < 2 ^ d2)%Z) by (apply Z.pow_pos_nonneg; lia).
      assert (Hd : (2 ^ 52 * 2 ^ d2 < 2 ^ d2 * (q + 1))%Z) by nia.
      nia. }
    pose proof (Zdigits2_ge_53 q H52). lia.
Qed.

(** The correctly rounded quotient of two positive doubles is within the
    rounding error of the exact quotient. *)
Lemma SFdiv_error (mx my : positive) (ex ey : Z) :
  let X := inject_Z (Zpos mx) * pow2 ex / (inject_Z (Zpos my) * pow2 ey) in
  X <= pow2 900 ->
  let v := SFdiv 53 1024 (S754_finite false mx ex) (S754_finite false my ey) in
  finite_nonneg v
  /\ Binary64.to_Q v <= X + round_error X
  /\ X - round_error X <= Binary64.to_Q v.
Proof.
  intros X HX v. unfold v, SFdiv.
  destruct (SFdiv_core_spec mx my ex ey) as (q & e' & l & x & -> & Hq & Hx & Hval & Hfexp).
  cbn [xorb].
  fold X in Hval.
  assert (H := binary_round_aux_finite q e' l x Hq Hx (or_introl Hfexp)).
  rewrite Hval in H. apply H. exact HX.
Qed.

(** The correctly rounded product of two positive doubles. *)
Lemma SFmul_error (mx my : positive) (ex ey : Z) :
  let X := (inject_Z (Zpos mx) * pow2 ex) * (inject_Z (Zpos my) * pow2 ey) in
  X <= pow2 900 ->
  let v := SFmul 53 1024 (S754_finite false mx ex) (S754_finite false my ey) in
  finite_nonneg v
  /\ Binary64.to_Q v <= X + round_error X
  /\ X - round_error X <= Binary64.to_Q v.
Proof.
  intros X HX v. unfold v, SFmul. cbn [xorb].
  assert (Hval : inject_Z (Zpos (mx * my)) * pow2 (ex + ey) == X).
  { unfold X. rewrite Pos2Z.inj_mul, inject_Z_mult, pow2_add. ring. }
  assert (H := binary_round_aux_finite (Zpos (mx * my)) (ex + ey) loc_Exact
                 (inject_Z (Zpos (mx * my))) ltac:(lia) (Qeq_refl _)
                 (or_intror eq_refl)).
  rewrite Hval in H. apply H. exact HX.
Qed.

Lemma of_Q_cents (k : positive) :
  Binary64.of_Q (inject_Z (Zpos k) / inject_Z 100)
  = SFdiv 53 1024 (S754_finite false (k * 1) 0) (S754_finite false (1 * 100) 0).
Proof. reflexivity. Qed.

Lemma to_Q_nonneg (v : spec_float) : finite_nonneg v -> 0 <= Binary64.to_Q v.
Proof.
  intros [[s ->]|(m & e & ->)].
  - discriminate.
  - rewrite to_Q_finite. apply Qmult_le_0_compat.
    + discriminate.
    + apply Qlt_le_weak, pow2_pos.
Qed.

Lemma pow2_m1073_small : pow2 (-1073) <= 1 # 1000000000000000000.
Proof.
  apply (Qle_trans _ (pow2 (-60))); [apply pow2_le; lia | discriminate].
Qed.

Lemma pow2_900_big : 1000000000000000000 <= pow2 900.
Proof.
  apply (Qle_trans _ (pow2 60)); [discriminate | apply pow2_le; lia].
Qed.

(** [round(x, 2)] of a double that is not negative: the nearest double to
    the nearest number of cents. *)
Lemma round_2_error (y : spec_float) :
  finite_nonneg y ->
  Binary64.to_Q y <= 100000000000000 ->
  exists R,
    finite_nonneg (Binary64.round y 2)
    /\ Binary64.to_Q y - (1 # 200) <= R /\ R <= Binary64.to_Q y + (1 # 200)
    /\ 0 <= R
    /\ Binary64.to_Q (Binary64.round y 2) <= R + round_error R
    /\ R - round_error R <= Binary64.to_Q (Binary64.round y 2).
Proof.
  intros Hy Hbig.
  pose proof (to_Q_nonneg y Hy) as Hy0.
  pose proof pow2_m1073_small as Ht. pose proof (pow2_pos (-1073)) as Ht0.
  pose proof pow2_900_big as HP.
  destruct Hy as [[s ->]|(m & e & ->)].
  - exists 0. cbn [Binary64.round].
    split; [left; eexists; reflexivity|].
    change (Binary64.to_Q (S754_zero s)) with 0.
    unfold round_error. rewrite pow2_m51. repeat split; lra.
  - cbn [Binary64.round].
    change (inject_Z (10 ^ Z.of_nat 2)) with (inject_Z 100).
    set (Y := Binary64.to_Q (S754_finite false m e)) in *.
    pose proof (round_half_even_error (Y * inject_Z 100)) as Hn.
    apply Qabs_Qle_condition in Hn.
    set (n := round_half_even (Y * inject_Z 100)) in *.
    change (inject_Z 100) with 100 in Hn.
    assert (Hn0 : (0 <= n)%Z).
    { destruct (Z_le_gt_dec 0 n) as [H|H]; [exact H|]. exfalso.
      assert (Hz : (n <= -1)%Z) by lia.
      rewrite Zle_Qle in Hz. change (inject_Z (-1)) with (-1 # 1) in Hz. lra. }
    exists (inject_Z n / 100).
    assert (HR : inject_Z n / 100 == inject_Z n * (1 # 100))
      by (unfold Qdiv; reflexivity).
    assert (Hin : 0 <= inject_Z n).
    { change 0 with (inject_Z 0). rewrite <- Zle_Qle. exact Hn0. }
    destruct n as [|k|k]; [| |lia].
    + change (Binary64.of_Q (inject_Z 0 / inject_Z 100)) with (S754_zero false).
      split; [left; eexists; reflexivity|].
      change (Binary64.to_Q (S754_zero false)) with 0.
      rewrite HR. change (inject_Z 0) with 0 in *.
      unfold round_error. rewrite pow2_m51. repeat split; lra.
    + rewrite of_Q_cents.
      assert (E : inject_Z (Zpos (k * 1)) * pow2 0
                  / (inject_Z (Zpos (1 * 100)) * pow2 0)
                  == inject_Z (Zpos k) / 100).
      { rewrite Pos.mul_1_r, Pos.mul_1_l, pow2_0.
        change (inject_Z 100) with 100. field. }
      pose proof (SFdiv_error (k * 1) (1 * 100) 0 0) as Hd.
      cbv zeta in Hd. rewrite E in Hd.
      destruct Hd as (Hf & Hhi & Hlo); [rewrite HR; lra|].
      split; [exact Hf|]. rewrite HR in *.
      repeat split; try lra.
Qed.

(** Line 175 on doubles, for a divisor between 0.79 and 1: the rounded
    quotient times the divisor is within a cent of the dividend, whether the
    product is taken exactly or rounded to a double. *)
Lemma min_sale_round_trip (total_cost : spec_float) (mc : positive) (ec : Z) :
  let c := S754_finite false mc ec in
  finite_nonneg total_cost ->
  Binary64.to_Q total_cost <= 1000000000000 ->
  79 # 100 <= Binary64.to_Q c -> Binary64.to_Q c <= 1 ->
  let sale := Binary64.round (SFdiv 53 1024 total_cost c) 2 in
  finite_nonneg sale
  /\ Qabs (Binary64.to_Q sale * Binary64.to_Q c - Binary64.to_Q total_cost)
     <= 0.01
  /\ Qabs (Binary64.to_Q (Binary64.mul sale c) - Binary64.to_Q total_cost)
     <= 0.01.
Proof.
  intros c Htc Hbig Hclo Hchi sale.
  pose proof pow2_m1073_small as Ht. pose proof (pow2_pos (-1073)) as Ht0.
  pose proof pow2_900_big as HP.
  pose proof (to_Q_nonneg total_cost Htc) as Htc0.
  set (C := Binary64.to_Q c) in *.
  set (TC := Binary64.to_Q total_cost) in *.
  (* the quotient *)
  assert (Hy : exists X,
             X * C == TC /\ 0 <= X
             /\ finite_nonneg (SFdiv 53 1024 total_cost c)
             /\ Binary64.to_Q (SFdiv 53 1024 total_cost c) <= X + round_error X
             /\ X - round_error X <= Binary64.to_Q (SFdiv 53 1024 total_cost c)).
  { destruct Htc as [[s Hz]|(m & e & Hfin)].
    - exists 0. unfold TC, c. rewrite Hz.
      change (SFdiv 53 1024 (S754_zero s) (S754_finite false mc ec))
        with (S754_zero (xorb s false)).
      change (Binary64.to_Q (S754_zero s)) with 0.
      change (Binary64.to_Q (S754_zero (xorb s false))) with 0.
      split; [ring|]. split; [lra|].
      split; [left; eexists; reflexivity|].
      unfold round_error. rewrite pow2_m51. split; lra.
    - pose proof (SFdiv_error m mc e ec) as Hd. cbv zeta in Hd.
      assert (EC : inject_Z (Zpos mc) * pow2 ec == C)
        by (unfold C, c; rewrite to_Q_finite; reflexivity).
      assert (ET : inject_Z (Zpos m) * pow2 e == TC)
        by (unfold TC; rewrite Hfin, to_Q_finite; reflexivity).
      rewrite EC, ET in Hd.
      assert (HX : TC / C * C == TC) by (field; lra).
      assert (HX0 : 0 <= TC / C).
      { apply Qle_shift_div_l; lra. }
      assert (HXhi : TC / C <= 2000000000000).
      { apply Qle_shift_div_r; lra. }
      exists (TC / C). rewrite Hfin.
      split; [exact HX|]. split; [exact HX0|]. apply Hd. lra. }
  destruct Hy as (X & HXC & HX0 & Hyf & Hyhi & Hylo).
  set (y := SFdiv 53 1024 total_cost c) in *.
  assert (HXhi : X <= 2000000000000).
  { assert (0 <= X * (C - (79 # 100))) by (apply Qmult_le_0_compat; lra).
    lra. }
  unfold round_error in Hyhi, Hylo. rewrite pow2_m51 in Hyhi, Hylo.
  destruct (round_2_error y Hyf) as (R & Hsf & HRlo & HRhi & HR0 & Hshi & Hslo);
    [lra|].
  fold sale in Hsf, Hshi, Hslo.
  unfold round_error in Hshi, Hslo. rewrite pow2_m51 in Hshi, Hslo.
  set (S := Binary64.to_Q sale) in *.
  set (Y := Binary64.to_Q y) in *.
  split; [exact Hsf|].
  (* the exact product *)
  assert (Hd : - (7 # 1000) <= S - X /\ S - X <= 7 # 1000) by lra.
  assert (Hexact : - (7 # 1000) <= S * C - TC /\ S * C - TC <= 7 # 1000).
  { assert (E : S * C - TC == (S - X) * C) by (rewrite <- HXC; ring).
    rewrite E. destruct Hd as [Hd1 Hd2].
    destruct (Qlt_le_dec (S - X) 0) as [Hneg|Hpos].
    - assert ((S - X) * C <= 0).
      { assert (0 <= (X - S) * C) by (apply Qmult_le_0_compat; lra). lra. }
      assert ((X - S) * C <= (7 # 1000) * 1).
      { apply Qmult_le_compat_nonneg; split; lra. }
      lra.
    - assert (0 <= (S - X) * C) by (apply Qmult_le_0_compat; lra).
      assert ((S - X) * C <= (7 # 1000) * 1).
      { apply Qmult_le_compat_nonneg; split; lra. }
      lra. }
  split; [apply Qabs_Qle_condition; lra|].
  (* the product rounded to a double *)
  assert (HS0 : 0 <= S) by (apply to_Q_nonneg; exact Hsf).
  assert (HSC : 0 <= S * C /\ S * C <= 2000000000001).
  { split; [apply Qmult_le_0_compat; lra|]. lra. }
  apply Qabs_Qle_condition.
  destruct Hsf as [[s Hz]|(ms & es & Hfin)].
  - rewrite Hz. unfold c.
    change (Binary64.mul (S754_zero s) (S754_finite false mc ec))
      with (S754_zero (xorb s false)).
    change (Binary64.to_Q (S754_zero (xorb s false))) with 0.
    assert (S == 0) by (unfold S; rewrite Hz; reflexivity).
    assert (S * C == 0) by (rewrite H; ring). lra.
  - rewrite Hfin. unfold Binary64.mul.
    pose proof (SFmul_error ms mc es ec) as Hm. cbv zeta in Hm.
    assert (EC : inject_Z (Zpos mc) * pow2 ec == C)
      by (unfold C, c; rewrite to_Q_finite; reflexivity).
    assert (ES : inject_Z (Zpos ms) * pow2 es == S)
      by (unfold S; rewrite Hfin, to_Q_finite; reflexivity).
    rewrite EC, ES in Hm.
    destruct Hm as (_ & Hphi & Hplo); [lra|].
    unfold round_error in Hphi, Hplo. rewrite pow2_m51 in Hphi, Hplo.
    change (Binary64.to_Q
              (SFmul Binary64.prec Binary64.emax (S754_finite false ms es) c))
      with (Binary64.to_Q
              (SFmul 53 1024 (S754_finite false ms es)
                     (S754_finite false mc ec))).
    set (P := Binary64.to_Q
                (SFmul 53 1024 (S754_finite false ms es)
                       (S754_finite false mc ec))) in *.
    lra.
Qed.

Lemma min_sale_value (total_cost m : spec_float) (mc : positive) (ec : Z) :
  Binary64.sub (Binary64.of_Q 1) m = S754_finite false mc ec ->
  Binary64.min_sale total_cost m
  = inr (Binary64.round (SFdiv 53 1024 total_cost (S754_finite false mc ec)) 2).
Proof.
  intros H. unfold Binary64.min_sale. rewrite H. reflexivity.
Qed.

(** C8, amended.  On the doubles the code computes with: for every total
    cost that is a finite double between 0 and 1e12, the table of line 175
    has the keys 10%, 15% and 20%, in this order; the value under the label
    of the margin m is round(total_cost / (1 - m), 2); and that value times
    (1 - m) is within 0.01 of the total cost, whether the product is taken
    exactly or rounded to a double. *)
Theorem min_sale_for_profit_tolerance (total_cost : spec_float) :
  finite_nonneg total_cost ->
  Binary64.to_Q total_cost <= 1000000000000 ->
  exists table,
    Binary64.min_sale_for Binary64.margins total_cost = inr table
    /\ map fst table = ["10%"; "15%"; "20%"]%string
    /\ Forall2
         (fun m entry =>
            fst entry = Binary64.margin_label (Binary64.of_Q m)
            /\ Binary64.min_sale total_cost (Binary64.of_Q m)
               = inr (snd entry)
            /\ Qabs (Binary64.to_Q (snd entry)
                     * Binary64.to_Q
                         (Binary64.sub (Binary64.of_Q 1) (Binary64.of_Q m))
                     - Binary64.to_Q total_cost) <= 0.01
            /\ Qabs (Binary64.to_Q
                       (Binary64.mul (snd entry)
                          (Binary64.sub (Binary64.of_Q 1) (Binary64.of_Q m)))
                     - Binary64.to_Q total_cost) <= 0.01)
         profit_margins table.
Proof.
  intros Htc Hbig.
  assert (H10 : Binary64.sub (Binary64.of_Q 1) (Binary64.of_Q 0.10)
                = S754_finite false 8106479329266893 (-53))
    by (vm_compute; reflexivity).
  assert (H15 : Binary64.sub (Binary64.of_Q 1) (Binary64.of_Q 0.15)
                = S754_finite false 7656119366529843 (-53))
    by (vm_compute; reflexivity).
  assert (H20 : Binary64.sub (Binary64.of_Q 1) (Binary64.of_Q 0.20)
                = S754_finite false 7205759403792794 (-53))
    by (vm_compute; reflexivity).
  unfold Binary64.margins, profit_margins.
  cbn [map Binary64.min_sale_for].
  rewrite (min_sale_value _ _ _ _ H10), (min_sale_value _ _ _ _ H15),
    (min_sale_value _ _ _ _ H20).
  cbn [bind ret].
  eexists. split; [reflexivity|]. split; [vm_compute; reflexivity|].
  destruct (min_sale_round_trip total_cost 8106479329266893 (-53) Htc Hbig)
    as (_ & Ha10 & Hb10); [vm_compute; discriminate | vm_compute; discriminate|].
  destruct (min_sale_round_trip total_cost 7656119366529843 (-53) Htc Hbig)
    as (_ & Ha15 & Hb15); [vm_compute; discriminate | vm_compute; discriminate|].
  destruct (min_sale_round_trip total_cost 7205759403792794 (-53) Htc Hbig)
    as (_ & Ha20 & Hb20); [vm_compute; discriminate | vm_compute; discriminate|].
  constructor; [|constructor; [|constructor; [|constructor]]]; cbn [fst snd].
  - rewrite H10, (min_sale_value _ _ _ _ H10).
    split; [reflexivity|]. split; [reflexivity|]. split; assumption.
  - rewrite H15, (min_sale_value _ _ _ _ H15).
    split; [reflexivity|]. split; [reflexivity|]. split; assumption.
  - rewrite H20, (min_sale_value _ _ _ _ H20).
    split; [reflexivity|]. split; [reflexivity|]. split; assumption.
Qed.

Lemma min_sale_for_profit_tolerance_witness :
  exists table,
    Binary64.min_sale_for Binary64.margins (Binary64.of_Q 251) = inr table
    /\ map fst table = ["10%"; "15%"; "20%"]%string.
Proof.
  destruct (min_sale_for_profit_tolerance (Binary64.of_Q 251))
    as (table & Ht & Hk & _).
  - right. eexists. eexists. vm_compute. reflexivity.
  - vm_compute. discriminate.
  - exists table. split; [exact Ht | exact Hk].
Defined.

(** C9, as the specification states it, fails: the formula of line 175 has no
    guard, and run on a margin of 100% it divides by zero. *)
Lemma min_sale_margin_100_unguarded :
  min_sale_for [1.0] 251 = inl ZeroDivisionError.
Proof. reflexivity. Qed.

(** C9, amended.  The min-sale computation divides by zero exactly when one
    of its margins is 100%; the engine has no guard, but its margins are the
    constants 10%, 15% and 20%, all below 100%, so the table is computed for
    every total cost and every project compiles to a report. *)
Theorem min_sale_fixed_margins_safe :
  (forall margins total_cost,
     (exists table, min_sale_for margins total_cost = inr table)
     <-> Forall (fun m => ~ m == 1) margins)
  /\ Forall (fun m => m < 1) profit_margins
  /\ (forall total_cost,
        exists table, min_sale_for profit_margins total_cost = inr table)
  /\ (forall now project, exists r, calculate_report now project = inr r).
Proof.
  split; [|split; [|split]].
  - intros margins total_cost.
    induction margins as [|m rest IH]; simpl.
    + split; [constructor | eexists; reflexivity].
    + unfold py_div.
      destruct (Qeq_bool (1 - m) 0) eqn:E; simpl.
      * apply Qeq_bool_iff in E. split.
        -- intros [table H]. discriminate.
        -- intros H. inversion H as [|? ? Hm _]; subst. exfalso. apply Hm. lra.
      * assert (Hm : ~ m == 1).
        { intros Hm. assert (H0 : 1 - m == 0) by lra.
          apply Qeq_bool_iff in H0. congruence. }
        split.
        -- intros [table H].
           destruct (min_sale_for rest total_cost) as [e|others];
             [discriminate|].
           constructor; [exact Hm|]. apply IH. eexists. reflexivity.
        -- intros H. inversion H as [|? ? _ Hrest]; subst.
           apply IH in Hrest. destruct Hrest as [others Ho].
           rewrite Ho. eexists. reflexivity.
  - unfold profit_margins. repeat constructor.
  - intros total_cost. rewrite min_sale_for_profit_margins.
    eexists. reflexivity.
  - intros now project.
    destruct (calculate_report_closed now project) as (r & Hr & _).
    exists r. exact Hr.
Qed.

Lemma min_sale_fixed_margins_safe_witness :
  exists table, min_sale_for [0.10; 0.50] 251 = inr table.
Proof.
  destruct min_sale_fixed_margins_safe as (H & _).
  apply (H [0.10; 0.50] 251).
  repeat constructor; discriminate.
Defined.

(** * Further properties of the engine *)

Lemma num_or_nonzero (x : option Q) (d : Q) : ~ d == 0 -> ~ num_or x d == 0.
Proof.
  intros Hd. unfold num_or. destruct x as [v|]; [|exact Hd].
  destruct (truthy v) eqn:E; [|exact Hd].
  apply truthy_true in E. exact E.
Qed.

(** X1. The Simples rate of a report is never 0: an absent or zero rate of
    the project is replaced by the default 5%, a non-zero one is kept, so
    the DAS charge cannot be switched off by entering 0. *)
Theorem simples_rate_never_zero (now : string) (project : Project.t) :
  exists r,
    calculate_report now project = inr r
    /\ ~ Report.simples_rate r == 0
    /\ (forall v, Project.simples_rate project = Some v -> ~ v == 0 ->
        Report.simples_rate r = v)
    /\ (forall v, Project.simples_rate project = Some v -> v == 0 ->
        Report.simples_rate r = DEFAULT_SIMPLES_RATE
        /\ Report.das_total r = Report.gross_sale r * 0.05)
    /\ (Project.simples_rate project = None ->
        Report.simples_rate r = DEFAULT_SIMPLES_RATE).
Proof.
  destruct (calculate_report_closed now project)
    as (r & Hr & _ & Hs & Hdas & _).
  exists r. split; [exact Hr|]. rewrite Hdas, Hs. split; [|split; [|split]].
  - apply num_or_nonzero. discriminate.
  - intros v Hv Hnz. rewrite Hv. simpl.
    apply truthy_true in Hnz. rewrite Hnz. reflexivity.
  - intros v Hv Hz. rewrite Hv. simpl.
    apply truthy_false in Hz. rewrite Hz. split; reflexivity.
  - intros Hn. rewrite Hn. reflexivity.
Qed.

Lemma simples_rate_never_zero_witness :
  exists r,
    calculate_report example_now
      (Project.mk "003/2024" "Prefeitura" (Some 1000) None None (Some 0) [] [])
    = inr r
    /\ Report.simples_rate r = 0.05 /\ Report.das_total r == 50.
Proof.
  destruct (simples_rate_never_zero example_now
              (Project.mk "003/2024" "Prefeitura" (Some 1000) None None
                          (Some 0) [] []))
    as (r & Hr & _ & _ & Hz & _).
  exists r. split; [exact Hr|].
  destruct (Hz 0 eq_refl) as [H1 H2]; [reflexivity|].
  split; [exact H1|]. rewrite H2.
  vm_compute in Hr. injection Hr as <-. reflexivity.
Defined.

(** X2. The rate resolver ignores ASCII case: two codes with the same
    upper-case form get the same rate. *)
Theorem state_rate_case_insensitive (s t : string) :
  upper s = upper t -> state_rate (Some s) = state_rate (Some t).
Proof.
  intros H. destruct s as [|c r], t as [|d u]; simpl in *;
    try reflexivity; try discriminate.
  change (String (upper_ascii c) (upper r)) with (upper (String c r)).
  change (String (upper_ascii d) (upper u)) with (upper (String d u)).
  simpl. rewrite H. reflexivity.
Qed.

Lemma state_rate_case_insensitive_witness :
  state_rate (Some "rj"%string) = state_rate (Some "Rj"%string).
Proof.
  apply state_rate_case_insensitive. reflexivity.
Defined.

Lemma state_rates_lookup (k : string) (v : Q) :
  DEFAULT_STATE_RATES !! k = Some v -> v = 0.18 \/ v = 0.20.
Proof.
  unfold DEFAULT_STATE_RATES. intros H.
  destruct (decide (k = "MG"%string)) as [->|Hmg].
  { rewrite lookup_insert_eq in H. left. congruence. }
  rewrite lookup_insert_ne in H by congruence.
  destruct (decide (k = "SP"%string)) as [->|Hsp].
  { rewrite lookup_insert_eq in H. left. congruence. }
  rewrite lookup_insert_ne in H by congruence.
  destruct (decide (k = "RJ"%string)) as [->|Hrj].
  { rewrite lookup_insert_eq in H. right. congruence. }
  rewrite lookup_insert_ne in H by congruence.
  rewrite lookup_empty in H. discriminate.
Qed.

Lemma state_rate_values (s : string) :
  s <> EmptyString ->
  state_rate (Some s) = 0.18 \/ state_rate (Some s) = 0.20
  \/ state_rate (Some s) = DEFAULT_INTERSTATE_RATE.
Proof.
  intros Hs. destruct s as [|c r]; [contradiction|].
  unfold state_rate.
  destruct (DEFAULT_STATE_RATES !! upper (String c r)) as [v|] eqn:E; simpl.
  - destruct (state_rates_lookup _ _ E) as [-> | ->]; auto.
  - right; right. reflexivity.
Qed.

(** X3. For every non-empty state code the resolved rate is one of 12%, 18%
    and 20%, so it is never below the interstate rate: the clamp of the
    DIFAL-OUT formula never cuts anything, and for an interstate destination
    DIFAL-OUT is (rate of the destination - interstate rate) times the sale
    value. *)
Theorem difal_out_clamp_never_binds (now : string) (project : Project.t) :
  (forall s : string, s <> EmptyString ->
     DEFAULT_INTERSTATE_RATE <= state_rate (Some s) <= 0.20)
  /\ exists r,
       calculate_report now project = inr r
       /\ forall item, In item (Report.products r) ->
          Item.sale_state item <> EmptyString ->
          Item.sale_state item <> COMPANY_STATE ->
          exists difal_out,
            Item.difal_out item = Some difal_out
            /\ py_max 0.0 (state_rate (Some (Item.sale_state item))
                           - DEFAULT_INTERSTATE_RATE)
               == state_rate (Some (Item.sale_state item))
                  - DEFAULT_INTERSTATE_RATE
            /\ difal_out
               == (state_rate (Some (Item.sale_state item))
                   - DEFAULT_INTERSTATE_RATE) * item_sale_value item.
Proof.
  assert (Hrange : forall s : string, s <> EmptyString ->
            DEFAULT_INTERSTATE_RATE <= state_rate (Some s) <= 0.20).
  { intros s Hs. unfold DEFAULT_INTERSTATE_RATE.
    destruct (state_rate_values s Hs) as [-> | [-> | ->]];
      unfold DEFAULT_INTERSTATE_RATE; split; lra. }
  split; [exact Hrange|].
  destruct (calculate_report_closed now project)
    as (r & Hr & _ & _ & _ & Hps & _).
  exists r. split; [exact Hr|].
  intros item Hin Hne Hhome. rewrite Hps in Hin.
  apply report_products_inv in Hin. destruct Hin as [p [Hp ->]].
  exists (item_difal_out DEFAULT_INTERSTATE_RATE (product_subtotal project p)).
  split; [reflexivity|].
  change (Item.sale_state (report_item project p))
    with (Item.sale_state (product_subtotal project p)) in *.
  change (item_sale_value (report_item project p))
    with (item_sale_value (product_subtotal project p)).
  assert (Hmax : py_max 0.0
                   (state_rate (Some (Item.sale_state (product_subtotal project p)))
                    - DEFAULT_INTERSTATE_RATE)
                 == state_rate (Some (Item.sale_state (product_subtotal project p)))
                    - DEFAULT_INTERSTATE_RATE).
  { destruct (state_rate_values _ Hne) as [-> | [-> | ->]]; reflexivity. }
  split; [exact Hmax|].
  unfold item_difal_out. rewrite (interstate_true _ Hne Hhome).
  fold (item_sale_value (product_subtotal project p)).
  apply Qmult_comp; [exact Hmax | reflexivity].
Qed.

Lemma difal_out_clamp_never_binds_witness :
  exists r,
    calculate_report example_now example_project = inr r
    /\ exists item difal_out,
         In item (Report.products r)
         /\ Item.difal_out item = Some difal_out
         /\ difal_out == (0.20 - 0.12) * 300.
Proof.
  destruct (difal_out_clamp_never_binds example_now example_project)
    as (_ & r & Hr & H).
  exists r. split; [exact Hr|].
  vm_compute in Hr. injection Hr as <-.
  match goal with
  | H : forall item, In item (Report.products ?R) -> _ |- _ =>
      destruct (H (hd (report_item example_project example_product)
                      (Report.products R)))
        as (d & Hd & _ & Heq)
  end.
  - left. reflexivity.
  - discriminate.
  - discriminate.
  - eexists. exists d. split; [left; reflexivity|]. split; [exact Hd|].
    rewrite Heq. reflexivity.
Defined.

Lemma fold_Qplus_map_nonneg {A : Type} (f : A -> Q) (xs : list A) :
  (forall x, In x xs -> 0 <= f x) ->
  forall a, 0 <= a -> 0 <= fold_left Qplus (map f xs) a.
Proof.
  induction xs as [|x xs IH]; intros H a Ha; simpl.
  - exact Ha.
  - pose proof (H x (or_introl eq_refl)) as H0.
    apply IH.
    + intros y Hy. apply H. right. exact Hy.
    + lra.
Qed.

(** X4. For a project whose products satisfy the data model (no negative
    cost or price, quantity at least 1), the purchase total and the two
    DIFAL totals of the report are not negative. *)
Theorem difal_totals_bounds (now : string) (project : Project.t) :
  Forall product_valid (Project.products project) ->
  exists r,
    calculate_report now project = inr r
    /\ 0 <= Report.total_purchase r
    /\ 0 <= Report.total_difal_in r
    /\ 0 <= Report.total_difal_out r.
Proof.
  intros Hval. rewrite List.Forall_forall in Hval.
  destruct (calculate_report_closed now project)
    as (r & Hr & _ & _ & _ & _ & Htp & Hout & Hin & _).
  exists r. split; [exact Hr|].
  rewrite !map_map in Hin. rewrite map_map in Hout.
  split; [|split].
  - rewrite Htp. apply fold_Qplus_map_nonneg; [|lra].
    intros p Hp. apply (product_valid_totals project p (Hval p Hp)).
  - rewrite Hin. apply fold_Qplus_map_nonneg; [|lra].
    intros p Hp.
    destruct (product_valid_totals project p (Hval p Hp)) as [Hpt _].
    change (item_difal_in (state_rate (Some COMPANY_STATE))
              DEFAULT_INTERSTATE_RATE
              (Item.set_difal_out (product_subtotal project p)
                 (item_difal_out DEFAULT_INTERSTATE_RATE
                    (product_subtotal project p))))
      with (item_difal_in (state_rate (Some COMPANY_STATE))
              DEFAULT_INTERSTATE_RATE (product_subtotal project p)).
    unfold item_difal_in.
    destruct (str_truthy _ && negb _); [|lra].
    apply Qmult_le_0_compat; [apply py_max_nonneg | exact Hpt].
  - rewrite Hout. apply fold_Qplus_map_nonneg; [|lra].
    intros p Hp.
    pose proof (sale_value_nonneg project p (Hval p Hp)) as Hsv.
    unfold item_difal_out.
    destruct (str_truthy _ && negb _); [|lra].
    apply Qmult_le_0_compat; [apply py_max_nonneg | exact Hsv].
Qed.

Lemma difal_totals_bounds_witness :
  exists r,
    calculate_report example_now example_project = inr r
    /\ 0 <= Report.total_difal_in r
    /\ 0 <= Report.total_difal_out r.
Proof.
  destruct (difal_totals_bounds example_now example_project)
    as (r & Hr & _ & Hin & Hout).
  - apply List.Forall_cons; [|apply List.Forall_nil].
    split; [vm_compute; discriminate|].
    split; [vm_compute; discriminate | vm_compute; discriminate].
  - exists r. split; [exact Hr|]. split; [exact Hin | exact Hout].
Defined.

(** X5. The entries of a report mirror the products of the project, one per
    product and in the same order, with the same id and description; the
    quantity of an entry is the stored quantity when that is present and
    not 0 (negative quantities included) and 1 otherwise, so it is never 0;
    and both state codes of an entry are in upper case. *)
Theorem report_entries_mirror_products (now : string) (project : Project.t) :
  exists r,
    calculate_report now project = inr r
    /\ Forall2
         (fun (p : Product.t) (item : Item.t) =>
            Item.id item = Product.id p
            /\ Item.description item = Product.description p
            /\ Item.qty item <> 0%Z
            /\ (forall q, Product.qty p = Some q -> q <> 0%Z ->
                Item.qty item = q)
            /\ (Product.qty p = None \/ Product.qty p = Some 0%Z ->
                Item.qty item = 1%Z)
            /\ upper (Item.purchase_state item) = Item.purchase_state item
            /\ upper (Item.sale_state item) = Item.sale_state item)
         (Project.products project) (Report.products r).
Proof.
  destruct (calculate_report_closed now project)
    as (r & Hr & _ & _ & _ & Hps & _).
  exists r. split; [exact Hr|]. rewrite Hps. clear Hps Hr.
  induction (Project.products project) as [|p ps IH]; simpl;
    [constructor | constructor; [|exact IH]].
  split; [reflexivity|]. split; [reflexivity|].
  change (Item.qty (report_item project p)) with (int_or (Product.qty p) 1).
  split; [|split; [|split; [|split]]].
  - destruct (Product.qty p) as [q|]; simpl; [|lia].
    destruct (q =? 0)%Z eqn:E; [lia|]. apply Z.eqb_neq in E. exact E.
  - intros q Hq Hnz. rewrite Hq. simpl.
    apply Z.eqb_neq in Hnz. rewrite Hnz. reflexivity.
  - intros [Hq|Hq]; rewrite Hq; reflexivity.
  - apply upper_idem.
  - apply upper_idem.
Qed.

Lemma report_entries_mirror_products_witness :
  exists r,
    calculate_report example_now example_project = inr r
    /\ map Item.qty (Report.products r) = [2%Z].
Proof.
  destruct (report_entries_mirror_products example_now example_project)
    as (r & Hr & H).
  exists r. split; [exact Hr|].
  inversion H as [|p item ps items Hp Hrest Hps Hitems].
  inversion Hrest. subst. simpl.
  destruct Hp as (_ & _ & _ & Hq & _).
  rewrite (Hq 2%Z); [reflexivity | reflexivity | discriminate].
Defined.

Lemma str_or_empty_str_or (a b : option string) :
  (forall s, a = Some s -> s <> EmptyString -> str_or_empty (str_or a b) = s)
  /\ (a = None \/ a = Some EmptyString ->
      str_or_empty (str_or a b) = str_or_empty b).
Proof.
  split.
  - intros s -> Hs. destruct s as [|c r]; [contradiction|]. reflexivity.
  - intros [-> | ->]; reflexivity.
Qed.

(** X6. A state code entered on the product wins over the default of the
    project; a product without a code takes the default of the project; and
    when neither has a destination the entry has the empty destination and
    its DIFAL-OUT is 0.  The resolved codes are the upper-case forms. *)
Theorem resolved_states_fallback (now : string) (project : Project.t) :
  exists r,
    calculate_report now project = inr r
    /\ Forall2
         (fun (p : Product.t) (item : Item.t) =>
            (forall s, Product.sale_state p = Some s -> s <> EmptyString ->
             Item.sale_state item = upper s)
            /\ (Product.sale_state p = None
                \/ Product.sale_state p = Some EmptyString ->
                Item.sale_state item
                = upper (str_or_empty (Project.sale_state project)))
            /\ (forall s, Product.purchase_state p = Some s ->
                s <> EmptyString -> Item.purchase_state item = upper s)
            /\ (Product.purchase_state p = None
                \/ Product.purchase_state p = Some EmptyString ->
                Item.purchase_state item
                = upper (str_or_empty (Project.purchase_state project)))
            /\ (Product.sale_state p = None
                \/ Product.sale_state p = Some EmptyString ->
                Project.sale_state project = None
                \/ Project.sale_state project = Some EmptyString ->
                Item.sale_state item = EmptyString
                /\ exists d, Item.difal_out item = Some d /\ d == 0))
         (Project.products project) (Report.products r).
Proof.
  destruct (calculate_report_closed now project)
    as (r & Hr & _ & _ & _ & Hps & _).
  exists r. split; [exact Hr|]. rewrite Hps. clear Hps Hr.
  induction (Project.products project) as [|p ps IH]; simpl;
    [constructor | constructor; [|exact IH]].
  change (Item.sale_state (report_item project p))
    with (upper (str_or_empty (str_or (Product.sale_state p)
                                      (Project.sale_state project)))).
  change (Item.purchase_state (report_item project p))
    with (upper (str_or_empty (str_or (Product.purchase_state p)
                                      (Project.purchase_state project)))).
  destruct (str_or_empty_str_or (Product.sale_state p)
              (Project.sale_state project)) as [Hs1 Hs2].
  destruct (str_or_empty_str_or (Product.purchase_state p)
              (Project.purchase_state project)) as [Hp1 Hp2].
  split; [|split; [|split; [|split]]].
  - intros s Hs Hne. rewrite (Hs1 s Hs Hne). reflexivity.
  - intros H. rewrite (Hs2 H). reflexivity.
  - intros s Hs Hne. rewrite (Hp1 s Hs Hne). reflexivity.
  - intros H. rewrite (Hp2 H). reflexivity.
  - intros H Hproj.
    assert (Hempty : upper (str_or_empty (str_or (Product.sale_state p)
                                            (Project.sale_state project)))
                     = EmptyString).
    { rewrite (Hs2 H). destruct Hproj as [-> | ->]; reflexivity. }
    split; [exact Hempty|].
    exists (item_difal_out DEFAULT_INTERSTATE_RATE (product_subtotal project p)).
    split; [reflexivity|].
    unfold item_difal_out.
    change (Item.sale_state (product_subtotal project p))
      with (upper (str_or_empty (str_or (Product.sale_state p)
                                        (Project.sale_state project)))).
    rewrite Hempty. reflexivity.
Qed.

Lemma resolved_states_fallback_witness :
  exists r,
    calculate_report example_now example_unknown_destination = inr r
    /\ map Item.sale_state (Report.products r) = ["BA"%string].
Proof.
  destruct (resolved_states_fallback example_now example_unknown_destination)
    as (r & Hr & H).
  exists r. split; [exact Hr|].
  inversion H as [|p item ps items Hp Hrest Hps Hitems].
  inversion Hrest. subst. simpl.
  destruct Hp as (_ & Hdef & _).
  rewrite Hdef; [reflexivity | left; reflexivity].
Defined.

Lemma py_sum_app (xs ys : list Q) : py_sum (xs ++ ys) == py_sum xs + py_sum ys.
Proof.
  unfold py_sum. rewrite fold_left_app, fold_Qplus_shift. reflexivity.
Qed.

Lemma fold_from_zero (xs : list Q) : fold_left Qplus xs 0.0 == py_sum xs.
Proof. apply fold_Qplus_comp. reflexivity. Qed.

(** X7. The entry of a product does not depend on the other products, and
    the running totals of the loops carry on: for two lists of products
    under the same project header, the entries of the report of their
    concatenation are the entries of the two reports one after the other,
    and the purchase total and both DIFAL totals are the totals of the first
    report with the figures of the entries of the second added one by one,
    in their order. *)
Theorem totals_additive_over_products (now : string) (project : Project.t)
    (ps1 ps2 : list Product.t) :
  exists r r1 r2,
    calculate_report now (Project.set_products project (ps1 ++ ps2)) = inr r
    /\ calculate_report now (Project.set_products project ps1) = inr r1
    /\ calculate_report now (Project.set_products project ps2) = inr r2
    /\ Report.products r = Report.products r1 ++ Report.products r2
    /\ Report.total_purchase r
       = fold_left Qplus (map Item.purchase_total (Report.products r2))
                   (Report.total_purchase r1)
    /\ Report.total_difal_out r
       = fold_left Qplus
           (map (fun item => default 0.0 (Item.difal_out item))
                (Report.products r2))
           (Report.total_difal_out r1)
    /\ Report.total_difal_in r
       = fold_left Qplus
           (map (fun item => default 0.0 (Item.difal_in item))
                (Report.products r2))
           (Report.total_difal_in r1).
Proof.
  destruct (calculate_report_closed now
              (Project.set_products project (ps1 ++ ps2)))
    as (r & Hr & _ & _ & _ & Hps & Htp & Hout & Hin & _).
  destruct (calculate_report_closed now (Project.set_products project ps1))
    as (r1 & Hr1 & _ & _ & _ & Hps1 & Htp1 & Hout1 & Hin1 & _).
  destruct (calculate_report_closed now (Project.set_products project ps2))
    as (r2 & Hr2 & _ & _ & _ & Hps2 & Htp2 & Hout2 & Hin2 & _).
  exists r, r1, r2.
  split; [exact Hr|]. split; [exact Hr1|]. split; [exact Hr2|].
  cbn [Project.set_products Project.products] in *.
  split; [|split; [|split]].
  - rewrite Hps, Hps1, Hps2. apply map_app.
  - rewrite Htp, Htp1, Hps2, map_app, fold_left_app, map_map. reflexivity.
  - rewrite Hout, Hout1, Hps2, !map_app, fold_left_app, !map_map. reflexivity.
  - rewrite Hin, Hin1, Hps2, !map_app, fold_left_app, !map_map. reflexivity.
Qed.

(** *** Rounding respects the equality of rationals *)

Lemma Qlt_bool_comp (a b c d : Q) :
  a == c -> b == d -> Qlt_bool a b = Qlt_bool c d.
Proof.
  intros Hac Hbd.
  destruct (Qlt_bool a b) eqn:E1, (Qlt_bool c d) eqn:E2; try reflexivity.
  - apply Qlt_bool_true in E1. apply Qlt_bool_false in E2.
    rewrite Hac, Hbd in E1. exfalso. apply (Qlt_not_le _ _ E1 E2).
  - apply Qlt_bool_false in E1. apply Qlt_bool_true in E2.
    rewrite Hac, Hbd in E1. exfalso. apply (Qlt_not_le _ _ E2 E1).
Qed.

Lemma round_half_even_comp (x y : Q) :
  x == y -> round_half_even x = round_half_even y.
Proof.
  intros H. unfold round_half_even.
  rewrite (Qfloor_comp _ _ H).
  rewrite (Qlt_bool_comp (x - inject_Z (Qfloor y)) (1 # 2)
                         (y - inject_Z (Qfloor y)) (1 # 2));
    [|rewrite H; reflexivity | reflexivity].
  rewrite (Qlt_bool_comp (1 # 2) (x - inject_Z (Qfloor y))
                         (1 # 2) (y - inject_Z (Qfloor y)));
    [|reflexivity | rewrite H; reflexivity].
  reflexivity.
Qed.

Lemma empty_project_figures (now : string) (project : Project.t) :
  Project.products project = [] ->
  Project.other_costs project = [] ->
  exists r,
    calculate_report now project = inr r
    /\ Report.products r = []
    /\ Report.gross_sale r == default 0 (Project.gross_sale project)
    /\ Report.total_purchase r == 0
    /\ Report.total_difal_in r == 0
    /\ Report.total_difal_out r == 0
    /\ Report.total_other r == 0
    /\ Report.total_cost r == Report.gross_sale r * Report.simples_rate r
    /\ (default 0 (Project.gross_sale project) == 0 ->
        Report.total_cost r == 0
        /\ Report.net_value r == 0
        /\ Report.net_percent r == 0
        /\ Forall (fun entry => snd entry == 0) (Report.min_sale_for_profit r)).
Proof.
  intros Hps Hoc.
  destruct (calculate_report_closed now project)
    as (r & Hr & Hg & Hs & Hdas & Hitems & Htp & Hout & Hin & Hoth & Htc
        & Hnv & Hnp & Hms).
  exists r. split; [exact Hr|].
  rewrite Hps in *. rewrite Hoc in *. simpl in Hitems, Htp, Hout, Hin, Hoth.
  assert (Hgross : Report.gross_sale r == default 0 (Project.gross_sale project)).
  { rewrite Hg. unfold resolve_gross, total_sale_from_products.
    rewrite Hps. simpl.
    destruct (Project.gross_sale project) as [g|]; simpl.
    - apply num_or_Some. reflexivity.
    - reflexivity. }
  assert (Hcost : Report.total_cost r
                  == Report.gross_sale r * Report.simples_rate r).
  { rewrite Htc, Htp, Hin, Hout, Hoth, Hdas. unfold py_sum. simpl. lra. }
  split; [exact Hitems|]. split; [exact Hgross|].
  split; [rewrite Htp; reflexivity|].
  split; [rewrite Hin; reflexivity|].
  split; [rewrite Hout; reflexivity|].
  split; [rewrite Hoth; reflexivity|].
  split; [exact Hcost|].
  intros Hzero.
  assert (Hg0 : Report.gross_sale r == 0) by (rewrite Hgross; exact Hzero).
  assert (Hc0 : Report.total_cost r == 0) by (rewrite Hcost, Hg0; lra).
  split; [exact Hc0|]. split; [rewrite Hnv, Hg0, Hc0; reflexivity|]. split.
  - rewrite Hnp. apply truthy_false in Hg0. rewrite Hg0. reflexivity.
  - rewrite min_sale_for_profit_margins in Hms. injection Hms as <-.
    assert (Hv : forall m, py_round (Report.total_cost r / (1 - m)) 2 == 0).
    { intros m. unfold py_round.
      rewrite (round_half_even_comp _ 0); [reflexivity|].
      rewrite Hc0. unfold Qdiv. lra. }
    repeat constructor; simpl; apply Hv.
Qed.

(** X9. A project without products and without other costs has no cost but
    the DAS charge: every total is 0 and the total cost is the gross sale
    times the Simples rate.  When, further, its manual gross sale is absent
    or 0, every figure of the report is 0, the net percentage and the three
    minimum sales included. *)
Theorem empty_project_report (now : string) (project : Project.t) :
  Project.products project = [] ->
  Project.other_costs project = [] ->
  exists r,
    calculate_report now project = inr r
    /\ Report.products r = []
    /\ Report.gross_sale r == default 0 (Project.gross_sale project)
    /\ Report.total_purchase r == 0
    /\ Report.total_difal_in r == 0
    /\ Report.total_difal_out r == 0
    /\ Report.total_other r == 0
    /\ Report.total_cost r == Report.gross_sale r * Report.simples_rate r
    /\ (default 0 (Project.gross_sale project) == 0 ->
        Report.total_cost r == 0
        /\ Report.net_value r == 0
        /\ Report.net_percent r == 0
        /\ Forall (fun entry => snd entry == 0) (Report.min_sale_for_profit r)).
Proof. apply empty_project_figures. Qed.

Lemma empty_project_report_witness :
  exists r,
    calculate_report example_now
      (Project.mk "004/2024" "Prefeitura" (Some 0.0) (Some "") (Some "")
                  (Some 0.05) [] []) = inr r
    /\ Report.total_cost r == 0 /\ Report.net_percent r == 0.
Proof.
  destruct (empty_project_report example_now
              (Project.mk "004/2024" "Prefeitura" (Some 0.0) (Some "")
                          (Some "") (Some 0.05) [] []))
    as (r & Hr & _ & _ & _ & _ & _ & _ & _ & H); try reflexivity.
  exists r. split; [exact Hr|].
  destruct H as (H1 & _ & H2 & _); [reflexivity|].
  split; assumption.
Defined.

(** * The database readers *)

Lemma find_project_none (db : Db.t) (project_id : Z) :
  List.find (fun p => (ProjectRow.id p =? project_id)%Z) (Db.projects db) = None
  <-> ~ In project_id (map ProjectRow.id (Db.projects db)).
Proof.
  induction (Db.projects db) as [|p ps IH]; simpl.
  - split; [intros _ [] | reflexivity].
  - destruct (ProjectRow.id p =? project_id)%Z eqn:E.
    + apply Z.eqb_eq in E. split; [discriminate|]. intros H. exfalso. auto.
    + apply Z.eqb_neq in E. rewrite IH. split.
      * intros H [H1|H1]; auto.
      * intros H H1. auto.
Qed.

(** X10. The report dialog finds no project exactly when no row of
    [projects] has the requested id; for every id that exists it obtains a
    report, whatever the rows hold (NULLs included): loading and
    calculating never raise. *)
Theorem report_dialog_outcome (db : Db.t) (now : string) (project_id : Z) :
  (report_dialog db now project_id = None
   <-> ~ In project_id (map ProjectRow.id (Db.projects db)))
  /\ (In project_id (map ProjectRow.id (Db.projects db)) ->
      exists r, report_dialog db now project_id = Some (inr r)).
Proof.
  unfold report_dialog, load_project.
  pose proof (find_project_none db project_id) as Hnone.
  destruct (List.find _ (Db.projects db)) as [p|] eqn:E.
  - split.
    + split; [discriminate|]. intros H. apply Hnone in H. discriminate.
    + intros _.
      match goal with
      | |- exists r, Some (calculate_report now ?P) = _ =>
          destruct (calculate_report_closed now P) as (r & Hr & _)
      end.
      exists r. rewrite Hr. reflexivity.
  - split.
    + split; [intros _; apply Hnone; reflexivity | reflexivity].
    + intros H. exfalso. apply Hnone; [reflexivity | exact H].
Qed.

Lemma report_dialog_outcome_witness :
  (exists r, report_dialog example_db example_now 1 = Some (inr r))
  /\ report_dialog example_db example_now 7 = None.
Proof.
  destruct (report_dialog_outcome example_db example_now 1) as [_ H1].
  destruct (report_dialog_outcome example_db example_now 7) as [[_ H7] _].
  split.
  - apply H1. simpl. auto.
  - apply H7. simpl. intros [H|[H|[]]]; discriminate.
Defined.

Lemma num_or_twice (x : option Q) :
  num_or (Some (num_or x 0.0)) 0.0 == default 0 x.
Proof.
  destruct x as [v|]; simpl; [|reflexivity].
  destruct (truthy v) eqn:E; simpl.
  - rewrite E. reflexivity.
  - apply truthy_false in E. rewrite E. reflexivity.
Qed.

Lemma int_or_twice (n : option Z) : int_or (Some (int_or n 1)) 1 = int_or n 1.
Proof.
  destruct n as [v|]; simpl; [|reflexivity].
  destruct (v =? 0)%Z eqn:E; simpl; [reflexivity|]. rewrite E. reflexivity.
Qed.

Lemma str_or_loaded (a b : option string) :
  str_or_empty (str_or (Some (str_or_empty a)) (Some (str_or_empty b)))
  = str_or_empty (str_or a b).
Proof.
  destruct a as [[|c r]|], b as [[|d u]|]; reflexivity.
Qed.

Lemma calculate_report_header (now : string) (project : Project.t)
    (r : Report.t) :
  calculate_report now project = inr r ->
  Report.project_number r = Project.project_number project
  /\ Report.client_name r = Project.client_name project
  /\ Report.created_at r = now
  /\ Report.company_state r = COMPANY_STATE
  /\ Report.other_costs r = Project.other_costs project.
Proof.
  unfold calculate_report.
  rewrite subtotal_loop. cbv zeta. cbn [app].
  rewrite difal_out_loop. cbn [app].
  rewrite difal_in_loop. cbn [app].
  rewrite net_percent_total. cbn [bind].
  rewrite min_sale_for_profit_margins. cbn [bind].
  intros H. injection H as <-. repeat split.
Qed.

(** X11. From the rows to the report: when the project row exists, the
    report has one entry per product row of the project, in table order,
    and no entry for the rows of other projects.  A NULL cost or price
    counts as 0 and a NULL or zero quantity as 1; the state of an entry is
    the upper-case form of the code of the product row, or, when that is
    NULL or empty, of the default of the project row.  The Simples rate is
    the one of the project row, or 5% when that is NULL or 0. *)
Theorem report_entries_from_rows (db : Db.t) (now : string) (project_id : Z)
    (prow : ProjectRow.t) :
  List.find (fun p => (ProjectRow.id p =? project_id)%Z) (Db.projects db)
  = Some prow ->
  exists r,
    report_dialog db now project_id = Some (inr r)
    /\ Report.project_number r = ProjectRow.project_number prow
    /\ Report.simples_rate r
       = num_or (ProjectRow.simples_rate prow) DEFAULT_SIMPLES_RATE
    /\ Forall2
         (fun (row : ProductRow.t) (item : Item.t) =>
            Item.id item = ProductRow.id row
            /\ Item.description item = ProductRow.description row
            /\ Item.qty item = int_or (ProductRow.qty row) 1
            /\ Item.purchase_total item
               == default 0 (ProductRow.purchase_cost row)
                  * inject_Z (Item.qty item)
            /\ Item.sale_total item
               == default 0 (ProductRow.sale_price row)
                  * inject_Z (Item.qty item)
            /\ Item.purchase_state item
               = upper (str_or_empty (str_or (ProductRow.purchase_state row)
                                             (ProjectRow.purchase_state prow)))
            /\ Item.sale_state item
               = upper (str_or_empty (str_or (ProductRow.sale_state row)
                                             (ProjectRow.sale_state prow))))
         (List.filter (fun row => refers_to project_id (ProductRow.project_id row))
                      (Db.products db))
         (Report.products r).
Proof.
  intros Hfind. unfold report_dialog, load_project. rewrite Hfind.
  match goal with
  | |- exists r, Some (calculate_report now ?P) = _ /\ _ =>
      destruct (calculate_report_closed now P)
        as (r & Hr & _ & Hs & _ & Hps & _);
      destruct (calculate_report_header now P r Hr) as (Hpn & _);
      exists r; rewrite Hr; split; [reflexivity|];
      cbn [Project.products Project.simples_rate Project.project_number]
        in Hps, Hs, Hpn
  end.
  split; [exact Hpn|]. split.
  { rewrite Hs. destruct (ProjectRow.simples_rate prow) as [v|]; simpl;
      [|reflexivity].
    destruct (truthy v) eqn:E; simpl; [rewrite E; reflexivity | reflexivity]. }
  rewrite Hps. clear Hps Hr Hs Hpn.
  induction (List.filter _ (Db.products db)) as [|row rows IH]; simpl;
    [constructor | constructor; [|exact IH]].
  unfold report_item, product_subtotal, load_product. entry_fields.
  split; [reflexivity|]. split; [reflexivity|].
  split; [apply int_or_twice|].
  split; [|split; [|split]].
  - rewrite int_or_twice. apply Qmult_comp; [|reflexivity].
    apply num_or_twice.
  - rewrite int_or_twice. apply Qmult_comp; [|reflexivity].
    apply num_or_twice.
  - rewrite str_or_loaded. reflexivity.
  - rewrite str_or_loaded. reflexivity.
Qed.

Lemma report_entries_from_rows_witness :
  exists r,
    report_dialog example_db example_now 1 = Some (inr r)
    /\ map Item.id (Report.products r) = [1%Z; 3%Z]
    /\ map Item.qty (Report.products r) = [2%Z; 1%Z]
    /\ map Item.sale_state (Report.products r) = ["RJ"%string; "RJ"%string].
Proof.
  destruct (report_entries_from_rows example_db example_now 1
              (ProjectRow.mk 1 "001/2024" "Prefeitura" (Some 0) None
                             (Some "RJ") (Some 0.05) None) eq_refl)
    as (r & Hr & _ & _ & H).
  exists r. split; [exact Hr|].
  simpl in H.
  inversion H as [|row1 item1 rows1 items1 H1 Hrest1 E1 E2]. subst.
  inversion Hrest1 as [|row2 item2 rows2 items2 H2 Hrest2 E3 E4]. subst.
  inversion Hrest2. subst.
  destruct H1 as (Hid1 & _ & Hq1 & _ & _ & _ & Hs1).
  destruct H2 as (Hid2 & _ & Hq2 & _ & _ & _ & Hs2).
  simpl. rewrite Hid1, Hid2, Hq1, Hq2, Hs1, Hs2. repeat split.
Defined.

(** * The editing dialogs *)

(** *** Stripping *)

Lemma utf8_chars_nonempty (s : string) :
  Forall (fun ch => ch <> EmptyString) (utf8_chars s).
Proof.
  remember (String.length s) as n eqn:Hn.
  revert s Hn. induction n as [n IH] using lt_wf_ind. intros s Hn.
  assert (Hrec : forall u, (String.length u < n)%nat ->
                   Forall (fun ch => ch <> EmptyString) (utf8_chars u)).
  { intros u Hu. exact (IH _ Hu u eq_refl). }
  destruct s as [|a r]; [constructor|].
  cbn [utf8_chars]. cbv zeta. simpl in Hn.
  destruct (N.ltb (N_of_ascii a) 192).
  { constructor; [discriminate | apply Hrec; lia]. }
  destruct r as [|b r1]; [repeat constructor; discriminate|]. simpl in Hn.
  destruct (N.ltb (N_of_ascii a) 224).
  { constructor; [discriminate | apply Hrec; lia]. }
  destruct r1 as [|c r2]; [repeat constructor; discriminate|]. simpl in Hn.
  destruct (N.ltb (N_of_ascii a) 240).
  { constructor; [discriminate | apply Hrec; lia]. }
  destruct r2 as [|d r3]; [repeat constructor; discriminate|]. simpl in Hn.
  constructor; [discriminate | apply Hrec; lia].
Qed.

Lemma lstrip_chars_nonempty (cs : list string) :
  Forall (fun ch => ch <> EmptyString) cs ->
  Forall (fun ch => ch <> EmptyString) (lstrip_chars cs).
Proof.
  induction 1 as [|c r Hc Hr IH]; simpl; [constructor|].
  destruct (is_space_char c); [exact IH | constructor; assumption].
Qed.

Lemma rstrip_chars_nonempty (cs : list string) :
  Forall (fun ch => ch <> EmptyString) cs ->
  Forall (fun ch => ch <> EmptyString) (rstrip_chars cs).
Proof.
  induction 1 as [|c r Hc Hr IH]; simpl; [constructor|].
  destruct (rstrip_chars r) as [|d u].
  - destruct (is_space_char c); repeat constructor; assumption.
  - constructor; assumption.
Qed.

Lemma join_empty (cs : list string) :
  Forall (fun ch => ch <> EmptyString) cs ->
  join cs = EmptyString <-> cs = [].
Proof.
  intros H. destruct H as [|c r Hc Hr]; simpl.
  - split; reflexivity.
  - split; [|discriminate]. destruct c as [|a c']; [contradiction|].
    simpl. discriminate.
Qed.

Lemma rstrip_chars_empty (cs : list string) :
  rstrip_chars cs = [] <-> forallb is_space_char cs = true.
Proof.
  induction cs as [|c r IH]; simpl.
  - split; reflexivity.
  - destruct (rstrip_chars r) as [|d u] eqn:E.
    + destruct (is_space_char c); simpl.
      * split; [intros _; apply IH; reflexivity | reflexivity].
      * split; discriminate.
    + split; [discriminate|]. intros H.
      apply andb_true_iff in H. destruct H as [_ H].
      apply IH in H. discriminate.
Qed.

Lemma lstrip_chars_all_space (cs : list string) :
  forallb is_space_char (lstrip_chars cs) = forallb is_space_char cs.
Proof.
  induction cs as [|c r IH]; simpl; [reflexivity|].
  destruct (is_space_char c) eqn:E; simpl; [exact IH | rewrite E; reflexivity].
Qed.

Lemma strip_empty (s : string) : strip s = EmptyString <-> all_space s = true.
Proof.
  unfold strip, all_space.
  rewrite join_empty
    by apply rstrip_chars_nonempty, lstrip_chars_nonempty, utf8_chars_nonempty.
  rewrite rstrip_chars_empty, lstrip_chars_all_space. reflexivity.
Qed.

(** The no-break space U+00A0 is white space as the blank is. *)
Example strip_unicode :
  strip (String (ascii_of_N 194) (String (ascii_of_N 160) " 001/2024 "))
  = "001/2024"%string
  /\ all_space (String (ascii_of_N 194) (String (ascii_of_N 160) " ")) = true.
Proof. split; reflexivity. Qed.

Lemma is_empty_true (s : string) : is_empty s = true <-> s = EmptyString.
Proof. destruct s; simpl; split; congruence. Qed.

Lemma is_empty_false (s : string) : is_empty s = false <-> s <> EmptyString.
Proof. destruct s; simpl; split; congruence. Qed.

Lemma is_empty_strip (s : string) : is_empty (strip s) = all_space s.
Proof.
  destruct (all_space s) eqn:E.
  - apply is_empty_true, strip_empty, E.
  - apply is_empty_false. intros H. apply strip_empty in H. congruence.
Qed.

Lemma upper_is_empty (s : string) : is_empty (upper s) = is_empty s.
Proof. destruct s; reflexivity. Qed.

Lemma state_field_value (text : string) :
  str_or_empty (state_field text) = upper (strip text).
Proof.
  unfold state_field. destruct (upper (strip text)) as [|c r]; reflexivity.
Qed.

Lemma state_field_none (text : string) :
  state_field text = None <-> all_space text = true.
Proof.
  unfold state_field. rewrite <- is_empty_strip, <- (upper_is_empty (strip text)).
  destruct (is_empty (upper (strip text))); split; congruence.
Qed.

(** *** Row ids *)

Lemma fold_max_ge (ids : list Z) (x : Z) :
  In x ids -> (x <= fold_right Z.max 0 ids)%Z.
Proof.
  induction ids as [|y ys IH]; simpl; [intros []|].
  intros [->|H]; [lia|]. specialize (IH H). lia.
Qed.

Lemma next_rowid_fresh (seq : Z) (ids : list Z) :
  (seq < next_rowid seq ids)%Z
  /\ (forall x, In x ids -> (x < next_rowid seq ids)%Z)
  /\ ~ In (next_rowid seq ids) ids.
Proof.
  unfold next_rowid. split; [lia|].
  assert (H : forall x, In x ids ->
                (x < Z.max seq (fold_right Z.max 0 ids) + 1)%Z).
  { intros x Hx. pose proof (fold_max_ge ids x Hx). lia. }
  split; [exact H|]. intros Hin. specialize (H _ Hin). lia.
Qed.

(** *** Saving a product *)

(** X12. [ProductDialog.on_save] writes exactly when the description holds
    something besides white space and, for a new product under enforced
    foreign keys, the project exists.  A description of white space only
    gets the warning; in every case that does not end in a write the
    database is left as it was. *)
Theorem product_on_save_validation (db : Db.t) (project_id : Z)
    (product : option Z) (form : ProductForm.t) :
  (all_space (ProductForm.desc form) = true ->
   product_on_save db project_id product form
   = (db, Message "Descrição é obrigatória."))
  /\ (snd (product_on_save db project_id product form) <> Done ->
      fst (product_on_save db project_id product form) = db)
  /\ (snd (product_on_save db project_id product form) = Done
      <-> all_space (ProductForm.desc form) = false
          /\ (product = None -> Db.foreign_keys db = true ->
              In project_id (map ProjectRow.id (Db.projects db)))).
Proof.
  unfold product_on_save. rewrite is_empty_strip.
  destruct (all_space (ProductForm.desc form)) eqn:Es.
  - split; [reflexivity|]. split; [reflexivity|].
    split; [discriminate | intros [H _]; discriminate].
  - split; [discriminate|].
    destruct product as [id|].
    + simpl. split; [intros H; contradiction|].
      split; [intros _; split; [reflexivity | discriminate] | reflexivity].
    + destruct (Db.foreign_keys db) eqn:Efk; simpl.
      * destruct (existsb _ (Db.projects db)) eqn:Eex; simpl.
        -- split; [intros H; contradiction|].
           split; [|reflexivity]. intros _. split; [reflexivity|].
           intros _ _. apply existsb_exists in Eex.
           destruct Eex as [p [Hin Hp]]. apply Z.eqb_eq in Hp. subst.
           apply in_map. exact Hin.
        -- split; [reflexivity|]. split; [discriminate|].
           intros [_ H]. specialize (H eq_refl eq_refl).
           apply in_map_iff in H. destruct H as [p [Hp Hin]].
           assert (Ht : existsb (fun p => (ProjectRow.id p =? project_id)%Z)
                                (Db.projects db) = true).
           { apply existsb_exists. exists p. split; [exact Hin|].
             apply Z.eqb_eq. exact Hp. }
           congruence.
      * split; [intros H; contradiction|].
        split; [|reflexivity]. intros _. split; [reflexivity|]. discriminate.
Qed.

Lemma product_on_save_validation_witness :
  product_on_save example_db 1 None
    (ProductForm.mk "   " 10 20 1 "sp" "rj")
  = (example_db, Message "Descrição é obrigatória.").
Proof.
  destruct (product_on_save_validation example_db 1 None
              (ProductForm.mk "   " 10 20 1 "sp" "rj")) as [H _].
  apply H. reflexivity.
Defined.

Lemma refers_to_self (project_id : Z) : refers_to project_id (Some project_id) = true.
Proof. simpl. apply Z.eqb_refl. Qed.

Lemma refers_to_other (project_id other : Z) :
  other <> project_id -> refers_to other (Some project_id) = false.
Proof. intros H. simpl. apply Z.eqb_neq. congruence. Qed.

Lemma product_insert_load (db db' : Db.t) (project_id : Z)
    (form : ProductForm.t) :
  product_on_save db project_id None form = (db', Done) ->
  exists id,
    ~ In id (map ProductRow.id (Db.products db))
    /\ (forall loaded_id project,
          load_project db project_id = Some (loaded_id, project) ->
          load_project db' project_id
          = Some (loaded_id,
                  Project.set_products project
                    (Project.products project ++
                       [Product.mk id (strip (ProductForm.desc form))
                          (Some (num_or (Some (ProductForm.purchase_cost form)) 0.0))
                          (Some (num_or (Some (ProductForm.sale_price form)) 0.0))
                          (Some (int_or (Some (ProductForm.qty form)) 1))
                          (Some (upper (strip (ProductForm.p_state form))))
                          (Some (upper (strip (ProductForm.s_state form))))])))
    /\ (forall other, other <> project_id ->
          load_project db' other = load_project db other).
Proof.
  unfold product_on_save.
  destruct (is_empty (strip (ProductForm.desc form))); [discriminate|].
  destruct (Db.foreign_keys db && negb _); [discriminate|].
  intros H. injection H as <-.
  exists (next_rowid (Db.seq_products db) (map ProductRow.id (Db.products db))).
  split; [apply next_rowid_fresh|]. split.
  - intros loaded_id project. unfold load_project.
    cbn [Db.projects Db.products Db.other_costs].
    destruct (List.find _ (Db.projects db)) as [p|]; [|discriminate].
    intros H. injection H as <- <-.
    rewrite List.filter_app, map_app.
    cbn [List.filter ProductRow.project_id]. rewrite refers_to_self.
    cbn [map load_product ProductRow.id ProductRow.description
         ProductRow.purchase_cost ProductRow.sale_price ProductRow.qty
         ProductRow.purchase_state ProductRow.sale_state].
    rewrite <- !state_field_value. reflexivity.
  - intros other Hother. unfold load_project.
    cbn [Db.projects Db.products Db.other_costs].
    rewrite List.filter_app.
    cbn [List.filter ProductRow.project_id].
    rewrite (refers_to_other _ _ Hother), app_nil_r. reflexivity.
Qed.

(** X13. Saving a new product and loading the project again: the product
    gets a rowid that no row of the table has, and the project loads with
    the same header and the same products as before followed by the new
    one, whose description is the stripped text and whose state codes are
    the stripped texts in upper case (the empty string for a blank field);
    every other project loads exactly as before. *)
Theorem product_insert_round_trip (db db' : Db.t) (project_id : Z)
    (form : ProductForm.t) :
  product_on_save db project_id None form = (db', Done) ->
  exists id,
    ~ In id (map ProductRow.id (Db.products db))
    /\ (forall loaded_id project,
          load_project db project_id = Some (loaded_id, project) ->
          load_project db' project_id
          = Some (loaded_id,
                  Project.set_products project
                    (Project.products project ++
                       [Product.mk id (strip (ProductForm.desc form))
                          (Some (num_or (Some (ProductForm.purchase_cost form)) 0.0))
                          (Some (num_or (Some (ProductForm.sale_price form)) 0.0))
                          (Some (int_or (Some (ProductForm.qty form)) 1))
                          (Some (upper (strip (ProductForm.p_state form))))
                          (Some (upper (strip (ProductForm.s_state form))))])))
    /\ (forall other, other <> project_id ->
          load_project db' other = load_project db other).
Proof. apply product_insert_load. Qed.

Lemma product_insert_round_trip_witness :
  exists id db',
    product_on_save example_db 2 None
      (ProductForm.mk " Patch cord " 10 20 0 " sp" "") = (db', Done)
    /\ ~ In id (map ProductRow.id (Db.products example_db))
    /\ load_project db' 1 = load_project example_db 1.
Proof.
  destruct (product_insert_round_trip example_db
              (fst (product_on_save example_db 2 None
                      (ProductForm.mk " Patch cord " 10 20 0 " sp" "")))
              2 (ProductForm.mk " Patch cord " 10 20 0 " sp" "") eq_refl)
    as (id & Hfresh & _ & Hother).
  exists id. eexists. split; [reflexivity|]. split; [exact Hfresh|].
  apply Hother. discriminate.
Defined.

Lemma loaded_report (db : Db.t) (now : string) (project_id : Z) (r : Report.t) :
  report_dialog db now project_id = Some (inr r) ->
  exists loaded_id project,
    load_project db project_id = Some (loaded_id, project)
    /\ calculate_report now project = inr r.
Proof.
  unfold report_dialog.
  destruct (load_project db project_id) as [[i p]|]; [|discriminate].
  intros H. injection H as H. exists i, p. split; [reflexivity | exact H].
Qed.

Lemma closed_report (now : string) (project : Project.t) (r : Report.t) :
  calculate_report now project = inr r ->
  Report.gross_sale r = resolve_gross project
  /\ Report.simples_rate r
     = num_or (Project.simples_rate project) DEFAULT_SIMPLES_RATE
  /\ Report.products r = map (report_item project) (Project.products project)
  /\ Report.total_purchase r
     == py_sum (map (fun p => Item.purchase_total (product_subtotal project p))
                    (Project.products project))
  /\ Report.total_difal_out r
     == py_sum (map (fun p => item_difal_out DEFAULT_INTERSTATE_RATE
                                (product_subtotal project p))
                    (Project.products project))
  /\ Report.total_difal_in r
     == py_sum (map (fun p => item_difal_in (state_rate (Some COMPANY_STATE))
                                DEFAULT_INTERSTATE_RATE
                                (product_subtotal project p))
                    (Project.products project))
  /\ Report.total_other r
     = py_sum (map OtherCost.cost (Project.other_costs project))
  /\ Report.das_total r = Report.gross_sale r * Report.simples_rate r
  /\ Report.total_cost r
     = Report.total_purchase r + Report.total_difal_in r
       + Report.total_difal_out r + Report.total_other r + Report.das_total r
  /\ Report.net_value r = Report.gross_sale r - Report.total_cost r.
Proof.
  intros H.
  destruct (calculate_report_closed now project)
    as (r0 & Hr & Hg & Hs & Hdas & Hps & Htp & Hout & Hin & Hoth & Htc
        & Hnv & _).
  rewrite H in Hr. injection Hr as <-.
  rewrite !map_map in Hin. rewrite map_map in Hout.
  repeat split; try assumption.
  - rewrite Htp. apply fold_from_zero.
  - rewrite Hout. apply fold_from_zero.
  - rewrite Hin. apply fold_from_zero.
Qed.

(** X14. What a new product does to the report of its project: the report
    keeps its entries and gains one at the end, for the new product; a
    quantity of 0 entered in the dialog is reported as 1; the purchase total
    grows by unit cost times the reported quantity and the other-cost total
    stays as it was. *)
Theorem product_insert_report_effect (db db' : Db.t) (now : string)
    (project_id : Z) (form : ProductForm.t) (r : Report.t) :
  product_on_save db project_id None form = (db', Done) ->
  report_dialog db now project_id = Some (inr r) ->
  exists r' entry,
    report_dialog db' now project_id = Some (inr r')
    /\ Report.products r' = Report.products r ++ [entry]
    /\ Item.description entry = strip (ProductForm.desc form)
    /\ Item.qty entry
       = (if (ProductForm.qty form =? 0)%Z then 1%Z else ProductForm.qty form)
    /\ Item.purchase_total entry
       == ProductForm.purchase_cost form * inject_Z (Item.qty entry)
    /\ Report.total_purchase r'
       == Report.total_purchase r + Item.purchase_total entry
    /\ Report.total_other r' = Report.total_other r.
Proof.
  intros Hsave Hrep.
  destruct (loaded_report _ _ _ _ Hrep) as (lid & project & Hload & Hcalc).
  destruct (product_insert_load _ _ _ _ Hsave) as (id & _ & Hnew & _).
  specialize (Hnew lid project Hload).
  set (new := Product.mk id (strip (ProductForm.desc form))
                (Some (num_or (Some (ProductForm.purchase_cost form)) 0.0))
                (Some (num_or (Some (ProductForm.sale_price form)) 0.0))
                (Some (int_or (Some (ProductForm.qty form)) 1))
                (Some (upper (strip (ProductForm.p_state form))))
                (Some (upper (strip (ProductForm.s_state form))))) in *.
  destruct (calculate_report_closed now
              (Project.set_products project (Project.products project ++ [new])))
    as (r' & Hr' & _).
  exists r', (report_item project new).
  unfold report_dialog. rewrite Hnew, Hr'. split; [reflexivity|].
  destruct (closed_report _ _ _ Hcalc)
    as (_ & _ & Hps & Htp & _ & _ & Hoth & _).
  destruct (closed_report _ _ _ Hr')
    as (_ & _ & Hps' & Htp' & _ & _ & Hoth' & _).
  cbn [Project.set_products Project.products Project.other_costs] in *.
  split; [rewrite Hps', Hps, map_app; reflexivity|].
  split; [reflexivity|].
  assert (Hq : Item.qty (report_item project new)
               = (if (ProductForm.qty form =? 0)%Z then 1%Z
                  else ProductForm.qty form)).
  { unfold report_item, product_subtotal, new. entry_fields.
    rewrite int_or_twice. reflexivity. }
  split; [exact Hq|]. split.
  - unfold report_item, product_subtotal, new. entry_fields.
    apply Qmult_comp; [|reflexivity].
    rewrite num_or_twice. reflexivity.
  - split; [|rewrite Hoth', Hoth; reflexivity].
    rewrite Htp', Htp, map_app, py_sum_app.
    apply Qplus_comp; [reflexivity|].
    unfold py_sum. simpl. lra.
Qed.

Lemma product_insert_report_effect_witness :
  exists r r',
    report_dialog example_db example_now 2 = Some (inr r)
    /\ report_dialog
         (fst (product_on_save example_db 2 None
                 (ProductForm.mk "Patch cord" 10 20 0 "sp" "")))
         example_now 2 = Some (inr r')
    /\ Report.total_purchase r' == Report.total_purchase r + 10.
Proof.
  destruct (report_dialog example_db example_now 2) as [[e|r]|] eqn:E;
    try (vm_compute in E; discriminate).
  destruct (product_insert_report_effect example_db
              (fst (product_on_save example_db 2 None
                      (ProductForm.mk "Patch cord" 10 20 0 "sp" "")))
              example_now 2 (ProductForm.mk "Patch cord" 10 20 0 "sp" "") r
              eq_refl E)
    as (r' & entry & Hr' & _ & _ & Hq & Hpt & Htp & _).
  exists r, r'. split; [reflexivity|]. split; [exact Hr'|].
  rewrite Htp, Hpt, Hq. reflexivity.
Defined.

(** *** Saving an other cost *)

Lemma cost_insert_load (db db' : Db.t) (project_id : Z) (desc : string)
    (value : Q) :
  cost_on_save db project_id None desc value = (db', Done) ->
  exists id,
    ~ In id (map CostRow.id (Db.other_costs db))
    /\ (forall loaded_id project,
          load_project db project_id = Some (loaded_id, project) ->
          load_project db' project_id
          = Some (loaded_id,
                  Project.mk (Project.project_number project)
                    (Project.client_name project) (Project.gross_sale project)
                    (Project.purchase_state project)
                    (Project.sale_state project)
                    (Project.simples_rate project) (Project.products project)
                    (Project.other_costs project ++
                       [OtherCost.mk id (strip desc)
                                     (num_or (Some value) 0.0)])))
    /\ (forall other, other <> project_id ->
          load_project db' other = load_project db other).
Proof.
  unfold cost_on_save.
  destruct (is_empty (strip desc)); [discriminate|].
  destruct (Db.foreign_keys db && negb _); [discriminate|].
  intros H. injection H as <-.
  exists (next_rowid (Db.seq_other_costs db)
                     (map CostRow.id (Db.other_costs db))).
  split; [apply next_rowid_fresh|]. split.
  - intros loaded_id project. unfold load_project.
    cbn [Db.projects Db.products Db.other_costs].
    destruct (List.find _ (Db.projects db)) as [p|]; [|discriminate].
    intros H. injection H as <- <-.
    rewrite List.filter_app, map_app.
    cbn [List.filter CostRow.project_id]. rewrite refers_to_self.
    reflexivity.
  - intros other Hother. unfold load_project.
    cbn [Db.projects Db.products Db.other_costs].
    rewrite List.filter_app.
    cbn [List.filter CostRow.project_id].
    rewrite (refers_to_other _ _ Hother), app_nil_r. reflexivity.
Qed.

(** X15. [OtherCostDialog.on_save] refuses a description of white space
    only and then writes nothing.  A new cost that is saved goes to the end
    of the other costs of its project and leaves the entries, the gross
    sale, the purchase total, the DIFAL totals and the DAS charge of the
    report alone; the other-cost total is the sum over the longer list, the
    total cost is made of the unchanged figures and the new other-cost
    total, and the net value is the unchanged gross sale less the new total
    cost; the reports of the other projects do not change. *)
Theorem cost_insert_report_effect (db : Db.t) (now : string) (project_id : Z)
    (desc : string) (value : Q) :
  (all_space desc = true ->
   cost_on_save db project_id None desc value
   = (db, Message "Descrição é obrigatória."))
  /\ forall db' r,
       cost_on_save db project_id None desc value = (db', Done) ->
       report_dialog db now project_id = Some (inr r) ->
       (exists r' id,
          report_dialog db' now project_id = Some (inr r')
          /\ Report.other_costs r'
             = Report.other_costs r
               ++ [OtherCost.mk id (strip desc) (num_or (Some value) 0.0)]
          /\ Report.products r' = Report.products r
          /\ Report.gross_sale r' = Report.gross_sale r
          /\ Report.total_purchase r' = Report.total_purchase r
          /\ Report.total_difal_in r' = Report.total_difal_in r
          /\ Report.total_difal_out r' = Report.total_difal_out r
          /\ Report.das_total r' = Report.das_total r
          /\ Report.total_other r'
             = py_sum (map OtherCost.cost (Report.other_costs r'))
          /\ Report.total_cost r'
             = Report.total_purchase r + Report.total_difal_in r
               + Report.total_difal_out r + Report.total_other r'
               + Report.das_total r
          /\ Report.net_value r' = Report.gross_sale r - Report.total_cost r')
       /\ (forall other, other <> project_id ->
             report_dialog db' now other = report_dialog db now other).
Proof.
  split.
  { intros Hs. unfold cost_on_save. rewrite is_empty_strip, Hs. reflexivity. }
  intros db' r Hsave Hrep.
  destruct (loaded_report _ _ _ _ Hrep) as (lid & project & Hload & Hcalc).
  destruct (cost_insert_load _ _ _ _ _ Hsave) as (id & _ & Hnew & Hother).
  specialize (Hnew lid project Hload).
  split.
  - match type of Hnew with
    | _ = Some (_, ?P) =>
        destruct (calculate_report_closed now P)
          as (r' & Hr' & Hg' & Hs' & Hdas' & Hps' & Htp' & Hout' & Hin'
              & Hoth' & Htc' & Hnv' & _);
        pose proof (calculate_report_header _ _ _ Hr') as Hh'
    end.
    destruct (calculate_report_closed now project)
      as (r0 & Hr0 & Hg & Hs & Hdas & Hps & Htp & Hout & Hin & Hoth & Htc
          & Hnv & _).
    rewrite Hcalc in Hr0. injection Hr0 as <-.
    pose proof (calculate_report_header _ _ _ Hcalc) as Hh.
    exists r', id. unfold report_dialog. rewrite Hnew, Hr'.
    split; [reflexivity|].
    destruct Hh as (_ & _ & _ & _ & Hoc).
    destruct Hh' as (_ & _ & _ & _ & Hoc').
    cbn [Project.products Project.other_costs Project.simples_rate] in *.
    assert (Eg : Report.gross_sale r' = Report.gross_sale r)
      by (rewrite Hg', Hg; reflexivity).
    assert (Es : Report.simples_rate r' = Report.simples_rate r)
      by (rewrite Hs', Hs; reflexivity).
    assert (Etp : Report.total_purchase r' = Report.total_purchase r)
      by (rewrite Htp', Htp; reflexivity).
    assert (Ein : Report.total_difal_in r' = Report.total_difal_in r)
      by (rewrite Hin', Hin; reflexivity).
    assert (Eout : Report.total_difal_out r' = Report.total_difal_out r)
      by (rewrite Hout', Hout; reflexivity).
    assert (Ed : Report.das_total r' = Report.das_total r)
      by (rewrite Hdas', Hdas, Eg, Es; reflexivity).
    split; [rewrite Hoc', Hoc; reflexivity|].
    split; [rewrite Hps', Hps; reflexivity|].
    split; [exact Eg|]. split; [exact Etp|]. split; [exact Ein|].
    split; [exact Eout|]. split; [exact Ed|].
    split; [rewrite Hoth', Hoc'; reflexivity|].
    split; [rewrite Htc', Etp, Ein, Eout, Ed; reflexivity|].
    rewrite Hnv', Eg. reflexivity.
  - intros other Hne. unfold report_dialog. rewrite (Hother other Hne).
    reflexivity.
Qed.

Lemma cost_insert_report_effect_witness :
  exists r r',
    report_dialog example_db example_now 1 = Some (inr r)
    /\ report_dialog
         (fst (cost_on_save example_db 1 None "Frete" 40)) example_now 1
       = Some (inr r')
    /\ map OtherCost.cost (Report.other_costs r')
       = map OtherCost.cost (Report.other_costs r) ++ [40]
    /\ Report.total_purchase r' = Report.total_purchase r.
Proof.
  destruct (report_dialog example_db example_now 1) as [[e|r]|] eqn:E;
    try (vm_compute in E; discriminate).
  destruct (cost_insert_report_effect example_db example_now 1 "Frete" 40)
    as [_ H].
  destruct (H (fst (cost_on_save example_db 1 None "Frete" 40)) r eq_refl E)
    as [(r' & id & Hr' & Hoc & _ & _ & Htp & _) _].
  exists r, r'. split; [reflexivity|]. split; [exact Hr'|].
  split; [|exact Htp].
  rewrite Hoc, map_app. reflexivity.
Defined.

(** X16. Editing a product rewrites the row with its id and nothing else:
    the rows keep their ids, their order and their projects (the project the
    dialog was opened from plays no part), every other row is untouched, and
    a project none of whose products has the id loads exactly as before. *)
Theorem product_update_effect (db db' : Db.t) (project_id id : Z)
    (form : ProductForm.t) :
  product_on_save db project_id (Some id) form = (db', Done) ->
  Db.projects db' = Db.projects db
  /\ Db.other_costs db' = Db.other_costs db
  /\ map ProductRow.id (Db.products db') = map ProductRow.id (Db.products db)
  /\ map ProductRow.project_id (Db.products db')
     = map ProductRow.project_id (Db.products db)
  /\ Forall2
       (fun old new =>
          (ProductRow.id old <> id -> new = old)
          /\ (ProductRow.id old = id ->
              ProductRow.description new = strip (ProductForm.desc form)
              /\ ProductRow.purchase_cost new
                 = Some (ProductForm.purchase_cost form)
              /\ ProductRow.sale_price new = Some (ProductForm.sale_price form)
              /\ ProductRow.qty new = Some (ProductForm.qty form)
              /\ ProductRow.purchase_state new
                 = state_field (ProductForm.p_state form)
              /\ ProductRow.sale_state new
                 = state_field (ProductForm.s_state form)))
       (Db.products db) (Db.products db')
  /\ (forall other,
        (forall r, In r (Db.products db) ->
           refers_to other (ProductRow.project_id r) = true ->
           ProductRow.id r <> id) ->
        load_project db' other = load_project db other).
Proof.
  unfold product_on_save.
  destruct (is_empty (strip (ProductForm.desc form))); [discriminate|].
  intros H. injection H as <-. cbn [Db.projects Db.products Db.other_costs].
  split; [reflexivity|]. split; [reflexivity|].
  split; [|split; [|split]].
  - rewrite map_map. apply map_ext. intros r.
    destruct (ProductRow.id r =? id)%Z; reflexivity.
  - rewrite map_map. apply map_ext. intros r.
    destruct (ProductRow.id r =? id)%Z; reflexivity.
  - induction (Db.products db) as [|r rs IH]; simpl; constructor; [|exact IH].
    destruct (ProductRow.id r =? id)%Z eqn:E.
    + apply Z.eqb_eq in E. split; [intros H; contradiction|].
      intros _. repeat split.
    + apply Z.eqb_neq in E. split; [reflexivity | intros H; contradiction].
  - intros other Hother. unfold load_project.
    cbn [Db.projects Db.products Db.other_costs].
    destruct (List.find _ (Db.projects db)) as [p|]; [|reflexivity].
    do 3 f_equal.
    induction (Db.products db) as [|r rs IH]; simpl; [reflexivity|].
    assert (Hrs : forall r0, In r0 rs ->
                    refers_to other (ProductRow.project_id r0) = true ->
                    ProductRow.id r0 <> id).
    { intros r0 Hin. apply Hother. right. exact Hin. }
    specialize (IH Hrs).
    destruct (ProductRow.id r =? id)%Z eqn:E.
    + apply Z.eqb_eq in E. cbn [ProductRow.project_id].
      destruct (refers_to other (ProductRow.project_id r)) eqn:Er.
      * exfalso. apply (Hother r (or_introl eq_refl) Er E).
      * exact IH.
    + destruct (refers_to other (ProductRow.project_id r)); [|exact IH].
      simpl. f_equal. exact IH.
Qed.

Lemma product_update_effect_witness :
  exists db',
    product_on_save example_db 1 (Some 3%Z)
      (ProductForm.mk "Suporte de parede" 30 45 4 "mg" "rj") = (db', Done)
    /\ map ProductRow.id (Db.products db') = [1%Z; 2%Z; 3%Z]
    /\ load_project db' 2 = load_project example_db 2.
Proof.
  eexists. split; [reflexivity|].
  destruct (product_update_effect example_db
              (fst (product_on_save example_db 1 (Some 3%Z)
                      (ProductForm.mk "Suporte de parede" 30 45 4 "mg" "rj")))
              1 3 (ProductForm.mk "Suporte de parede" 30 45 4 "mg" "rj")
              eq_refl)
    as (_ & _ & Hids & _ & _ & Hother).
  split; [exact Hids|].
  apply Hother. intros r Hin Href.
  simpl in Hin. destruct Hin as [<-|[<-|[<-|[]]]]; simpl in Href;
    try discriminate; simpl; lia.
Defined.

(** *** Creating a project *)

Lemma number_taken (number : string) (rows : list ProjectRow.t) :
  existsb (fun p => String.eqb (ProjectRow.project_number p) number) rows = true
  <-> In number (map ProjectRow.project_number rows).
Proof.
  rewrite existsb_exists, in_map_iff. split.
  - intros [p [Hin Hp]]. apply String.eqb_eq in Hp. exists p. auto.
  - intros [p [Hp Hin]]. exists p. split; [exact Hin|].
    apply String.eqb_eq. exact Hp.
Qed.

(** X17. [create_project] writes exactly when both dialogs were confirmed
    with texts that hold more than white space and no project has the
    stripped number; a taken number gets the message and any other failure a
    silent return, and then the database is left as it was.  If the project
    numbers were pairwise distinct before, they are afterwards. *)
Theorem create_project_outcome (db : Db.t) (number : string) (ok_number : bool)
    (client : string) (ok_client : bool) (now : string) :
  (snd (create_project db number ok_number client ok_client now) = Done
   <-> ok_number = true /\ all_space number = false
       /\ ok_client = true /\ all_space client = false
       /\ ~ In (strip number) (map ProjectRow.project_number (Db.projects db)))
  /\ (ok_number = true -> all_space number = false ->
      ok_client = true -> all_space client = false ->
      In (strip number) (map ProjectRow.project_number (Db.projects db)) ->
      create_project db number ok_number client ok_client now
      = (db, Message "Número de projeto já existe."))
  /\ (snd (create_project db number ok_number client ok_client now) <> Done ->
      fst (create_project db number ok_number client ok_client now) = db)
  /\ (List.NoDup (map ProjectRow.project_number (Db.projects db)) ->
      List.NoDup (map ProjectRow.project_number
                    (Db.projects
                       (fst (create_project db number ok_number client
                                            ok_client now))))).
Proof.
  unfold create_project. rewrite !is_empty_strip.
  pose proof (number_taken (strip number) (Db.projects db)) as Htaken.
  destruct ok_number; simpl;
    [|repeat split; try discriminate; try tauto; intros (H & _); discriminate].
  destruct (all_space number); simpl;
    [repeat split; try discriminate; try tauto;
     intros (_ & H & _); discriminate|].
  destruct ok_client; simpl;
    [|repeat split; try discriminate; try tauto;
      intros (_ & _ & H & _); discriminate].
  destruct (all_space client); simpl;
    [repeat split; try discriminate; try tauto;
     intros (_ & _ & _ & H & _); discriminate|].
  destruct (existsb _ (Db.projects db)) eqn:E; simpl.
  - assert (Hin : In (strip number)
                     (map ProjectRow.project_number (Db.projects db)))
      by (apply Htaken; reflexivity).
    repeat split; try discriminate; try tauto.
  - assert (Hnot : ~ In (strip number)
                       (map ProjectRow.project_number (Db.projects db))).
    { intros H. apply Htaken in H. congruence. }
    repeat split; try tauto.
    intros Hnd. rewrite map_app. simpl.
    apply NoDup_ListNoDup. apply NoDup_ListNoDup in Hnd.
    apply NoDup_app. split; [exact Hnd|]. split; [|apply NoDup_singleton].
    intros x Hx Hx'. apply list_elem_of_singleton in Hx'. subst x.
    apply list_elem_of_In in Hx. contradiction.
Qed.

Lemma create_project_outcome_witness :
  create_project example_db " 001/2024 " true "Outra" true example_now
  = (example_db, Message "Número de projeto já existe.").
Proof.
  destruct (create_project_outcome example_db " 001/2024 " true "Outra" true
              example_now) as (_ & H & _).
  apply H; try reflexivity. simpl. auto.
Defined.

Lemma find_app_old (project_id : Z) (rows : list ProjectRow.t)
    (new : ProjectRow.t) :
  ProjectRow.id new <> project_id ->
  List.find (fun p => (ProjectRow.id p =? project_id)%Z) (rows ++ [new])
  = List.find (fun p => (ProjectRow.id p =? project_id)%Z) rows.
Proof.
  intros Hne. induction rows as [|p ps IH]; simpl.
  - apply Z.eqb_neq in Hne. rewrite Hne. reflexivity.
  - destruct (ProjectRow.id p =? project_id)%Z; [reflexivity | exact IH].
Qed.

Lemma find_app_new (rows : list ProjectRow.t) (new : ProjectRow.t) :
  ~ In (ProjectRow.id new) (map ProjectRow.id rows) ->
  List.find (fun p => (ProjectRow.id p =? ProjectRow.id new)%Z) (rows ++ [new])
  = Some new.
Proof.
  intros Hnot. induction rows as [|p ps IH]; simpl.
  - rewrite Z.eqb_refl. reflexivity.
  - destruct (ProjectRow.id p =? ProjectRow.id new)%Z eqn:E.
    + apply Z.eqb_eq in E. exfalso. apply Hnot. left. exact E.
    + apply IH. intros H. apply Hnot. right. exact H.
Qed.

Lemma filter_none {A : Type} (f : A -> bool) (xs : list A) :
  (forall x, In x xs -> f x = false) -> List.filter f xs = [].
Proof.
  induction xs as [|x xs IH]; intros H; simpl; [reflexivity|].
  rewrite (H x (or_introl eq_refl)). apply IH.
  intros y Hy. apply H. right. exact Hy.
Qed.

Lemma created_project_load (db db' : Db.t) (number : string) (ok_number : bool)
    (client : string) (ok_client : bool) (now : string) :
  db_wf db ->
  create_project db number ok_number client ok_client now = (db', Done) ->
  exists id,
    ~ In id (map ProjectRow.id (Db.projects db))
    /\ Db.projects db'
       = Db.projects db
         ++ [ProjectRow.mk id (strip number) (strip client) (Some 0.0) None
               None (Some DEFAULT_SIMPLES_RATE) (Some now)]
    /\ ~ In (strip number) (map ProjectRow.project_number (Db.projects db))
    /\ load_project db' id
       = Some (id, Project.mk (strip number) (strip client) (Some 0.0)
                     (Some EmptyString) (Some EmptyString)
                     (Some DEFAULT_SIMPLES_RATE) [] [])
    /\ (forall other, other <> id ->
          load_project db' other = load_project db other).
Proof.
  intros (Hp & Hprod & Hcost). unfold create_project.
  destruct (negb ok_number || is_empty (strip number)); [discriminate|].
  destruct (negb ok_client || is_empty (strip client)); [discriminate|].
  destruct (existsb _ (Db.projects db)) eqn:Etaken; [discriminate|].
  intros H. injection H as <-.
  set (id := next_rowid (Db.seq_projects db)
                        (map ProjectRow.id (Db.projects db))).
  destruct (next_rowid_fresh (Db.seq_projects db)
              (map ProjectRow.id (Db.projects db))) as (Hseq & _ & Hfresh).
  fold id in Hseq, Hfresh.
  exists id. split; [exact Hfresh|]. split; [reflexivity|]. split.
  { intros H. apply number_taken in H. congruence. }
  split.
  - unfold load_project. cbn [Db.projects Db.products Db.other_costs].
    pose proof (find_app_new (Db.projects db)
                  (ProjectRow.mk id (strip number) (strip client) (Some 0.0)
                     None None (Some DEFAULT_SIMPLES_RATE) (Some now)) Hfresh)
      as Hfind.
    cbn [ProjectRow.id] in Hfind. rewrite Hfind.
    rewrite !filter_none.
    + reflexivity.
    + intros r Hr. destruct (CostRow.project_id r) as [k|] eqn:E;
        [|reflexivity].
      simpl. apply Z.eqb_neq. specialize (Hcost r k Hr E). lia.
    + intros r Hr. destruct (ProductRow.project_id r) as [k|] eqn:E;
        [|reflexivity].
      simpl. apply Z.eqb_neq. specialize (Hprod r k Hr E). lia.
  - intros other Hne. unfold load_project.
    cbn [Db.projects Db.products Db.other_costs].
    rewrite find_app_old; [reflexivity|]. simpl. congruence.
Qed.

(** X18. A project that has just been created, in a database whose
    references are sound, loads with a gross sale of 0, no default states,
    the Simples rate of 5%, no products and no other costs, also when rows
    of deleted projects are still in the tables; its report is computed and
    every figure of it is 0.  The other projects load as before. *)
Theorem created_project_is_empty (db db' : Db.t) (number : string)
    (ok_number : bool) (client : string) (ok_client : bool)
    (now report_time : string) :
  db_wf db ->
  create_project db number ok_number client ok_client now = (db', Done) ->
  exists id r,
    ~ In id (map ProjectRow.id (Db.projects db))
    /\ load_project db' id
       = Some (id, Project.mk (strip number) (strip client) (Some 0.0)
                     (Some EmptyString) (Some EmptyString)
                     (Some DEFAULT_SIMPLES_RATE) [] [])
    /\ report_dialog db' report_time id = Some (inr r)
    /\ Report.products r = []
    /\ Report.gross_sale r == 0
    /\ Report.total_cost r == 0
    /\ Report.net_value r == 0
    /\ Report.net_percent r == 0
    /\ Forall (fun entry => snd entry == 0) (Report.min_sale_for_profit r)
    /\ (forall other, other <> id ->
          load_project db' other = load_project db other).
Proof.
  intros Hwf Hcreate.
  destruct (created_project_load _ _ _ _ _ _ _ Hwf Hcreate)
    as (id & Hfresh & _ & _ & Hload & Hother).
  destruct (empty_project_figures report_time
              (Project.mk (strip number) (strip client) (Some 0.0)
                 (Some EmptyString) (Some EmptyString)
                 (Some DEFAULT_SIMPLES_RATE) [] []) eq_refl eq_refl)
    as (r & Hr & Hps & Hg & _ & _ & _ & _ & _ & Hzero).
  destruct Hzero as (Hc & Hnv & Hnp & Hms); [reflexivity|].
  exists id, r. split; [exact Hfresh|]. split; [exact Hload|].
  unfold report_dialog. rewrite Hload, Hr.
  split; [reflexivity|]. split; [exact Hps|].
  split; [rewrite Hg; reflexivity|].
  repeat split; assumption.
Qed.

Lemma created_project_is_empty_witness :
  exists db' id r,
    create_project example_db "003/2024" true "Hospital" true example_now
    = (db', Done)
    /\ report_dialog db' example_now id = Some (inr r)
    /\ Report.total_cost r == 0.
Proof.
  assert (Hwf : db_wf example_db).
  { repeat split.
    - intros p [<-|[<-|[]]]; simpl; lia.
    - intros r k [<-|[<-|[<-|[]]]] H; simpl in H; injection H as <-;
        simpl; lia.
    - intros r k []. }
  destruct (created_project_is_empty example_db
              (fst (create_project example_db "003/2024" true "Hospital" true
                                   example_now))
              "003/2024" true "Hospital" true example_now example_now Hwf
              eq_refl)
    as (id & r & _ & _ & Hr & _ & _ & Hc & _).
  eexists. exists id, r. split; [reflexivity|]. split; [exact Hr | exact Hc].
Defined.

(** *** The references stay sound *)

Lemma example_db_wf : db_wf example_db.
Proof.
  repeat split.
  - intros p [<-|[<-|[]]]; simpl; lia.
  - intros r k [<-|[<-|[<-|[]]]] H; simpl in H; injection H as <-;
      simpl; lia.
  - intros r k [].
Qed.

Lemma in_filter_in {A : Type} (f : A -> bool) (x : A) (xs : list A) :
  In x (List.filter f xs) -> In x xs.
Proof. intros H. apply List.filter_In in H. tauto. Qed.

Lemma create_project_wf (db : Db.t) (number : string) (ok_number : bool)
    (client : string) (ok_client : bool) (now : string) :
  db_wf db ->
  db_wf (fst (create_project db number ok_number client ok_client now)).
Proof.
  intros Hwf. unfold create_project.
  destruct (negb ok_number || is_empty (strip number)); [exact Hwf|].
  destruct (negb ok_client || is_empty (strip client)); [exact Hwf|].
  destruct (existsb _ (Db.projects db)); [exact Hwf|].
  destruct Hwf as (Hp & Hprod & Hcost).
  destruct (next_rowid_fresh (Db.seq_projects db)
              (map ProjectRow.id (Db.projects db))) as (Hseq & _ & _).
  cbn [fst]. repeat split;
    cbn [Db.projects Db.products Db.other_costs Db.seq_projects].
  - intros p Hin. apply in_app_or in Hin. destruct Hin as [Hin|[<-|[]]].
    + specialize (Hp p Hin). lia.
    + simpl. lia.
  - intros r k Hin E. specialize (Hprod r k Hin E). lia.
  - intros r k Hin E. specialize (Hcost r k Hin E). lia.
Qed.

Lemma save_project_wf (db : Db.t) (project_id : Z) (form : ProjectForm.t) :
  db_wf db -> db_wf (fst (save_project db project_id form)).
Proof.
  intros Hwf. unfold save_project.
  destruct (is_empty _ || is_empty _); [exact Hwf|].
  destruct (existsb _ (Db.projects db) && _); [exact Hwf|].
  destruct Hwf as (Hp & Hprod & Hcost).
  cbn [fst]. repeat split;
    cbn [Db.projects Db.products Db.other_costs Db.seq_projects];
    [|exact Hprod | exact Hcost].
  intros p Hin. apply in_map_iff in Hin. destruct Hin as [q [Hq Hin]].
  specialize (Hp q Hin).
  destruct (ProjectRow.id q =? project_id)%Z; subst p; simpl; exact Hp.
Qed.

Lemma product_on_save_wf (db : Db.t) (project_id : Z) (product : option Z)
    (form : ProductForm.t) :
  db_wf db ->
  (product = None -> In project_id (map ProjectRow.id (Db.projects db))) ->
  db_wf (fst (product_on_save db project_id product form)).
Proof.
  intros Hwf Hex. unfold product_on_save.
  destruct (is_empty (strip (ProductForm.desc form))); [exact Hwf|].
  destruct Hwf as (Hp & Hprod & Hcost).
  destruct product as [id|].
  - cbn [fst]. repeat split;
      cbn [Db.projects Db.products Db.other_costs Db.seq_projects];
      [exact Hp | | exact Hcost].
    intros r k Hin E. apply in_map_iff in Hin. destruct Hin as [q [Hq Hin]].
    destruct (ProductRow.id q =? id)%Z; subst r;
      apply (Hprod q k Hin); exact E.
  - destruct (Db.foreign_keys db && negb _); [repeat split; assumption|].
    cbn [fst]. repeat split;
      cbn [Db.projects Db.products Db.other_costs Db.seq_projects];
      [exact Hp | | exact Hcost].
    intros r k Hin E. apply in_app_or in Hin. destruct Hin as [Hin|[<-|[]]].
    + apply (Hprod r k Hin E).
    + simpl in E. injection E as <-.
      specialize (Hex eq_refl). apply in_map_iff in Hex.
      destruct Hex as [p [Hid Hin]]. specialize (Hp p Hin). lia.
Qed.

Lemma cost_on_save_wf (db : Db.t) (project_id : Z) (cost : option Z)
    (desc : string) (value : Q) :
  db_wf db ->
  (cost = None -> In project_id (map ProjectRow.id (Db.projects db))) ->
  db_wf (fst (cost_on_save db project_id cost desc value)).
Proof.
  intros Hwf Hex. unfold cost_on_save.
  destruct (is_empty (strip desc)); [exact Hwf|].
  destruct Hwf as (Hp & Hprod & Hcost).
  destruct cost as [id|].
  - cbn [fst]. repeat split;
      cbn [Db.projects Db.products Db.other_costs Db.seq_projects];
      [exact Hp | exact Hprod |].
    intros r k Hin E. apply in_map_iff in Hin. destruct Hin as [q [Hq Hin]].
    destruct (CostRow.id q =? id)%Z; subst r;
      apply (Hcost q k Hin); exact E.
  - destruct (Db.foreign_keys db && negb _); [repeat split; assumption|].
    cbn [fst]. repeat split;
      cbn [Db.projects Db.products Db.other_costs Db.seq_projects];
      [exact Hp | exact Hprod |].
    intros r k Hin E. apply in_app_or in Hin. destruct Hin as [Hin|[<-|[]]].
    + apply (Hcost r k Hin E).
    + simpl in E. injection E as <-.
      specialize (Hex eq_refl). apply in_map_iff in Hex.
      destruct Hex as [p [Hid Hin]]. specialize (Hp p Hin). lia.
Qed.

Lemma delete_project_wf (db : Db.t) (selection : option Z) (confirmed : bool) :
  db_wf db -> db_wf (fst (delete_project db selection confirmed)).
Proof.
  intros Hwf. unfold delete_project.
  destruct selection as [pid|]; [|exact Hwf].
  destruct confirmed; [|exact Hwf].
  destruct Hwf as (Hp & Hprod & Hcost).
  cbn [fst]. repeat split;
    cbn [Db.projects Db.products Db.other_costs Db.seq_projects].
  - intros p Hin. apply in_filter_in in Hin. apply Hp, Hin.
  - intros r k Hin E. destruct (Db.foreign_keys db);
      [apply in_filter_in in Hin|]; apply (Hprod r k Hin E).
  - intros r k Hin E. destruct (Db.foreign_keys db);
      [apply in_filter_in in Hin|]; apply (Hcost r k Hin E).
Qed.

(** X19. The soundness of the references is an invariant of the dialogs:
    it holds of the empty database, and creating, saving or deleting a
    project, saving a product or an other cost (a new one for a project
    that exists) and deleting one all keep it, whether or not the
    connection enforces foreign keys. *)
Theorem db_wf_invariant :
  db_wf empty_db
  /\ forall db, db_wf db ->
       (forall number ok_number client ok_client now,
          db_wf (fst (create_project db number ok_number client ok_client now)))
       /\ (forall project_id form,
             db_wf (fst (save_project db project_id form)))
       /\ (forall project_id product form,
             (product = None ->
              In project_id (map ProjectRow.id (Db.projects db))) ->
             db_wf (fst (product_on_save db project_id product form)))
       /\ (forall project_id cost desc value,
             (cost = None ->
              In project_id (map ProjectRow.id (Db.projects db))) ->
             db_wf (fst (cost_on_save db project_id cost desc value)))
       /\ (forall product_id confirmed,
             db_wf (delete_product db product_id confirmed))
       /\ (forall cost_id confirmed,
             db_wf (delete_cost db cost_id confirmed))
       /\ (forall selection confirmed,
             db_wf (fst (delete_project db selection confirmed))).
Proof.
  split.
  { repeat split; [intros ? [] | intros ? ? [] | intros ? ? []]. }
  intros db Hwf.
  split; [intros; apply create_project_wf; exact Hwf|].
  split; [intros; apply save_project_wf; exact Hwf|].
  split; [intros; apply product_on_save_wf; assumption|].
  split; [intros; apply cost_on_save_wf; assumption|].
  split; [|split].
  - intros product_id confirmed. unfold delete_product.
    destruct confirmed; [|exact Hwf]. destruct Hwf as (Hp & Hprod & Hcost).
    repeat split;
      cbn [Db.projects Db.products Db.other_costs Db.seq_projects];
      [exact Hp | | exact Hcost].
    intros r k Hin E. apply in_filter_in in Hin. apply (Hprod r k Hin E).
  - intros cost_id confirmed. unfold delete_cost.
    destruct confirmed; [|exact Hwf]. destruct Hwf as (Hp & Hprod & Hcost).
    repeat split;
      cbn [Db.projects Db.products Db.other_costs Db.seq_projects];
      [exact Hp | exact Hprod |].
    intros r k Hin E. apply in_filter_in in Hin. apply (Hcost r k Hin E).
  - intros. apply delete_project_wf. exact Hwf.
Qed.

Lemma db_wf_invariant_witness :
  db_wf (fst (delete_project example_db (Some 1%Z) true))
  /\ db_wf (fst (product_on_save example_db 2 None
                   (ProductForm.mk "Patch cord" 10 20 1 "" ""))).
Proof.
  destruct db_wf_invariant as [_ H].
  destruct (H example_db example_db_wf) as (_ & _ & Hprod & _ & _ & _ & Hdel).
  split; [apply Hdel|].
  apply Hprod. intros _. simpl. auto.
Defined.

(** *** Saving the project header *)

Lemma simples_rate_twice (v : Q) :
  num_or (Some (num_or (Some v) DEFAULT_SIMPLES_RATE)) DEFAULT_SIMPLES_RATE
  = num_or (Some v) DEFAULT_SIMPLES_RATE.
Proof.
  simpl. destruct (truthy v) eqn:E; simpl; [rewrite E|]; reflexivity.
Qed.

Lemma find_updated (project_id : Z) (form : ProjectForm.t)
    (rows : list ProjectRow.t) :
  List.find (fun p => (ProjectRow.id p =? project_id)%Z)
    (map (fun p => if (ProjectRow.id p =? project_id)%Z
                   then saved_project_row form p else p) rows)
  = option_map (saved_project_row form)
      (List.find (fun p => (ProjectRow.id p =? project_id)%Z) rows).
Proof.
  induction rows as [|p ps IH]; simpl; [reflexivity|].
  destruct (ProjectRow.id p =? project_id)%Z eqn:E; simpl.
  - rewrite E. reflexivity.
  - rewrite E. exact IH.
Qed.

Lemma find_updated_other (project_id other : Z) (form : ProjectForm.t)
    (rows : list ProjectRow.t) :
  other <> project_id ->
  List.find (fun p => (ProjectRow.id p =? other)%Z)
    (map (fun p => if (ProjectRow.id p =? project_id)%Z
                   then saved_project_row form p else p) rows)
  = List.find (fun p => (ProjectRow.id p =? other)%Z) rows.
Proof.
  intros Hne. induction rows as [|p ps IH]; simpl; [reflexivity|].
  destruct (ProjectRow.id p =? project_id)%Z eqn:E; simpl.
  - apply Z.eqb_eq in E.
    assert (Ho : (ProjectRow.id p =? other)%Z = false)
      by (apply Z.eqb_neq; congruence).
    rewrite Ho. exact IH.
  - destruct (ProjectRow.id p =? other)%Z; [reflexivity | exact IH].
Qed.

Lemma count_zero_not_in (pn : string) (rows : list ProjectRow.t) :
  length (List.filter (fun p => String.eqb (ProjectRow.project_number p) pn)
                      rows) = 0%nat ->
  ~ In pn (map ProjectRow.project_number rows).
Proof.
  induction rows as [|p ps IH]; simpl; [intros _ []|].
  destruct (String.eqb (ProjectRow.project_number p) pn) eqn:E; simpl;
    [discriminate|].
  intros H [H1|H1]; [|exact (IH H H1)].
  apply String.eqb_neq in E. contradiction.
Qed.

Lemma updated_numbers_nodup (project_id : Z) (form : ProjectForm.t)
    (rows : list ProjectRow.t) :
  let upd := fun p => if (ProjectRow.id p =? project_id)%Z
                      then saved_project_row form p else p in
  List.NoDup (map ProjectRow.project_number rows) ->
  (length (List.filter
             (fun p => String.eqb (ProjectRow.project_number p)
                                  (strip (ProjectForm.project_number form)))
             (map upd rows)) <= 1)%nat ->
  List.NoDup (map ProjectRow.project_number (map upd rows)).
Proof.
  intros upd. induction rows as [|p ps IH]; simpl; [constructor|].
  intros Hnd Hc. inversion Hnd as [|n ns Hnot Hnd']; subst.
  assert (Hold : forall m, In m (map ProjectRow.project_number (map upd ps)) ->
                   m = strip (ProjectForm.project_number form)
                   \/ In m (map ProjectRow.project_number ps)).
  { intros m Hm. apply in_map_iff in Hm. destruct Hm as [q [Hq Hin]].
    apply in_map_iff in Hin. destruct Hin as [q0 [Hq0 Hin]]. subst q m.
    unfold upd. destruct (ProjectRow.id q0 =? project_id)%Z; simpl.
    - left. reflexivity.
    - right. apply in_map. exact Hin. }
  destruct (String.eqb (ProjectRow.project_number (upd p))
                       (strip (ProjectForm.project_number form))) eqn:E;
    simpl in Hc.
  - apply String.eqb_eq in E.
    assert (Hz : length (List.filter
                   (fun p => String.eqb (ProjectRow.project_number p)
                               (strip (ProjectForm.project_number form)))
                   (map upd ps)) = 0%nat) by lia.
    constructor.
    + rewrite E. apply count_zero_not_in. exact Hz.
    + apply IH; [exact Hnd' | lia].
  - apply String.eqb_neq in E. constructor.
    + intros Hin. destruct (Hold _ Hin) as [H|H]; [contradiction|].
      assert (Hp : upd p = p).
      { unfold upd in *. destruct (ProjectRow.id p =? project_id)%Z;
          [|reflexivity]. simpl in E. contradiction. }
      rewrite Hp in H. contradiction.
    + apply IH; [exact Hnd' | exact Hc].
Qed.

(** X20. [save_project] refuses a blank number or client and a number that
    another project has, and then writes nothing.  After a save, the project
    loads with the stripped number and client, the gross sale entered, the
    state codes stripped and in upper case, and a Simples rate that is the
    one entered or, when 0 was entered, 5%, with its products and other
    costs as before; the other projects load as before and project numbers
    that were pairwise distinct still are. *)
Theorem save_project_effect (db : Db.t) (project_id : Z)
    (form : ProjectForm.t) :
  (all_space (ProjectForm.project_number form) = true
   \/ all_space (ProjectForm.client_name form) = true ->
   save_project db project_id form
   = (db, Message "Número do projeto e Cliente são obrigatórios."))
  /\ (snd (save_project db project_id form) <> Done ->
      fst (save_project db project_id form) = db)
  /\ forall db',
       save_project db project_id form = (db', Done) ->
       (forall loaded_id project,
          load_project db project_id = Some (loaded_id, project) ->
          load_project db' project_id
          = Some (loaded_id,
                  Project.mk
                    (strip (ProjectForm.project_number form))
                    (strip (ProjectForm.client_name form))
                    (Some (num_or (Some (ProjectForm.gross_sale form)) 0.0))
                    (Some (upper (strip (ProjectForm.purchase_state form))))
                    (Some (upper (strip (ProjectForm.sale_state form))))
                    (Some (num_or (Some (ProjectForm.simples_rate form))
                                  DEFAULT_SIMPLES_RATE))
                    (Project.products project)
                    (Project.other_costs project)))
       /\ (forall other, other <> project_id ->
             load_project db' other = load_project db other)
       /\ (List.NoDup (map ProjectRow.project_number (Db.projects db)) ->
           List.NoDup (map ProjectRow.project_number (Db.projects db'))).
Proof.
  unfold save_project. rewrite !is_empty_strip.
  split.
  { intros [H|H]; rewrite H; [|rewrite orb_true_r]; reflexivity. }
  destruct (all_space (ProjectForm.project_number form)
            || all_space (ProjectForm.client_name form));
    [split; [reflexivity | discriminate]|].
  destruct (existsb _ (Db.projects db) && _) eqn:Echeck;
    [split; [reflexivity | discriminate]|].
  split; [intros H; contradiction|].
  intros db' H. injection H as <-.
  cbn [Db.projects Db.products Db.other_costs].
  split; [|split].
  - intros loaded_id project. unfold load_project.
    cbn [Db.projects Db.products Db.other_costs].
    rewrite find_updated.
    destruct (List.find _ (Db.projects db)) as [p|]; [|discriminate].
    intros H. injection H as <- <-.
    cbn [option_map saved_project_row ProjectRow.id
         ProjectRow.project_number ProjectRow.client_name
         ProjectRow.gross_sale ProjectRow.purchase_state
         ProjectRow.sale_state ProjectRow.simples_rate
         Project.products Project.other_costs].
    rewrite !state_field_value, simples_rate_twice. reflexivity.
  - intros other Hne. unfold load_project.
    cbn [Db.projects Db.products Db.other_costs].
    rewrite find_updated_other by exact Hne. reflexivity.
  - intros Hnd.
    destruct (existsb (fun p => (ProjectRow.id p =? project_id)%Z)
                      (Db.projects db)) eqn:Eex.
    + simpl in Echeck. apply Z.ltb_ge in Echeck.
      apply updated_numbers_nodup; [exact Hnd | lia].
    + assert (Hsame : map (fun p => if (ProjectRow.id p =? project_id)%Z
                                    then saved_project_row form p else p)
                          (Db.projects db) = Db.projects db).
      { clear Echeck Hnd. induction (Db.projects db) as [|p ps IH];
          [reflexivity|].
        simpl in Eex. apply orb_false_iff in Eex. destruct Eex as [E1 E2].
        simpl. rewrite E1, (IH E2). reflexivity. }
      rewrite Hsame. exact Hnd.
Qed.

Lemma save_project_effect_witness :
  exists db' loaded_id project,
    save_project example_db 2
      (ProjectForm.mk " 010/2024" "Camara" 500 " sp " "" 0) = (db', Done)
    /\ load_project db' 2 = Some (loaded_id, project)
    /\ Project.simples_rate project = Some DEFAULT_SIMPLES_RATE
    /\ Project.purchase_state project = Some "SP"%string.
Proof.
  destruct (save_project_effect example_db 2
              (ProjectForm.mk " 010/2024" "Camara" 500 " sp " "" 0))
    as (_ & _ & H).
  destruct (H (fst (save_project example_db 2
                      (ProjectForm.mk " 010/2024" "Camara" 500 " sp " "" 0)))
              eq_refl) as (Hload & _).
  destruct (load_project example_db 2) as [[lid p]|] eqn:E;
    [|vm_compute in E; discriminate].
  specialize (Hload lid p eq_refl).
  eexists. eexists. eexists. split; [reflexivity|].
  split; [exact Hload|]. split; reflexivity.
Defined.

(** *** Deleting *)

Lemma filter_filter_comm {A : Type} (f g : A -> bool) (xs : list A) :
  List.filter f (List.filter g xs) = List.filter g (List.filter f xs).
Proof.
  induction xs as [|x xs IH]; simpl; [reflexivity|].
  destruct (f x) eqn:Ef, (g x) eqn:Eg; simpl;
    rewrite ?Ef, ?Eg, IH; reflexivity.
Qed.

Lemma filter_map_comm {A B : Type} (h : A -> B) (f : B -> bool) (xs : list A) :
  List.filter f (map h xs) = map h (List.filter (fun x => f (h x)) xs).
Proof.
  induction xs as [|x xs IH]; simpl; [reflexivity|].
  destruct (f (h x)); simpl; rewrite IH; reflexivity.
Qed.

(** X21. Deleting a product, once confirmed, takes its entry out of the
    report of its project and leaves the other entries as they were and in
    their order; the other costs are not touched.  Without the confirmation
    nothing is deleted. *)
Theorem delete_product_report_effect (db : Db.t) (now : string)
    (project_id product_id : Z) (r : Report.t) :
  report_dialog db now project_id = Some (inr r) ->
  delete_product db product_id false = db
  /\ exists r',
       report_dialog (delete_product db product_id true) now project_id
       = Some (inr r')
       /\ Report.products r'
          = List.filter (fun item => negb (Item.id item =? product_id)%Z)
                        (Report.products r)
       /\ Report.other_costs r' = Report.other_costs r
       /\ Report.total_other r' = Report.total_other r.
Proof.
  intros Hrep. split; [reflexivity|].
  destruct (loaded_report _ _ _ _ Hrep) as (lid & project & Hload & Hcalc).
  unfold load_project in Hload.
  destruct (List.find _ (Db.projects db)) as [p|] eqn:Efind; [|discriminate].
  injection Hload as <- <-.
  unfold report_dialog, load_project, delete_product.
  cbn [Db.projects Db.products Db.other_costs]. rewrite Efind.
  match goal with
  | |- exists r', Some (calculate_report now ?P) = _ /\ _ =>
      destruct (calculate_report_closed now P) as (r' & Hr' & _);
      pose proof (closed_report _ _ _ Hr') as Hc';
      pose proof (calculate_report_header _ _ _ Hr') as Hh'
  end.
  pose proof (closed_report _ _ _ Hcalc) as Hc.
  pose proof (calculate_report_header _ _ _ Hcalc) as Hh.
  exists r'. rewrite Hr'. split; [reflexivity|].
  destruct Hc as (_ & _ & Hps & _ & _ & _ & Hoth & _).
  destruct Hc' as (_ & _ & Hps' & _ & _ & _ & Hoth' & _).
  destruct Hh as (_ & _ & _ & _ & Hoc).
  destruct Hh' as (_ & _ & _ & _ & Hoc').
  cbn [Project.products Project.other_costs] in *.
  split; [|split; [rewrite Hoc', Hoc; reflexivity
                  | rewrite Hoth', Hoth; reflexivity]].
  rewrite Hps', Hps.
  rewrite filter_filter_comm.
  rewrite (filter_map_comm _ (fun item => negb (Item.id item =? product_id)%Z)).
  rewrite (filter_map_comm load_product
             (fun q => negb (Item.id (report_item _ q) =? product_id)%Z)).
  reflexivity.
Qed.

Lemma delete_product_report_effect_witness :
  exists r',
    report_dialog (delete_product example_db 1 true) example_now 1
    = Some (inr r')
    /\ map Item.id (Report.products r') = [3%Z].
Proof.
  destruct (report_dialog example_db example_now 1) as [[e|r]|] eqn:E;
    try (vm_compute in E; discriminate).
  destruct (delete_product_report_effect example_db example_now 1 1 r E)
    as (_ & r' & Hr' & Hps & _).
  exists r'. split; [exact Hr'|]. rewrite Hps.
  vm_compute in E. injection E as <-. reflexivity.
Defined.

Lemma find_filtered_other (pid other : Z) (rows : list ProjectRow.t) :
  other <> pid ->
  List.find (fun p => (ProjectRow.id p =? other)%Z)
    (List.filter (fun p => negb (ProjectRow.id p =? pid)%Z) rows)
  = List.find (fun p => (ProjectRow.id p =? other)%Z) rows.
Proof.
  intros Hne. induction rows as [|p ps IH]; simpl; [reflexivity|].
  destruct (ProjectRow.id p =? pid)%Z eqn:E; simpl.
  - apply Z.eqb_eq in E.
    assert (Ho : (ProjectRow.id p =? other)%Z = false)
      by (apply Z.eqb_neq; congruence).
    rewrite Ho. exact IH.
  - destruct (ProjectRow.id p =? other)%Z; [reflexivity | exact IH].
Qed.

Lemma find_filtered_self (pid : Z) (rows : list ProjectRow.t) :
  List.find (fun p => (ProjectRow.id p =? pid)%Z)
    (List.filter (fun p => negb (ProjectRow.id p =? pid)%Z) rows) = None.
Proof.
  induction rows as [|p ps IH]; simpl; [reflexivity|].
  destruct (ProjectRow.id p =? pid)%Z eqn:E; simpl; [exact IH|].
  rewrite E. exact IH.
Qed.

Lemma filter_refers_other {A : Type} (ref : A -> option Z) (pid other : Z)
    (rows : list A) :
  other <> pid ->
  List.filter (fun r => refers_to other (ref r))
    (List.filter (fun r => negb (refers_to pid (ref r))) rows)
  = List.filter (fun r => refers_to other (ref r)) rows.
Proof.
  intros Hne. induction rows as [|r rs IH]; simpl; [reflexivity|].
  destruct (ref r) as [k|] eqn:E; simpl.
  - destruct (k =? pid)%Z eqn:Ep; simpl.
    + apply Z.eqb_eq in Ep.
      assert (Ho : (k =? other)%Z = false) by (apply Z.eqb_neq; congruence).
      rewrite Ho. exact IH.
    + rewrite E. simpl. destruct (k =? other)%Z; rewrite IH; reflexivity.
  - rewrite E. simpl. exact IH.
Qed.

(** X22. Deleting the selected project, once confirmed, makes it
    unreportable and leaves every other project loading as before, whether
    or not foreign keys are enforced.  Its products and other costs go with
    it only under enforced foreign keys; otherwise both tables are left as
    they were.  With no selection there is only the message, and without the
    confirmation nothing is deleted. *)
Theorem delete_project_effect (db : Db.t) (now : string) (pid : Z) :
  delete_project db None true
  = (db, Message "Selecione um projeto para excluir.")
  /\ delete_project db (Some pid) false = (db, Returned)
  /\ exists db',
       delete_project db (Some pid) true = (db', Done)
       /\ report_dialog db' now pid = None
       /\ (forall other, other <> pid ->
             load_project db' other = load_project db other)
       /\ (Db.foreign_keys db = false ->
           Db.products db' = Db.products db
           /\ Db.other_costs db' = Db.other_costs db)
       /\ (Db.foreign_keys db = true ->
           (forall r, In r (Db.products db') ->
              ProductRow.project_id r <> Some pid)
           /\ (forall r, In r (Db.other_costs db') ->
                 CostRow.project_id r <> Some pid)).
Proof.
  split; [reflexivity|]. split; [reflexivity|].
  eexists. split; [reflexivity|].
  cbn [Db.projects Db.products Db.other_costs].
  split; [|split; [|split]].
  - unfold report_dialog, load_project. cbn [Db.projects].
    rewrite find_filtered_self. reflexivity.
  - intros other Hne. unfold load_project.
    cbn [Db.projects Db.products Db.other_costs].
    rewrite (find_filtered_other _ _ _ Hne).
    destruct (Db.foreign_keys db); [|reflexivity].
    rewrite (filter_refers_other ProductRow.project_id _ _ _ Hne).
    rewrite (filter_refers_other CostRow.project_id _ _ _ Hne).
    reflexivity.
  - intros ->. split; reflexivity.
  - intros ->. split; intros r Hin E; apply List.filter_In in Hin;
      destruct Hin as [_ Hin]; rewrite E, refers_to_self in Hin;
      discriminate.
Qed.

Lemma delete_project_effect_witness :
  exists db',
    delete_project example_db (Some 1%Z) true = (db', Done)
    /\ report_dialog db' example_now 1 = None
    /\ load_project db' 2 = load_project example_db 2
    /\ Db.products db' = Db.products example_db.
Proof.
  destruct (delete_project_effect example_db example_now 1)
    as (_ & _ & db' & Hd & Hgone & Hother & Hoff & _).
  exists db'. split; [exact Hd|]. split; [exact Hgone|].
  split; [apply Hother; discriminate|].
  apply Hoff. reflexivity.
Defined.

(** *** Asking for a report *)

Lemma find_number_some (number : string) (rows : list ProjectRow.t)
    (p : ProjectRow.t) :
  List.NoDup (map ProjectRow.project_number rows) ->
  In p rows -> ProjectRow.project_number p = number ->
  List.find (fun q => String.eqb (ProjectRow.project_number q) number) rows
  = Some p.
Proof.
  induction rows as [|q qs IH]; simpl; [intros _ []|].
  intros Hnd Hin Hp. inversion Hnd as [|n ns Hnot Hnd']; subst.
  destruct (String.eqb (ProjectRow.project_number q)
                       (ProjectRow.project_number p)) eqn:E.
  - apply String.eqb_eq in E. destruct Hin as [->|Hin]; [reflexivity|].
    exfalso. apply Hnot. rewrite E. apply in_map. exact Hin.
  - apply String.eqb_neq in E. destruct Hin as [->|Hin]; [contradiction|].
    apply IH; auto.
Qed.

Lemma find_number_none (number : string) (rows : list ProjectRow.t) :
  ~ In number (map ProjectRow.project_number rows) ->
  List.find (fun q => String.eqb (ProjectRow.project_number q) number) rows
  = None.
Proof.
  induction rows as [|q qs IH]; simpl; [reflexivity|].
  intros Hnot.
  destruct (String.eqb (ProjectRow.project_number q) number) eqn:E.
  - apply String.eqb_eq in E. exfalso. apply Hnot. left. exact E.
  - apply IH. intros H. apply Hnot. right. exact H.
Qed.

Lemma show_report_existing (db : Db.t) (now : string) (project_id : Z) :
  In project_id (map ProjectRow.id (Db.projects db)) ->
  exists r,
    show_report db now project_id = Shown (inr r)
    /\ report_dialog db now project_id = Some (inr r).
Proof.
  intros Hin. unfold show_report, report_dialog, load_project.
  destruct (List.find _ (Db.projects db)) as [p|] eqn:E.
  - match goal with
    | |- context [calculate_report now ?P] =>
        destruct (calculate_report_closed now P) as (r & Hr & _)
    end.
    exists r. rewrite Hr. split; reflexivity.
  - exfalso. apply (find_project_none db project_id); assumption.
Qed.

(** X23. [generate_report_main]: a selected project is reported whatever is
    typed.  Without a selection, a cancelled or blank input asks for
    nothing; a number that no project has, compared after stripping and
    letter for letter, is not found; and when the project numbers are
    pairwise distinct, the number of a project gets the report of that
    project. *)
Theorem report_by_number (db : Db.t) (now : string) (pnum : string)
    (ok : bool) :
  (forall pid, generate_report_main db now (Some pid) pnum ok
               = show_report db now pid)
  /\ (ok = false \/ all_space pnum = true ->
      generate_report_main db now None pnum ok = NoRequest)
  /\ (ok = true -> all_space pnum = false ->
      ~ In (strip pnum) (map ProjectRow.project_number (Db.projects db)) ->
      generate_report_main db now None pnum ok = NotFound)
  /\ (ok = true -> all_space pnum = false ->
      List.NoDup (map ProjectRow.project_number (Db.projects db)) ->
      forall p, In p (Db.projects db) ->
        ProjectRow.project_number p = strip pnum ->
        exists r,
          generate_report_main db now None pnum ok = Shown (inr r)
          /\ report_dialog db now (ProjectRow.id p) = Some (inr r)).
Proof.
  unfold generate_report_main. rewrite is_empty_strip.
  split; [reflexivity|]. split; [|split].
  - intros [-> | ->]; [reflexivity | rewrite orb_true_r; reflexivity].
  - intros -> -> Hnot. simpl. rewrite (find_number_none _ _ Hnot). reflexivity.
  - intros -> -> Hnd p Hin Hp. simpl.
    rewrite (find_number_some _ _ p Hnd Hin Hp).
    apply show_report_existing. apply in_map. exact Hin.
Qed.

Lemma report_by_number_witness :
  exists r,
    generate_report_main example_db example_now None " 002/2024 " true
    = Shown (inr r)
    /\ report_dialog example_db example_now 2 = Some (inr r).
Proof.
  destruct (report_by_number example_db example_now " 002/2024 " true)
    as (_ & _ & _ & H).
  apply (H eq_refl eq_refl) with
    (p := ProjectRow.mk 2 "002/2024" "Camara" None None None None None).
  - repeat constructor; simpl; intuition discriminate.
  - simpl. auto.
  - reflexivity.
Defined.

(** X24. A project that has just been created can be reported by typing its
    number, with or without blanks around it: the report is computed and its
    total cost, net value and net percentage are 0. *)
Theorem created_project_reported_by_number (db db' : Db.t) (number : string)
    (ok_number : bool) (client : string) (ok_client : bool)
    (now report_time typed : string) :
  db_wf db ->
  create_project db number ok_number client ok_client now = (db', Done) ->
  strip typed = strip number ->
  exists r,
    generate_report_main db' report_time None typed true = Shown (inr r)
    /\ Report.project_number r = strip number
    /\ Report.client_name r = strip client
    /\ Report.products r = []
    /\ Report.total_cost r == 0
    /\ Report.net_value r == 0
    /\ Report.net_percent r == 0.
Proof.
  intros Hwf Hcreate Htyped.
  destruct (created_project_load _ _ _ _ _ _ _ Hwf Hcreate)
    as (id & Hfresh & Hrows & Hnew & Hload & _).
  destruct (empty_project_figures report_time
              (Project.mk (strip number) (strip client) (Some 0.0)
                 (Some EmptyString) (Some EmptyString)
                 (Some DEFAULT_SIMPLES_RATE) [] []) eq_refl eq_refl)
    as (r & Hr & Hps & _ & _ & _ & _ & _ & _ & Hzero).
  destruct Hzero as (Hc & Hnv & Hnp & _); [reflexivity|].
  destruct (calculate_report_header _ _ _ Hr) as (Hpn & Hcn & _).
  exists r.
  assert (Hblank : all_space typed = false).
  { destruct (all_space typed) eqn:E; [|reflexivity].
    apply strip_empty in E. rewrite Htyped in E.
    unfold create_project in Hcreate.
    destruct ok_number; simpl in Hcreate; [|discriminate].
    rewrite E in Hcreate. discriminate. }
  unfold generate_report_main. rewrite is_empty_strip, Hblank. simpl.
  rewrite Htyped, Hrows.
  assert (Hfind : List.find
            (fun p => String.eqb (ProjectRow.project_number p) (strip number))
            (Db.projects db ++
               [ProjectRow.mk id (strip number) (strip client) (Some 0.0) None
                  None (Some DEFAULT_SIMPLES_RATE) (Some now)])
          = Some (ProjectRow.mk id (strip number) (strip client) (Some 0.0)
                    None None (Some DEFAULT_SIMPLES_RATE) (Some now))).
  { clear - Hnew. induction (Db.projects db) as [|q qs IH]; simpl.
    - rewrite String.eqb_refl. reflexivity.
    - destruct (String.eqb (ProjectRow.project_number q) (strip number)) eqn:E.
      + apply String.eqb_eq in E. exfalso. apply Hnew. left. exact E.
      + apply IH. intros H. apply Hnew. right. exact H. }
  rewrite Hfind. cbn [ProjectRow.id].
  unfold show_report, report_dialog. rewrite Hload, Hr.
  repeat split; assumption.
Qed.

Lemma created_project_reported_by_number_witness :
  exists r,
    generate_report_main
      (fst (create_project example_db " 003/2024" true "Hospital" true
                           example_now))
      example_now None "003/2024  " true = Shown (inr r)
    /\ Report.total_cost r == 0.
Proof.
  destruct (created_project_reported_by_number example_db
              (fst (create_project example_db " 003/2024" true "Hospital" true
                                   example_now))
              " 003/2024" true "Hospital" true example_now example_now
              "003/2024  " example_db_wf eq_refl eq_refl)
    as (r & Hr & _ & _ & _ & Hc & _).
  exists r. split; [exact Hr | exact Hc].
Defined.
